(** * DentalFlow API: data-consistency and mutation layer

    A shallow embedding of the request handlers of the DentalFlow REST
    backend (lib/mongo.js, lib/roles.js, routes/citas.js,
    routes/historias.js, routes/ordenes_laboratorio.js, routes/roles.js,
    routes/procedimientos.js) and the properties of its role resolver,
    nested-array mutators, computed totals and delete gates.

    Conventions of the embedding:
    - JavaScript/BSON values are the inductive [value]; numbers are
      integers ([Z]), so IEEE rounding is outside the model;
    - strings are byte strings; [trim] and [toLowerCase] act on ASCII;
    - a collection is the list of its documents in insertion order;
    - the clock, the identifier generator and the date parser are explicit
      inputs of the handlers (record [env]);
    - a handler is a function from the store to a response and a store. *)

From Stdlib Require Import ZArith Lia Ascii.
From stdpp Require Import gmap strings list fin_maps pretty.

Local Open Scope string_scope.
Local Open Scope list_scope.
Local Open Scope stdpp_scope.
Local Open Scope Z_scope.
Set Warnings "-register-all".

(** ** JavaScript values *)

Module Js.

(** A driver identifier handle: twelve bytes, kept as their lower-case
    hexadecimal rendering. *)
Record ObjectId := mkOid { toHexString : string }.

Inductive value :=
| VUndef
| VNull
| VBool (b : bool)
| VNum (n : Z)
| VStr (s : string)
| VOid (o : ObjectId)
| VDate (t : Z)
| VArr (l : list value)
| VObj (fields : list (string * value)).

Definition ObjectId_eq_dec : forall a b : ObjectId, {a = b} + {a <> b}.
Proof. decide equality; apply String.string_dec. Defined.

Definition value_eq_dec : forall a b : value, {a = b} + {a <> b}.
Proof.
  fix rec 1.
  decide equality;
    try apply Z.eq_dec; try apply String.string_dec; try apply Bool.bool_dec;
    try apply ObjectId_eq_dec.
  - apply (List.list_eq_dec rec).
  - apply List.list_eq_dec. decide equality. apply String.string_dec.
Defined.

#[export] Instance ObjectId_eq : EqDecision ObjectId := ObjectId_eq_dec.
#[export] Instance value_eq : EqDecision value := value_eq_dec.

(** [!!v] of JavaScript: the falsy values are undefined, null, false, 0
    and the empty string. *)
Definition truthy (v : value) : bool :=
  match v with
  | VUndef | VNull => false
  | VBool b => b
  | VNum n => negb (n =? 0)
  | VStr s => negb (String.eqb s "")
  | VOid _ | VDate _ | VArr _ | VObj _ => true
  end.

(** [v == null]. *)
Definition nullish (v : value) : bool :=
  match v with VUndef | VNull => true | _ => false end.

(** Property read [o.k] on an association list of fields. *)
Fixpoint assoc (k : string) (fs : list (string * value)) : option value :=
  match fs with
  | [] => None
  | (k', v) :: fs' => if String.eqb k k' then Some v else assoc k fs'
  end.

(** Property write [o.k = v]: in place when the key exists, appended
    otherwise. *)
Fixpoint assoc_set (k : string) (v : value) (fs : list (string * value))
  : list (string * value) :=
  match fs with
  | [] => [(k, v)]
  | (k', v') :: fs' =>
      if String.eqb k k' then (k, v) :: fs' else (k', v') :: assoc_set k v fs'
  end.

(** [v.k] for a value [v]; undefined when [v] has no such own field. *)
Definition field (v : value) (k : string) : value :=
  match v with
  | VObj fs => default VUndef (assoc k fs)
  | _ => VUndef
  end.

(** Own enumerable properties copied by the spread [{...v}]. *)
Definition spread (v : value) : list (string * value) :=
  match v with
  | VObj fs => fs
  | VArr l => imap (fun i x => (pretty i, x)) l
  | VStr s =>
      imap (fun i c => (pretty i, VStr (String c EmptyString)))
           (String.list_ascii_of_string s)
  | _ => []
  end.

(** ASCII white space removed by [String.prototype.trim]. *)
Definition is_space (c : ascii) : bool :=
  let n := nat_of_ascii c in
  ((9 <=? n) && (n <=? 13))%nat || (n =? 32)%nat.

Fixpoint trimStart (s : string) : string :=
  match s with
  | String c s' => if is_space c then trimStart s' else s
  | EmptyString => EmptyString
  end.

Fixpoint trimEnd (s : string) : string :=
  match s with
  | EmptyString => EmptyString
  | String c s' =>
      match trimEnd s' with
      | EmptyString => if is_space c then EmptyString else String c EmptyString
      | t => String c t
      end
  end.

Definition trim (s : string) : string := trimEnd (trimStart s).

Definition lower (c : ascii) : ascii :=
  let n := nat_of_ascii c in
  if ((65 <=? n) && (n <=? 90))%nat then ascii_of_nat (n + 32) else c.

Fixpoint toLowerCase (s : string) : string :=
  match s with
  | EmptyString => EmptyString
  | String c s' => String (lower c) (toLowerCase s')
  end.

Definition digit (c : ascii) : option Z :=
  let n := nat_of_ascii c in
  if ((48 <=? n) && (n <=? 57))%nat then Some (Z.of_nat (n - 48)) else None.

Fixpoint digits (s : string) (acc : option Z) : option Z :=
  match s with
  | String c s' =>
      match digit c with
      | Some d => digits s' (Some (10 * default 0 acc + d))
      | None => acc
      end
  | EmptyString => acc
  end.

(** [Number.parseInt(s, 10)]: leading white space, an optional sign, the
    longest prefix of decimal digits; [None] is NaN. *)
Definition parseInt10 (s : string) : option Z :=
  match trimStart s with
  | String "-"%char s' => Z.opp <$> digits s' None
  | String "+"%char s' => digits s' None
  | s' => digits s' None
  end.

(** [new Date(v)] as a time value; [None] is an invalid date. The parsing
    of date strings (and of objects through their string form) is the
    argument [parse]. *)
Definition newDate (parse : value -> option Z) (v : value) : option Z :=
  match v with
  | VDate t => Some t
  | VUndef => None
  | VNull => Some 0
  | VBool b => Some (if b then 1 else 0)
  | VNum n => if (Z.abs n <=? 8640000000000000) then Some n else None
  | _ => parse v
  end.

(** [arr.includes(x)] on an array of strings. *)
Definition includes (l : list string) (x : string) : bool :=
  existsb (String.eqb x) l.

End Js.
Export Js.

(** ** The document store and its driver (lib/mongo.js) *)

Module Mongo.

Definition is_hex (c : ascii) : bool :=
  let n := nat_of_ascii c in
  ((48 <=? n) && (n <=? 57) || (97 <=? n) && (n <=? 102)
   || (65 <=? n) && (n <=? 70))%nat.

(** The driver's test for an identifier string: [/^[0-9a-fA-F]{24}$/]. *)
Definition isHex24 (s : string) : bool :=
  (String.length s =? 24)%nat && forallb is_hex (String.list_ascii_of_string s).

Definition ObjectId_fromHex (s : string) : ObjectId := mkOid (toLowerCase s).

(** The driver's constructor [new ObjectId(inputId)] (BSON library of
    driver version 6; earlier versions also took any string of 12
    characters); [None] is a thrown BSONError. [generate time] is the
    identifier the driver's generator yields at this call. An object with
    an [id] field is unwrapped first; a missing value or a number asks the
    generator for a new identifier; a string must be 24 hexadecimal
    characters; anything else throws. *)
Definition ObjectId_new (generate : option Z -> ObjectId) (inputId : value)
  : option ObjectId :=
  let workingId : option value :=
    match inputId with
    | VOid o => Some (VOid o)
    | VObj fs =>
        match assoc "id" fs with
        | Some (VStr s) => Some (VStr s)
        | Some _ => None
        | None => Some inputId
        end
    | _ => Some inputId
    end in
  match workingId with
  | None => None
  | Some (VUndef | VNull) => Some (generate None)
  | Some (VNum t) => Some (generate (Some t))
  | Some (VOid o) => Some o
  | Some (VStr s) => if isHex24 s then Some (ObjectId_fromHex s) else None
  | Some _ => None
  end.

(** The ambient inputs of a request: the clock ([new Date()]), the driver's
    identifier generator ([generate k time] is the identifier produced by
    its [k]-th call during the request) and the date parser behind the
    [Date] constructor ([None] when the result is an invalid date). *)
Record env := {
  now : Z;
  generate : nat -> option Z -> ObjectId;
  mkDate : value -> option Z;
}.

(** [oidMaybe(id)]: [try { return new ObjectId(id) } catch { return null }]. *)
Definition oidMaybe (e : env) (id : value) : option ObjectId :=
  match ObjectId_new (generate e 0%nat) id with
  | Some o => Some o
  | None => None
  end.

(** *** Collection operations *)

Section Collection.
Context {D : Type} `{EqDecision D}.

Definition findOne (sel : D -> bool) (col : list D) : option D :=
  List.find sel col.

Definition countDocuments (sel : D -> bool) (col : list D) : nat :=
  length (List.filter sel col).

Definition estimatedDocumentCount (col : list D) : nat := length col.

Record UpdateResult := {
  matchedCount : nat;
  modifiedCount : nat;
}.

(** [updateOne(filter, update)]: the first matching document is replaced
    by its update; it counts as modified when the update changed it. *)
Fixpoint updateOne (sel : D -> bool) (upd : D -> D) (col : list D)
  : UpdateResult * list D :=
  match col with
  | [] => ({| matchedCount := 0; modifiedCount := 0 |}, [])
  | d :: col' =>
      if sel d then
        ({| matchedCount := 1;
            modifiedCount := if decide (upd d = d) then 0 else 1 |},
         upd d :: col')
      else
        let '(r, col'') := updateOne sel upd col' in (r, d :: col'')
  end.

(** [deleteOne(filter)]: the first matching document is removed. *)
Fixpoint deleteOne (sel : D -> bool) (col : list D) : nat * list D :=
  match col with
  | [] => (0%nat, [])
  | d :: col' =>
      if sel d then (1%nat, col')
      else let '(n, col'') := deleteOne sel col' in (n, d :: col'')
  end.

Definition insertOne (d : D) (col : list D) : list D := col ++ [d].
Definition insertMany (ds : list D) (col : list D) : list D := col ++ ds.
End Collection.

(** *** Update operators on an array field

    An array-valued field is [Some l]; [None] is an absent field. *)

(** [$unset: { "field.i": 1 }]: an existing element becomes null, the
    array keeps its length; a position that does not exist is left alone. *)
Definition unset_index (i : nat) (arr : option (list value))
  : option (list value) :=
  match arr with
  | Some l => Some (<[i := VNull]> l)
  | None => None
  end.

(** [$pull: { field: null }]: every null element is removed. *)
Definition pull_null (arr : option (list value)) : option (list value) :=
  match arr with
  | Some l => Some (List.filter (fun v => negb (nullish v)) l)
  | None => None
  end.

(** [$set: { "field.i": v }]: an existing element is replaced; beyond the
    end the array is padded with nulls up to position [i]. For an absent
    field the store would create an embedded document; no handler reaches
    that case (the element lookup fails first) and the field stays absent. *)
Definition set_index (i : nat) (v : value) (arr : option (list value))
  : option (list value) :=
  match arr with
  | Some l =>
      if (i <? length l)%nat then Some (<[i := v]> l)
      else Some (l ++ replicate (i - length l) VNull ++ [v])
  | None => None
  end.

(** [$push: { field: { $each: items } }]; creates the array when absent. *)
Definition push_each (items : list value) (arr : option (list value))
  : option (list value) :=
  Some (default [] arr ++ items).

(** Query equality [{ field: q }] against a stored value: the value itself
    or, for an array, one of its elements. *)
Definition matches (stored q : value) : bool :=
  match stored with
  | VArr l => bool_decide (stored = q) || existsb (fun x => bool_decide (x = q)) l
  | _ => bool_decide (stored = q)
  end.

(** An array without null (or undefined) elements. *)
Definition no_null (l : list value) : Prop :=
  Forall (fun v => nullish v = false) l.

(** *** HTTP responses: status code and JSON body *)

Record response := {
  status : nat;
  body : list (string * value);
}.

Definition json (st : nat) (b : list (string * value)) : response :=
  {| status := st; body := b |}.

Definition fail (st : nat) (msg : string) : response :=
  json st [("ok", VBool false); ("error", VStr msg)].

Definition num (n : nat) : value := VNum (Z.of_nat n).

(** The answer of the index lookups that find no element. *)
Definition outOfRange : response := fail 404 "Índice fuera de rango".

End Mongo.
Export Mongo.

(** ** Documents and collections *)

Module Store.

(** A role of the catalog. Seeded roles carry no timestamps. *)
Record Role := {
  role_id : ObjectId;
  role_nombre : string;
  role_descripcion : option string;
  role_permisos : list string;
  role_createdAt : option Z;
  role_updatedAt : option Z;
}.

(** A user is kept as the object the controller stores (the normalised
    payload spread into the document). *)
Definition Usuario := gmap string value.

(** A line item of an appointment. [cantidad] is optional because the
    total reads it through [p.cantidad ?? 1]; [procedimiento_id] is the
    legacy reference to a procedure type, never written by the routes. *)
Record LineItem := {
  procedimiento_id : option ObjectId;
  li_nombre : string;
  costo_unitario : Z;
  cantidad : option Z;
}.

Record Cita := {
  cita_id : ObjectId;
  fecha : Z;
  paciente_id : string;
  usuario_id : ObjectId;
  cita_estado : string;
  motivo : option string;
  procedimientos : list LineItem;
  total : Z;
  cita_createdAt : Z;
  cita_updatedAt : Z;
}.

(** Of a history and of a lab order the records keep the fields the
    routes below read or write; the remaining arrays of a history are in
    [hist_otros]. *)
Record Historia := {
  hist_id : ObjectId;
  hist_paciente_id : string;
  procedimientos_realizados : option (list value);
  hist_otros : list (string * value);
  hist_updatedAt : Z;
}.

Record OrdenLab := {
  orden_id : ObjectId;
  orden_cita_id : ObjectId;
  orden_usuario_id : ObjectId;
  fecha_creacion : Z;
  orden_estado : string;
  observaciones : value;
  productos : option (list value);
  orden_updatedAt : Z;
}.

Record Procedimiento := {
  proc_id : ObjectId;
  tipo_procedimiento : string;
  costo : Z;
  activo : bool;
}.

Record Db := {
  roles : list Role;
  usuarios : list Usuario;
  citas : list Cita;
  historias_clinicas : list Historia;
  ordenes_laboratorio : list OrdenLab;
  procedimientos_col : list Procedimiento;
}.

#[export] Instance Role_eq : EqDecision Role.
Proof. solve_decision. Defined.
#[export] Instance LineItem_eq : EqDecision LineItem.
Proof. solve_decision. Defined.
#[export] Instance Cita_eq : EqDecision Cita.
Proof. solve_decision. Defined.
#[export] Instance Historia_eq : EqDecision Historia.
Proof. solve_decision. Defined.
#[export] Instance OrdenLab_eq : EqDecision OrdenLab.
Proof. solve_decision. Defined.
#[export] Instance Procedimiento_eq : EqDecision Procedimiento.
Proof. solve_decision. Defined.

Definition set_roles (rs : list Role) (db : Db) : Db :=
  {| roles := rs; usuarios := usuarios db; citas := citas db;
     historias_clinicas := historias_clinicas db;
     ordenes_laboratorio := ordenes_laboratorio db;
     procedimientos_col := procedimientos_col db |}.

Definition set_usuarios (us : list Usuario) (db : Db) : Db :=
  {| roles := roles db; usuarios := us; citas := citas db;
     historias_clinicas := historias_clinicas db;
     ordenes_laboratorio := ordenes_laboratorio db;
     procedimientos_col := procedimientos_col db |}.

Definition set_citas (cs : list Cita) (db : Db) : Db :=
  {| roles := roles db; usuarios := usuarios db; citas := cs;
     historias_clinicas := historias_clinicas db;
     ordenes_laboratorio := ordenes_laboratorio db;
     procedimientos_col := procedimientos_col db |}.

Definition set_historias (hs : list Historia) (db : Db) : Db :=
  {| roles := roles db; usuarios := usuarios db; citas := citas db;
     historias_clinicas := hs;
     ordenes_laboratorio := ordenes_laboratorio db;
     procedimientos_col := procedimientos_col db |}.

Definition set_ordenes (os : list OrdenLab) (db : Db) : Db :=
  {| roles := roles db; usuarios := usuarios db; citas := citas db;
     historias_clinicas := historias_clinicas db;
     ordenes_laboratorio := os;
     procedimientos_col := procedimientos_col db |}.

Definition set_procedimientos (ps : list Procedimiento) (db : Db) : Db :=
  {| roles := roles db; usuarios := usuarios db; citas := citas db;
     historias_clinicas := historias_clinicas db;
     ordenes_laboratorio := ordenes_laboratorio db;
     procedimientos_col := ps |}.

End Store.
Export Store.

(** ** lib/roles.js *)

Module Roles.

(** The allowed catalog (the same list as the validation enum). *)
Definition ROLE_NAMES : list string :=
  ["Administrador"; "Odontologo"; "Asistente"; "Laboratorista"].

(** [payload.k], undefined when the key is absent. *)
Definition get (o : gmap string value) (k : string) : value :=
  default VUndef (o !! k).

(** The helper inside [normalizeRole]: a string goes through the driver's
    constructor, an identifier is returned as it is, anything else (and
    any throw) gives null. *)
Definition parseOid (e : env) (v : value) : option ObjectId :=
  match v with
  | VStr _ =>
      match ObjectId_new (generate e 0%nat) v with
      | Some o => Some o
      | None => None
      end
  | VOid o => Some o
  | _ => None
  end.

Definition byId (rid : ObjectId) (r : Role) : bool :=
  bool_decide (role_id r = rid).

(** The query [{ nombre: v }]: only a string can equal a role's name. *)
Definition byNombre (v : value) (r : Role) : bool :=
  bool_decide (VStr (role_nombre r) = v).

(** [ROLE_NAMES.includes(v)] for an arbitrary value (strict equality). *)
Definition isRoleName (v : value) : bool :=
  match v with
  | VStr s => includes ROLE_NAMES s
  | _ => false
  end.

(** The identifier lookup of the resolver: parse, then find by [_id]. *)
Definition resolveById (e : env) (db : Db) (v : value) : option Role :=
  match parseOid e v with
  | Some rid => findOne (byId rid) (roles db)
  | None => None
  end.

Definition normalizeRole (e : env) (db : Db) (payload : gmap string value)
  : gmap string value :=
  let out := payload in
  if truthy (get out "rol_id") && negb (truthy (get out "rol")) then
    (* only rol_id *)
    match parseOid e (get out "rol_id") with
    | Some rid =>
        match findOne (byId rid) (roles db) with
        | Some r =>
            if truthy (VStr (role_nombre r))
            then <["rol" := VStr (role_nombre r)]> out
            else out
        | None => out
        end
    | None => out
    end
  else if truthy (get out "rol") && negb (truthy (get out "rol_id")) then
    (* only rol (name) *)
    if negb (isRoleName (get out "rol")) then out
    else
      match findOne (byNombre (get out "rol")) (roles db) with
      | Some r => <["rol_id" := VOid (role_id r)]> out
      | None => out
      end
  else if truthy (get out "rol") && truthy (get out "rol_id") then
    (* both *)
    match resolveById e db (get out "rol_id") with
    | Some rById =>
        if truthy (VStr (role_nombre rById))
           && negb (bool_decide (VStr (role_nombre rById) = get out "rol"))
        then <["rol" := VStr (role_nombre rById)]> out
        else out
    | None =>
        if isRoleName (get out "rol") then
          match findOne (byNombre (get out "rol")) (roles db) with
          | Some rByName => <["rol_id" := VOid (role_id rByName)]> out
          | None => out
          end
        else out
    end
  else out.

Definition seedDescripcion (nombre : string) : string :=
  if String.eqb nombre "Administrador" then "Gestión del sistema"
  else if String.eqb nombre "Odontologo" then "Atención clínica"
  else if String.eqb nombre "Asistente" then "Apoyo a operación"
  else "Laboratorio".

(** The documents built by [ROLE_NAMES.map(...)]; the driver gives the
    [i]-th one its [i]-th generated identifier on insertion. *)
Definition seedDocs (e : env) : list Role :=
  imap (fun i nombre =>
          {| role_id := generate e i None;
             role_nombre := nombre;
             role_descripcion := Some (seedDescripcion nombre);
             role_permisos := [];
             role_createdAt := None;
             role_updatedAt := None |})
       ROLE_NAMES.

Definition ensureRolesSeed (e : env) (db : Db) : Db :=
  let count := estimatedDocumentCount (roles db) in
  if (0 <? count)%nat then db
  else set_roles (insertMany (seedDocs e) (roles db)) db.

(** The catalog invariant kept by the role routes and by the seed: every
    role carries a name of the closed enumeration. *)
Definition catalog_wf (db : Db) : Prop :=
  Forall (fun r => includes ROLE_NAMES (role_nombre r) = true) (roles db).

(** The fixed contents of the seed (name, description, permissions),
    without the generated identifiers. *)
Definition seedContents : list (string * option string * list string) :=
  [("Administrador", Some "Gestión del sistema", []);
   ("Odontologo", Some "Atención clínica", []);
   ("Asistente", Some "Apoyo a operación", []);
   ("Laboratorista", Some "Laboratorio", [])].

Definition contents (r : Role) : string * option string * list string :=
  (role_nombre r, role_descripcion r, role_permisos r).

End Roles.

(** ** routes/citas.js *)

Module Citas.

Definition ESTADOS : list string :=
  ["Pendiente"; "Confirmada"; "Cancelada"; "Completada"].

(** The text of a validation failure (the serialised issue list) is not
    modelled; every such failure answers 400 with this stand-in. *)
Definition zodError : string := "ZodError".

(** [parseDateStrict]: a [Date] is kept, anything else goes through the
    [Date] constructor; an invalid date throws ([None]). *)
Definition parseDateStrict (e : env) (v : value) : option Z :=
  match v with
  | VDate t => Some t
  | _ => newDate (mkDate e) v
  end.

(** [asNumber] and [parseInt(_, 10)] on a number of the model. *)
Definition asNumber (n : Z) : Z := n.
Definition parseInt (n : Z) : Z := n.

(** A line item of a request body: [cantidad] may be missing or null. *)
Record ProcIn := {
  in_nombre : string;
  in_costo_unitario : Z;
  in_cantidad : option Z;
}.

(** The schema [Proc]: a name of at least one character, a non-negative
    cost, a quantity of at least one that defaults to 1. *)
Definition Proc (p : ProcIn) : option ProcIn :=
  let cantidad := match in_cantidad p with
                  | None => 1
                  | Some c => parseInt c
                  end in
  if (1 <=? String.length (in_nombre p))%nat
     && (0 <=? asNumber (in_costo_unitario p))
     && (1 <=? cantidad)
  then Some {| in_nombre := in_nombre p;
               in_costo_unitario := asNumber (in_costo_unitario p);
               in_cantidad := Some cantidad |}
  else None.

(** [z.array(Proc)]: every element must parse. *)
Definition ProcArray (l : list ProcIn) : option (list ProcIn) :=
  mapM Proc l.

Definition normalizeProcs (arr : list ProcIn) : list LineItem :=
  List.filter
    (fun p => negb (String.eqb (li_nombre p) "")
              && (0 <=? costo_unitario p)
              && match cantidad p with
                 | Some c => 1 <=? c
                 | None => false
                 end)
    (List.map
       (fun p => {| procedimiento_id := None;
                    li_nombre := trim (in_nombre p);
                    costo_unitario := asNumber (in_costo_unitario p);
                    cantidad := Some match in_cantidad p with
                                     | Some c => parseInt c
                                     | None => 1
                                     end |})
       arr).

Definition computeTotal (procs : list LineItem) : Z :=
  fold_left (fun acc p => acc + costo_unitario p * default 1 (cantidad p))
            procs 0.

(** The total as the specification words it: the sum over the line items
    of unit cost times quantity. *)
Definition quantity (p : LineItem) : Z := default 1 (cantidad p).

Fixpoint sumLineItems (procs : list LineItem) : Z :=
  match procs with
  | [] => 0
  | p :: ps => costo_unitario p * quantity p + sumLineItems ps
  end.

(** [z.preprocess(asNumber, z.number().nonnegative()).optional()]: a
    missing value stays missing, a number must be non-negative. The outer
    [option] is the validation result. *)
Definition totalOptional (raw : option Z) : option (option Z) :=
  match raw with
  | None => Some None
  | Some n => if 0 <=? asNumber n then Some (Some (asNumber n)) else None
  end.

(** [schema.default(d)]: a missing input is replaced by [d] before the
    inner schema runs. *)
Definition withDefault (d : Z) (inner : option Z -> option (option Z))
    (raw : option Z) : option (option Z) :=
  inner (match raw with None => Some d | Some n => Some n end).

(** The body of [POST /api/citas] as received. *)
Record CitaBody := {
  b_fecha : value;
  b_paciente_id : string;
  b_usuario_id : string;
  b_estado : option string;
  b_motivo : option string;
  b_procedimientos : option (list ProcIn);
  b_total : option Z;
}.

Record CitaCreated := {
  c_fecha : Z;
  c_paciente_id : string;
  c_usuario_id : string;
  c_estado : option string;
  c_motivo : option string;
  c_procedimientos : option (list ProcIn);
  c_total : option Z;
}.

Definition enumOptional (allowed : list string) (s : option string)
  : option (option string) :=
  match s with
  | None => Some None
  | Some x => if includes allowed x then Some (Some x) else None
  end.

Definition arrayOptional (l : option (list ProcIn))
  : option (option (list ProcIn)) :=
  match l with
  | None => Some None
  | Some xs => match ProcArray xs with
               | Some ys => Some (Some ys)
               | None => None
               end
  end.

(** The schema [CitaCreate]; [total] is [.optional().default(0)]. *)
Definition CitaCreate (e : env) (b : CitaBody) : option CitaCreated :=
  f ← parseDateStrict e (b_fecha b);
  _ ← guard (1 <= String.length (b_paciente_id b))%nat;
  _ ← guard (isHex24 (b_usuario_id b) = true);
  est ← enumOptional ESTADOS (b_estado b);
  procs ← arrayOptional (b_procedimientos b);
  tot ← withDefault 0 totalOptional (b_total b);
  Some {| c_fecha := f;
          c_paciente_id := b_paciente_id b;
          c_usuario_id := b_usuario_id b;
          c_estado := est;
          c_motivo := b_motivo b;
          c_procedimientos := procs;
          c_total := tot |}.

(** [s?.trim() || null]. *)
Definition trimOrNull (s : option string) : option string :=
  match s with
  | Some x => if String.eqb (trim x) "" then None else Some (trim x)
  | None => None
  end.

(** [POST /api/citas]. *)
Definition post (e : env) (b : CitaBody) (db : Db) : response * Db :=
  match CitaCreate e b with
  | None => (fail 400 zodError, db)
  | Some parsed =>
      match ObjectId_new (generate e 0%nat) (VStr (trim (c_usuario_id parsed))) with
      | None => (fail 400 "input must be a 24 character hex string", db)
      | Some usuarioOid =>
          let procs := normalizeProcs (default [] (c_procedimientos parsed)) in
          let totalCalc := computeTotal procs in
          let insertedId := generate e 0%nat None in
          let doc :=
            {| cita_id := insertedId;
               fecha := c_fecha parsed;
               paciente_id := trim (c_paciente_id parsed);
               usuario_id := usuarioOid;
               cita_estado := default "Pendiente" (c_estado parsed);
               motivo := trimOrNull (c_motivo parsed);
               procedimientos := procs;
               total := match c_total parsed with
                        | Some t => t
                        | None => totalCalc
                        end;
               cita_createdAt := now e;
               cita_updatedAt := now e |} in
          (json 201 [("ok", VBool true);
                     ("id", VStr (toHexString insertedId));
                     ("total", VNum (total doc))],
           set_citas (insertOne doc (citas db)) db)
      end
  end.

(** The body of [PATCH /api/citas/:id] as received. *)
Record PatchBody := {
  pb_fecha : value;
  pb_paciente_id : option string;
  pb_usuario_id : option string;
  pb_estado : option string;
  pb_motivo : option string;
  pb_procedimientos : option (list ProcIn);
  pb_total : option Z;
}.

Record CitaPatched := {
  p_fecha : option Z;
  p_paciente_id : option string;
  p_usuario_id : option string;
  p_estado : option string;
  p_motivo : option string;
  p_procedimientos : option (list ProcIn);
  p_total : option Z;
}.

(** The schema [CitaPatch]: every field optional, at least one key
    present. [fecha] is [z.preprocess(..., z.date()).optional()]: a
    missing key stays missing; a present falsy value (null, the empty
    string, 0, false) is turned into undefined by the preprocessor and
    then fails [z.date()]; a truthy value goes through the [Date]
    constructor, and an invalid date throws. *)
Definition CitaPatch (e : env) (b : PatchBody) : option CitaPatched :=
  f ← match pb_fecha b with
      | VUndef => Some None
      | v => if truthy v
             then match parseDateStrict e v with
                  | Some t => Some (Some t)
                  | None => None
                  end
             else None
      end;
  pid ← match pb_paciente_id b with
        | None => Some None
        | Some s => if (1 <=? String.length s)%nat then Some (Some s) else None
        end;
  uid ← match pb_usuario_id b with
        | None => Some None
        | Some s => if isHex24 s then Some (Some s) else None
        end;
  est ← enumOptional ESTADOS (pb_estado b);
  procs ← arrayOptional (pb_procedimientos b);
  tot ← totalOptional (pb_total b);
  let parsed := {| p_fecha := f; p_paciente_id := pid; p_usuario_id := uid;
                   p_estado := est; p_motivo := pb_motivo b;
                   p_procedimientos := procs; p_total := tot |} in
  if bool_decide (pb_fecha b = VUndef) && bool_decide (pid = None)
     && bool_decide (uid = None) && bool_decide (est = None)
     && bool_decide (pb_motivo b = None) && bool_decide (procs = None)
     && bool_decide (tot = None)
  then None
  else Some parsed.

(** The [$set] document of the patch, as the update it performs. *)
Definition applySet (e : env) (parsed : CitaPatched)
    (usuarioOid : option ObjectId) (c : Cita) : Cita :=
  let procs := match p_procedimientos parsed with
               | Some l => Some (normalizeProcs l)
               | None => None
               end in
  {| cita_id := cita_id c;
     fecha := default (fecha c) (p_fecha parsed);
     paciente_id := match p_paciente_id parsed with
                    | Some s => trim s
                    | None => paciente_id c
                    end;
     usuario_id := default (usuario_id c) usuarioOid;
     cita_estado := default (cita_estado c) (p_estado parsed);
     motivo := match p_motivo parsed with
               | Some s => trimOrNull (Some s)
               | None => motivo c
               end;
     procedimientos := default (procedimientos c) procs;
     total := match p_total parsed with
              | Some t => t
              | None => match procs with
                        | Some ps => computeTotal ps
                        | None => total c
                        end
              end;
     cita_createdAt := cita_createdAt c;
     cita_updatedAt := now e |}.

Definition byCitaId (id : ObjectId) (c : Cita) : bool :=
  bool_decide (cita_id c = id).

(** [PATCH /api/citas/:id]. *)
Definition patch (e : env) (id : string) (b : PatchBody) (db : Db)
  : response * Db :=
  match oidMaybe e (VStr id) with
  | None => (fail 400 "id inválido", db)
  | Some _id =>
      match CitaPatch e b with
      | None => (fail 400 zodError, db)
      | Some parsed =>
          let usuarioOid :=
            match p_usuario_id parsed with
            | Some s => oidMaybe e (VStr s)
            | None => None
            end in
          if bool_decide (p_usuario_id parsed <> None)
             && bool_decide (usuarioOid = None)
          then (fail 400 "usuario_id inválido", db)
          else
            let '(r, cs) :=
              updateOne (byCitaId _id)
                        (applySet e parsed usuarioOid) (citas db) in
            if (matchedCount r =? 0)%nat
            then (fail 404 "Cita no encontrada", db)
            else (json 200 [("ok", VBool true);
                            ("modified", num (modifiedCount r))],
                  set_citas cs db)
      end
  end.

End Citas.

(** ** routes/historias.js *)

Module Historias.

Definition parseDateStrict (e : env) (v : value) : option Z :=
  match v with
  | VDate t => Some t
  | _ => newDate (mkDate e) v
  end.

(** The body of a procedure patch; [VUndef] is a missing [fecha]. *)
Record ProcPatchBody := {
  pp_tratamiento : option string;
  pp_fecha : value;
  pp_odontologo : option string;
  pp_resultado : option string;
}.

Record ProcPatched := {
  tratamiento : option string;
  fecha_proc : option Z;
  odontologo : option string;
  resultado : option string;
}.

(** The schema [ProcPatch]: every field optional, at least one present. *)
Definition ProcPatch (e : env) (b : ProcPatchBody) : option ProcPatched :=
  t ← match pp_tratamiento b with
      | None => Some None
      | Some s => if (1 <=? String.length s)%nat then Some (Some s) else None
      end;
  f ← match pp_fecha b with
      | VUndef => Some None
      | v => match parseDateStrict e v with
             | Some d => Some (Some d)
             | None => None
             end
      end;
  if bool_decide (t = None) && bool_decide (f = None)
     && bool_decide (pp_odontologo b = None)
     && bool_decide (pp_resultado b = None)
  then None
  else Some {| tratamiento := t; fecha_proc := f;
               odontologo := pp_odontologo b;
               resultado := pp_resultado b |}.

(** [z.string().optional()] on a field of the merged object. *)
Definition stringOptional (v : value) : option (option string) :=
  match v with
  | VUndef => Some None
  | VStr s => Some (Some s)
  | _ => None
  end.

Definition optField (k : string) (v : option string)
  : list (string * value) :=
  match v with
  | Some s => [(k, VStr s)]
  | None => []
  end.

(** [ProcRealizado.parse({ ...curr, ...patch })]: each field is taken from
    the patch when it is there and from the current element otherwise; the
    result holds the schema's fields only. *)
Definition ProcRealizado (e : env) (curr : value) (patch : ProcPatched)
  : option value :=
  let pick (k : string) (p : option value) : value :=
    match p with Some v => v | None => field curr k end in
  t ← match pick "tratamiento" (VStr <$> tratamiento patch) with
      | VStr s => if (1 <=? String.length s)%nat then Some s else None
      | _ => None
      end;
  f ← parseDateStrict e (pick "fecha" (VDate <$> fecha_proc patch));
  o ← stringOptional (pick "odontologo" (VStr <$> odontologo patch));
  r ← stringOptional (pick "resultado" (VStr <$> resultado patch));
  Some (VObj ([("tratamiento", VStr t); ("fecha", VDate f)]
              ++ optField "odontologo" o ++ optField "resultado" r)).

Definition byPaciente (paciente_id : string) (h : Historia) : bool :=
  String.eqb (hist_paciente_id h) paciente_id.

Definition byHistId (id : ObjectId) (h : Historia) : bool :=
  bool_decide (hist_id h = id).

(** [(h.procedimientos_realizados || [])[idx]]. *)
Definition elementAt (arr : option (list value)) (idx : Z) : value :=
  default VUndef (default [] arr !! Z.to_nat idx).

Definition setArray (f : option (list value) -> option (list value))
    (t : option Z) (h : Historia) : Historia :=
  {| hist_id := hist_id h;
     hist_paciente_id := hist_paciente_id h;
     procedimientos_realizados := f (procedimientos_realizados h);
     hist_otros := hist_otros h;
     hist_updatedAt := default (hist_updatedAt h) t |}.

(** [PATCH /api/historias/:paciente_id/procedimientos/:index]. *)
Definition patch_procedimiento (e : env) (paciente_id index : string)
    (b : ProcPatchBody) (db : Db) : response * Db :=
  match parseInt10 index with
  | None => (fail 400 "index inválido", db)
  | Some idx =>
      if idx <? 0 then (fail 400 "index inválido", db)
      else
        match ProcPatch e b with
        | None => (fail 400 Citas.zodError, db)
        | Some patch =>
            match findOne (byPaciente paciente_id) (historias_clinicas db) with
            | None => (fail 404 "Historia no encontrada", db)
            | Some h =>
                let curr := elementAt (procedimientos_realizados h) idx in
                if negb (truthy curr)
                then (fail 404 "Índice fuera de rango", db)
                else
                  match ProcRealizado e curr patch with
                  | None => (fail 400 Citas.zodError, db)
                  | Some merged =>
                      let '(r, hs) :=
                        updateOne (byHistId (hist_id h))
                          (setArray (set_index (Z.to_nat idx) merged)
                                    (Some (now e)))
                          (historias_clinicas db) in
                      (json 200 [("ok", VBool true);
                                 ("modified", num (modifiedCount r))],
                       set_historias hs db)
                  end
            end
        end
  end.

(** [DELETE /api/historias/:paciente_id/procedimientos/:index]: the
    element is looked up, then unset (leaving a null) and the nulls are
    pulled. *)
Definition delete_procedimiento (e : env) (paciente_id index : string)
    (db : Db) : response * Db :=
  match parseInt10 index with
  | None => (fail 400 "index inválido", db)
  | Some idx =>
      if idx <? 0 then (fail 400 "index inválido", db)
      else
        match findOne (byPaciente paciente_id) (historias_clinicas db) with
        | None => (fail 404 "Historia no encontrada", db)
        | Some h =>
            let curr := elementAt (procedimientos_realizados h) idx in
            if negb (truthy curr)
            then (fail 404 "Índice fuera de rango", db)
            else
              let '(_, hs1) :=
                updateOne (byHistId (hist_id h))
                  (setArray (unset_index (Z.to_nat idx)) None)
                  (historias_clinicas db) in
              let '(r2, hs2) :=
                updateOne (byHistId (hist_id h))
                  (setArray pull_null (Some (now e))) hs1 in
              (json 200 [("ok", VBool true);
                         ("deleted", VBool (0 <? modifiedCount r2)%nat)],
               set_historias hs2 db)
        end
  end.

(** The procedure array of a patient's history, as a reader finds it. *)
Definition procedimientosOf (paciente_id : string) (db : Db)
  : option (list value) :=
  match findOne (byPaciente paciente_id) (historias_clinicas db) with
  | Some h => procedimientos_realizados h
  | None => None
  end.

(** The store keeps [_id] unique within the collection. *)
Definition ids_unique (db : Db) : Prop :=
  NoDup (List.map hist_id (historias_clinicas db)).

End Historias.

(** ** routes/ordenes_laboratorio.js *)

Module Ordenes.

Definition ESTADOS : list string :=
  ["Pendiente"; "En producción"; "Listo para enviar"; "Entregada";
   "Rechazada"].

Definition normalizeObservaciones (v : value) : value :=
  match v with
  | VUndef | VNull => VNull
  | VStr s => VObj [("notas", VStr (trim s))]
  | VArr _ => VObj [("items", v)]
  | VObj _ | VOid _ | VDate _ => v
  | VBool _ | VNum _ => VObj [("valor", v)]
  end.

(** A product of a request body. *)
Record Producto := {
  tipo_producto : string;
  especificaciones : option string;
  prod_cantidad : option Z;
}.

(** The schema [Producto] on a request item: a type of at least one
    character, a positive quantity that defaults to 1. *)
Definition ProductoSchema (p : Producto) : option Producto :=
  let c := default 1 (prod_cantidad p) in
  if (1 <=? String.length (tipo_producto p))%nat && (0 <? c)
  then Some {| tipo_producto := tipo_producto p;
               especificaciones := especificaciones p;
               prod_cantidad := Some c |}
  else None.

(** [z.array(Producto).min(1).optional()]. *)
Definition productosOptional (l : option (list Producto))
  : option (option (list Producto)) :=
  match l with
  | None => Some None
  | Some [] => None
  | Some xs => match mapM ProductoSchema xs with
               | Some ys => Some (Some ys)
               | None => None
               end
  end.

Record ProductoParcial := {
  par_tipo_producto : option string;
  par_especificaciones : option string;
  par_cantidad : option Z;
}.

Definition ProductoParcialSchema (p : ProductoParcial)
  : option ProductoParcial :=
  if match par_tipo_producto p with
     | Some s => (1 <=? String.length s)%nat
     | None => true
     end
     && match par_cantidad p with
        | Some c => 0 <? c
        | None => true
        end
  then Some p else None.

(** The body of [PATCH /api/ordenes-laboratorio/:id]; [VUndef] is a
    missing [observaciones]. After validation the indexes are
    non-negative. *)
Record OrdenLabPatch := {
  estado : option string;
  obs : value;
  set_productos : option (list Producto);
  push_productos : option (list Producto);
  producto_patch : option (Z * ProductoParcial);
  producto_delete_index : option Z;
}.

Definition OrdenLabPatchSchema (b : OrdenLabPatch) : option OrdenLabPatch :=
  est ← Citas.enumOptional ESTADOS (estado b);
  sp ← productosOptional (set_productos b);
  pp ← productosOptional (push_productos b);
  pt ← match producto_patch b with
       | None => Some None
       | Some (i, item) =>
           if 0 <=? i
           then match ProductoParcialSchema item with
                | Some it => Some (Some (i, it))
                | None => None
                end
           else None
       end;
  di ← match producto_delete_index b with
       | None => Some None
       | Some i => if 0 <=? i then Some (Some i) else None
       end;
  if bool_decide (est = None) && bool_decide (obs b = VUndef)
     && bool_decide (sp = None) && bool_decide (pp = None)
     && bool_decide (pt = None) && bool_decide (di = None)
  then None
  else Some {| estado := est; obs := obs b; set_productos := sp;
               push_productos := pp; producto_patch := pt;
               producto_delete_index := di |}.

(** The stored form of a validated product. *)
Definition storeProducto (p : Producto) : value :=
  VObj [("tipo_producto", VStr (trim (tipo_producto p)));
        ("especificaciones",
         match especificaciones p with
         | Some s => VStr (trim s)
         | None => VNull
         end);
        ("cantidad", VNum (default 1 (prod_cantidad p)))].

(** [Producto.parse(merged)] on a merged element: only its success
    matters, the parsed copy is discarded. *)
Definition validProducto (merged : list (string * value)) : bool :=
  match default VUndef (assoc "tipo_producto" merged) with
  | VStr s => (1 <=? String.length s)%nat
  | _ => false
  end
  && match default VUndef (assoc "especificaciones" merged) with
     | VUndef | VStr _ => true
     | _ => false
     end
  && match default VUndef (assoc "cantidad" merged) with
     | VUndef => true
     | VNum n => 0 <? n
     | _ => false
     end.

(** [{ ...curr, ...overrides }] of the product patch. *)
Definition mergeProducto (curr : value) (item : ProductoParcial)
  : list (string * value) :=
  let m0 := spread curr in
  let m1 := match par_tipo_producto item with
            | Some s => assoc_set "tipo_producto" (VStr (trim s)) m0
            | None => m0
            end in
  let m2 := match par_especificaciones item with
            | Some s => assoc_set "especificaciones" (VStr (trim s)) m1
            | None => m1
            end in
  match par_cantidad item with
  | Some c => assoc_set "cantidad" (VNum c) m2
  | None => m2
  end.

Definition byOrdenId (id : ObjectId) (o : OrdenLab) : bool :=
  bool_decide (orden_id o = id).

(** The [$set] part shared by every branch: [estado] and [observaciones]
    when supplied, and [updatedAt]; [f] is the branch's array update. *)
Definition applyPatch (e : env) (patch : OrdenLabPatch)
    (f : option (list value) -> option (list value)) (o : OrdenLab)
  : OrdenLab :=
  {| orden_id := orden_id o;
     orden_cita_id := orden_cita_id o;
     orden_usuario_id := orden_usuario_id o;
     fecha_creacion := fecha_creacion o;
     orden_estado := default (orden_estado o) (estado patch);
     observaciones := if bool_decide (obs patch = VUndef)
                      then observaciones o
                      else normalizeObservaciones (obs patch);
     productos := f (productos o);
     orden_updatedAt := now e |}.

(** The first step of the delete: [$unset] alone, no timestamp. *)
Definition applyUnset (i : nat) (o : OrdenLab) : OrdenLab :=
  {| orden_id := orden_id o;
     orden_cita_id := orden_cita_id o;
     orden_usuario_id := orden_usuario_id o;
     fecha_creacion := fecha_creacion o;
     orden_estado := orden_estado o;
     observaciones := observaciones o;
     productos := unset_index i (productos o);
     orden_updatedAt := orden_updatedAt o |}.

Definition notFound : response := fail 404 "Orden no encontrada".

Definition modified (r : UpdateResult) : response :=
  json 200 [("ok", VBool true); ("modified", num (modifiedCount r))].

(** [PATCH /api/ordenes-laboratorio/:id]. The branches are tried in the
    order of the source: replace all, append, patch at index, delete at
    index, status and notes only. *)
Definition patch (e : env) (id : string) (b : OrdenLabPatch) (db : Db)
  : response * Db :=
  match oidMaybe e (VStr id) with
  | None => (fail 400 "id inválido", db)
  | Some oid =>
      match OrdenLabPatchSchema b with
      | None => (fail 400 Citas.zodError, db)
      | Some patch =>
          let col := ordenes_laboratorio db in
          match set_productos patch, push_productos patch,
                producto_patch patch, producto_delete_index patch with
          | Some ps, _, _, _ =>
              let '(r, os) :=
                updateOne (byOrdenId oid)
                  (applyPatch e patch
                     (fun _ => Some (List.map storeProducto ps))) col in
              if (matchedCount r =? 0)%nat then (notFound, db)
              else (modified r, set_ordenes os db)
          | None, Some ps, _, _ =>
              let '(r, os) :=
                updateOne (byOrdenId oid)
                  (applyPatch e patch
                     (push_each (List.map storeProducto ps))) col in
              if (matchedCount r =? 0)%nat then (notFound, db)
              else (modified r, set_ordenes os db)
          | None, None, Some (idx, item), _ =>
              match findOne (byOrdenId oid) col with
              | None => (notFound, db)
              | Some doc =>
                  let curr :=
                    default VUndef
                      (default [] (productos doc) !! Z.to_nat idx) in
                  if negb (truthy curr)
                  then (fail 404 "Índice fuera de rango", db)
                  else
                    let merged := mergeProducto curr item in
                    if negb (validProducto merged)
                    then (fail 400 Citas.zodError, db)
                    else
                      let '(r, os) :=
                        updateOne (byOrdenId oid)
                          (applyPatch e patch
                             (set_index (Z.to_nat idx) (VObj merged))) col in
                      (modified r, set_ordenes os db)
              end
          | None, None, None, Some idx =>
              let '(_, os1) :=
                updateOne (byOrdenId oid) (applyUnset (Z.to_nat idx)) col in
              let '(r2, os2) :=
                updateOne (byOrdenId oid) (applyPatch e patch pull_null)
                          os1 in
              (json 200 [("ok", VBool true);
                         ("modified",
                          VNum (if (0 <? modifiedCount r2)%nat
                                then 1 else 0))],
               set_ordenes os2 db)
          | None, None, None, None =>
              let '(r, os) :=
                updateOne (byOrdenId oid) (applyPatch e patch (fun arr => arr)) col in
              if (matchedCount r =? 0)%nat then (notFound, db)
              else (modified r, set_ordenes os db)
          end
      end
  end.

(** The product array of an order, as a reader finds it. *)
Definition productosOf (oid : ObjectId) (db : Db) : option (list value) :=
  match findOne (byOrdenId oid) (ordenes_laboratorio db) with
  | Some o => productos o
  | None => None
  end.

(** No order holds a null among its products. *)
Definition orders_wf (db : Db) : Prop :=
  Forall (fun o => no_null (default [] (productos o)))
         (ordenes_laboratorio db).

(** A validated request that reaches the patch-at-index branch. *)
Definition isProductoPatch (b : OrdenLabPatch) (idx : Z) : Prop :=
  exists patch item,
    OrdenLabPatchSchema b = Some patch /\ set_productos patch = None /\
    push_productos patch = None /\ producto_patch patch = Some (idx, item).

(** A validated request that reaches the delete-at-index branch. *)
Definition isProductoDelete (b : OrdenLabPatch) (idx : Z) : Prop :=
  exists patch,
    OrdenLabPatchSchema b = Some patch /\ set_productos patch = None /\
    push_productos patch = None /\ producto_patch patch = None /\
    producto_delete_index patch = Some idx.

End Ordenes.

(** ** controllers/usuariosController.js *)

Module Usuarios.

(** [especialidad] of the stored user: an array is kept, another truthy
    value is wrapped, anything else gives the empty array. *)
Definition especialidadOf (v : value) : value :=
  match v with
  | VArr _ => v
  | _ => if truthy v then VArr [v] else VArr []
  end.

(** The key of the unique index [uq_usuarios_correo]: a missing field
    is indexed as null. *)
Definition correoKey (u : gmap string value) : value :=
  match Roles.get u "correo" with
  | VUndef => VNull
  | v => v
  end.

(** The duplicate-key error of the insertion: a stored user already holds
    the address of the new document. *)
Definition correoTaken (doc : gmap string value) (col : list Usuario)
  : bool :=
  existsb (fun u => bool_decide (correoKey u = correoKey doc)) col.

(** [crearUsuario] on a payload that passed the create schema: the role
    fields are reconciled and the result is stored with [especialidad]
    and the timestamps, unless the unique index on [correo] refuses the
    insertion. *)
Definition crearUsuario (e : env) (parsed : gmap string value) (db : Db)
  : response * Db :=
  let withRole := Roles.normalizeRole e db parsed in
  let especialidad := especialidadOf (Roles.get withRole "especialidad") in
  let doc :=
    <["updatedAt" := VDate (now e)]>
      (<["createdAt" := VDate (now e)]>
         (<["especialidad" := especialidad]> withRole)) in
  if correoTaken doc (usuarios db)
  then (fail 400 "Correo ya registrado", db)
  else
    let insertedId := generate e 0%nat None in
    (json 201 [("ok", VBool true); ("id", VStr (toHexString insertedId))],
     set_usuarios (insertOne (<["_id" := VOid insertedId]> doc) (usuarios db))
                  db).

End Usuarios.

(** ** routes/roles.js *)

Module RolesRoute.

Definition inUseMessage (inUse : nat) : string :=
  "No se puede eliminar: el rol está asignado a " +:+ pretty inUse
  +:+ " usuario(s). Reasigna usuarios antes de borrar.".

Definition refById (oid : ObjectId) (u : Usuario) : bool :=
  matches (Roles.get u "rol_id") (VOid oid).

Definition refByString (nombre : string) (u : Usuario) : bool :=
  matches (Roles.get u "rol") (VStr nombre).

(** [DELETE /api/roles/:id]. The query string of the request is an input
    of the handler like any other; the handler never reads it. *)
Definition delete (e : env) (id : string) (query : list (string * string))
    (db : Db) : response * Db :=
  match oidMaybe e (VStr id) with
  | None => (fail 400 "id inválido", db)
  | Some oid =>
      match findOne (Roles.byId oid) (roles db) with
      | None => (fail 404 "No encontrado", db)
      | Some role =>
          let byId := countDocuments (refById oid) (usuarios db) in
          let byString :=
            countDocuments (refByString (role_nombre role)) (usuarios db) in
          let inUse := (byId + byString)%nat in
          if (0 <? inUse)%nat then
            (json 409 [("ok", VBool false);
                       ("error", VStr (inUseMessage inUse));
                       ("inUseBy", VObj [("byId", num byId);
                                         ("byString", num byString)])],
             db)
          else
            let '(n, rs) := deleteOne (Roles.byId oid) (roles db) in
            (json 200 [("ok", VBool true); ("deleted", num n)],
             set_roles rs db)
      end
  end.

(** The users that reference a role, by identifier or by name: the
    number the conflict is about. *)
Definition referencedBy (role : Role) (u : Usuario) : bool :=
  refById (role_id role) u || refByString (role_nombre role) u.

Definition usersReferencing (role : Role) (db : Db) : nat :=
  countDocuments (referencedBy role) (usuarios db).

End RolesRoute.

(** ** routes/procedimientos.js *)

Module Procedimientos.

(** [parseBool]: [None] is null (a missing or unrecognised flag). *)
Definition parseBool (v : option string) : option bool :=
  match v with
  | None => None
  | Some raw =>
      let s := toLowerCase (trim raw) in
      if includes ["1"; "true"; "t"; "yes"; "y"] s then Some true
      else if includes ["0"; "false"; "f"; "no"; "n"] s then Some false
      else None
  end.

Definition refsMessage (refs : nat) : string :=
  "No se puede borrar: procedimiento referenciado en " +:+ pretty refs
  +:+ " cita(s). Usa ?force=1 si estás seguro.".

(** The query [{ "procedimientos.procedimiento_id": oid }]: an appointment
    with at least one line item that carries this identifier. *)
Definition references (oid : ObjectId) (c : Cita) : bool :=
  existsb (fun li => bool_decide (procedimiento_id li = Some oid))
          (procedimientos c).

Definition byProcId (oid : ObjectId) (p : Procedimiento) : bool :=
  bool_decide (proc_id p = oid).

(** [DELETE /api/procedimientos/:id?force=]. *)
Definition delete (e : env) (id : string) (force_param : option string)
    (db : Db) : response * Db :=
  match oidMaybe e (VStr id) with
  | None => (fail 400 "id inválido", db)
  | Some oid =>
      let force := parseBool force_param in
      let refs := countDocuments (references oid) (citas db) in
      if (0 <? refs)%nat && negb (bool_decide (force = Some true)) then
        (json 409 [("ok", VBool false); ("error", VStr (refsMessage refs))],
         db)
      else
        let '(n, ps) := deleteOne (byProcId oid) (procedimientos_col db) in
        if (n =? 0)%nat then (fail 404 "No encontrado", db)
        else (json 200 [("ok", VBool true); ("deleted", num n)],
              set_procedimientos ps db)
  end.

End Procedimientos.

(** ** Store invariants *)

Module Invariants.

(** The store keeps [_id] unique within the role collection. *)
Definition roles_ids_unique (db : Db) : Prop :=
  NoDup (List.map role_id (roles db)).

(** The unique index on [nombre] of the role collection. *)
Definition roles_names_unique (db : Db) : Prop :=
  NoDup (List.map role_nombre (roles db)).

(** What the role resolver reads of a role: its identifier and name. *)
Definition role_key (r : Role) : ObjectId * string :=
  (role_id r, role_nombre r).

End Invariants.
Export Invariants.

(** ** routes/citas.js: delete *)

Module CitasDelete.

(** The [$set] of the soft delete. *)
Definition cancelar (e : env) (c : Cita) : Cita :=
  {| cita_id := cita_id c; fecha := fecha c; paciente_id := paciente_id c;
     usuario_id := usuario_id c; cita_estado := "Cancelada";
     motivo := motivo c; procedimientos := procedimientos c;
     total := total c; cita_createdAt := cita_createdAt c;
     cita_updatedAt := now e |}.

(** [DELETE /api/citas/:id?soft=]: [soft] is the query parameter, [None]
    when it is missing. Only the text "true" (in any case) asks for the
    soft delete. *)
Definition delete (e : env) (id : string) (soft_param : option string)
    (db : Db) : response * Db :=
  match oidMaybe e (VStr id) with
  | None => (fail 400 "id inválido", db)
  | Some _id =>
      let soft :=
        String.eqb (toLowerCase (default "" soft_param)) "true" in
      if soft then
        let '(r, cs) :=
          updateOne (Citas.byCitaId _id) (cancelar e) (citas db) in
        if (matchedCount r =? 0)%nat
        then (fail 404 "Cita no encontrada", db)
        else (json 200 [("ok", VBool true); ("softDeleted", VBool true)],
              set_citas cs db)
      else
        let '(n, cs) := deleteOne (Citas.byCitaId _id) (citas db) in
        if (n =? 0)%nat
        then (fail 404 "Cita no encontrada", db)
        else (json 200 [("ok", VBool true); ("deleted", VBool true)],
              set_citas cs db)
  end.

End CitasDelete.

(** ** routes/historias.js: append *)

Module HistoriasAppend.

(** The body of [POST /api/historias]; [VUndef] is a missing field. *)
Record AppendBody := {
  ab_paciente_id : string;
  ab_procedimiento : value;
  ab_procedimientos_realizados : value;
  ab_tratamientos_realizados : value;
}.

(** The legacy alias is mapped before validation: when
    [procedimientos_realizados] is falsy and [tratamientos_realizados] is
    an array, the array moves under the new name. *)
Definition mapAlias (b : AppendBody) : AppendBody :=
  match ab_tratamientos_realizados b with
  | VArr _ =>
      if negb (truthy (ab_procedimientos_realizados b))
      then {| ab_paciente_id := ab_paciente_id b;
              ab_procedimiento := ab_procedimiento b;
              ab_procedimientos_realizados := ab_tratamientos_realizados b;
              ab_tratamientos_realizados := VUndef |}
      else b
  | _ => b
  end.

Definition noPatch : Historias.ProcPatched :=
  {| Historias.tratamiento := None; Historias.fecha_proc := None;
     Historias.odontologo := None; Historias.resultado := None |}.

(** [ProcRealizado.parse(item)]: the item schema on one value. *)
Definition parseItem (e : env) (item : value) : option value :=
  Historias.ProcRealizado e item noPatch.

(** [ProcRealizado.optional()]. *)
Definition itemOptional (e : env) (v : value) : option (option value) :=
  match v with
  | VUndef => Some None
  | _ => match parseItem e v with
         | Some x => Some (Some x)
         | None => None
         end
  end.

(** [z.array(ProcRealizado).optional()]. *)
Definition itemsOptional (e : env) (v : value)
  : option (option (list value)) :=
  match v with
  | VUndef => Some None
  | VArr l => match mapM (parseItem e) l with
              | Some xs => Some (Some xs)
              | None => None
              end
  | _ => None
  end.

Record Appended := {
  paciente_id : string;
  procedimiento : option value;
  procedimientos_realizados : option (list value);
  tratamientos_realizados : option (list value);
}.

Definition nonEmpty (l : option (list value)) : bool :=
  match l with
  | Some (_ :: _) => true
  | _ => false
  end.

(** The schema [HistoriaAppend]: a patient identifier of at least one
    character and, after parsing, one item or a non-empty array. *)
Definition HistoriaAppend (e : env) (b : AppendBody) : option Appended :=
  _ ← guard (1 <= String.length (ab_paciente_id b))%nat;
  one ← itemOptional e (ab_procedimiento b);
  many ← itemsOptional e (ab_procedimientos_realizados b);
  legacy ← itemsOptional e (ab_tratamientos_realizados b);
  if bool_decide (one <> None) || nonEmpty many || nonEmpty legacy
  then Some {| paciente_id := ab_paciente_id b; procedimiento := one;
               procedimientos_realizados := many;
               tratamientos_realizados := legacy |}
  else None.

(** [parsed.procedimientos_realizados ?? (parsed.procedimiento ?
    [parsed.procedimiento] : [])]. *)
Definition itemsOf (parsed : Appended) : list value :=
  match procedimientos_realizados parsed with
  | Some l => l
  | None => match procedimiento parsed with
            | Some x => [x]
            | None => []
            end
  end.

(** The update of the upsert on a history that exists. *)
Definition pushItems (e : env) (items : list value) (h : Historia)
  : Historia :=
  Historias.setArray (push_each items) (Some (now e)) h.

(** The document the upsert inserts when the patient has no history. *)
Definition nuevaHistoria (e : env) (pid : string) (items : list value)
  : Historia :=
  {| hist_id := generate e 0%nat None;
     hist_paciente_id := pid;
     Store.procedimientos_realizados := Some items;
     hist_otros := [("createdAt", VDate (now e))];
     hist_updatedAt := now e |}.

(** [POST /api/historias]: append with upsert. *)
Definition post (e : env) (b : AppendBody) (db : Db) : response * Db :=
  match HistoriaAppend e (mapAlias b) with
  | None => (fail 400 Citas.zodError, db)
  | Some parsed =>
      let items := itemsOf parsed in
      let pid := trim (paciente_id parsed) in
      let col := historias_clinicas db in
      match findOne (Historias.byPaciente pid) col with
      | Some _ =>
          let '(_, hs) :=
            updateOne (Historias.byPaciente pid) (pushItems e items) col in
          (json 200 [("ok", VBool true); ("upserted", VBool false);
                     ("added", num (length items))],
           set_historias hs db)
      | None =>
          (json 200 [("ok", VBool true); ("upserted", VBool true);
                     ("added", num (length items))],
           set_historias (insertOne (nuevaHistoria e pid items) col) db)
      end
  end.

End HistoriasAppend.


(** ** Sequences of laboratory-order patches *)

Module OrdenesRun.

(** The requests of a list served one after the other, each on the
    database the one before left. *)
Fixpoint run (e : env) (reqs : list (string * Ordenes.OrdenLabPatch))
    (db : Db) : Db :=
  match reqs with
  | [] => db
  | (id, b) :: reqs => run e reqs (Ordenes.patch e id b db).2
  end.

End OrdenesRun.

(** ** routes/roles.js: create and patch *)

Module RolesAdmin.

(** The body of [POST /api/roles]. *)
Record RoleBody := {
  rb_nombre : string;
  rb_descripcion : option string;
  rb_permisos : option (list string);
}.

Record RoleCreated := {
  rc_nombre : string;
  rc_descripcion : option string;
  rc_permisos : list string;
}.

(** [z.array(z.string().min(1))]. *)
Definition permisosOk (l : list string) : bool :=
  forallb (fun s => (1 <=? String.length s)%nat) l.

(** The schema [RoleCreate]: a name of the enumeration, a description
    trimmed (blank gives undefined), permissions that default to the
    empty array. *)
Definition RoleCreate (b : RoleBody) : option RoleCreated :=
  if includes Roles.ROLE_NAMES (rb_nombre b)
     && permisosOk (default [] (rb_permisos b))
  then Some {| rc_nombre := rb_nombre b;
               rc_descripcion := Citas.trimOrNull (rb_descripcion b);
               rc_permisos := default [] (rb_permisos b) |}
  else None.

(** The document [POST /api/roles] inserts. *)
Definition nuevoRol (e : env) (body : RoleCreated) : Role :=
  {| role_id := generate e 0%nat None;
     role_nombre := rc_nombre body;
     role_descripcion := rc_descripcion body;
     role_permisos := rc_permisos body;
     role_createdAt := Some (now e);
     role_updatedAt := Some (now e) |}.

(** The duplicate-key error (code 11000) of the insertion: the collection
    carries the unique index [uq_roles_nombre] on [nombre] that
    [ensureBaseIndexes] creates, next to the one on [_id]. *)
Definition duplicateKey (doc : Role) (col : list Role) : bool :=
  existsb (fun r => bool_decide (role_id r = role_id doc)) col
  || existsb (fun r => String.eqb (role_nombre r) (role_nombre doc)) col.

(** [POST /api/roles]. *)
Definition post (e : env) (b : RoleBody) (db : Db) : response * Db :=
  match RoleCreate b with
  | None => (fail 400 Citas.zodError, db)
  | Some body =>
      let doc := nuevoRol e body in
      if duplicateKey doc (roles db)
      then (fail 409 "El rol ya existe", db)
      else
        (json 201 [("ok", VBool true);
                   ("id", VStr (toHexString (role_id doc)))],
         set_roles (insertOne doc (roles db)) db)
  end.

(** The body of [PATCH /api/roles/:id]. *)
Record RolePatchBody := {
  rp_descripcion : option string;
  rp_permisos : option (list string);
}.

(** The schema [RolePatch]: at least one of the two keys. *)
Definition RolePatch (b : RolePatchBody) : option RolePatchBody :=
  if permisosOk (default [] (rp_permisos b))
     && negb (bool_decide (rp_descripcion b = None)
              && bool_decide (rp_permisos b = None))
  then Some b else None.

(** The [$set] of the patch: the timestamp, the trimmed description and
    the permissions when supplied. *)
Definition applySet (e : env) (patch : RolePatchBody) (r : Role) : Role :=
  {| role_id := role_id r;
     role_nombre := role_nombre r;
     role_descripcion := match rp_descripcion patch with
                         | Some s => Some (trim s)
                         | None => role_descripcion r
                         end;
     role_permisos := default (role_permisos r) (rp_permisos patch);
     role_createdAt := role_createdAt r;
     role_updatedAt := Some (now e) |}.

(** [PATCH /api/roles/:id]. *)
Definition patch (e : env) (id : string) (b : RolePatchBody) (db : Db)
  : response * Db :=
  match oidMaybe e (VStr id) with
  | None => (fail 400 "id inválido", db)
  | Some oid =>
      match RolePatch b with
      | None => (fail 400 Citas.zodError, db)
      | Some patch =>
          let '(r, rs) :=
            updateOne (Roles.byId oid) (applySet e patch) (roles db) in
          if (matchedCount r =? 0)%nat then (fail 404 "No encontrado", db)
          else (json 200 [("ok", VBool true);
                          ("modified", num (modifiedCount r))],
                set_roles rs db)
      end
  end.

End RolesAdmin.

(** ** Sequences of requests to the role routes *)

Module RolesRun.

Inductive request :=
| Post (b : RolesAdmin.RoleBody)
| Patch (id : string) (b : RolesAdmin.RolePatchBody)
| Delete (id : string) (query : list (string * string)).

Definition serve (e : env) (req : request) (db : Db) : response * Db :=
  match req with
  | Post b => RolesAdmin.post e b db
  | Patch id b => RolesAdmin.patch e id b db
  | Delete id query => RolesRoute.delete e id query db
  end.

(** The requests of a list served one after the other, each at its own
    time and with the identifiers the driver generates for it. *)
Fixpoint run (reqs : list (env * request)) (db : Db) : Db :=
  match reqs with
  | [] => db
  | (e, req) :: reqs => run reqs (serve e req db).2
  end.

End RolesRun.

(** ** routes/pacientes.js: delete *)

Module Pacientes.

(** A stored patient; [_id] is the identity-card number, a string. *)
Record Paciente := {
  pac_id : string;
  pac_nombres : string;
  pac_apellidos : string;
  pac_edad : Z;
  pac_genero : string;
  pac_telefono : option string;
  pac_direccion : option string;
  pac_correo : option string;
  pac_tipo_sangre : string;
}.

Definition byPacId (id : string) (p : Paciente) : bool :=
  String.eqb (pac_id p) id.

(** The query [{ paciente_id: id }] on the appointments. *)
Definition citaDe (id : string) (c : Cita) : bool :=
  String.eqb (Store.paciente_id c) id.

Definition conReferencias : string :=
  "No se puede eliminar: el paciente tiene referencias activas".

(** [DELETE /api/pacientes/:id]: the patients are a collection of their
    own next to the store the other routes share. *)
Definition delete (id : string) (pacientes : list Paciente) (db : Db)
  : response * list Paciente :=
  let citasRef := countDocuments (citaDe id) (citas db) in
  let historiaRef :=
    countDocuments (Historias.byPaciente id) (historias_clinicas db) in
  let refs := (citasRef + historiaRef)%nat in
  if (0 <? refs)%nat then
    (json 409 [("ok", VBool false); ("error", VStr conReferencias);
               ("refs", VObj [("citas", num citasRef);
                              ("historia", num historiaRef)])],
     pacientes)
  else
    let '(n, ps) := deleteOne (byPacId id) pacientes in
    if (n =? 0)%nat then (fail 404 "Paciente no encontrado", pacientes)
    else (json 200 [("ok", VBool true); ("deleted", num n)], ps).

End Pacientes.

(** ** controllers/usuariosController.js: update *)

Module UsuariosPatch.

(** The keys copied from the normalised patch as they are. *)
Definition plainKeys : list string :=
  ["nombres"; "apellidos"; "estado"; "rol"; "rol_id"; "direccion";
   "telefono"].

Definition copyKey (normPatch : gmap string value)
    (s : gmap string value) (k : string) : gmap string value :=
  if nullish (Roles.get normPatch k) then s
  else <[k := Roles.get normPatch k]> s.

(** The [$set] of the update; [None] is the [TypeError] of calling
    [trim] on a [correo] that is not a string. *)
Definition buildSet (e : env) (normPatch : gmap string value)
  : option (gmap string value) :=
  let s0 : gmap string value := {[ "updatedAt" := VDate (now e) ]} in
  let s1 := foldl (copyKey normPatch) s0 plainKeys in
  s2 ← match Roles.get normPatch "correo" with
       | VUndef | VNull => Some s1
       | VStr c => Some (<["correo" := VStr (toLowerCase (trim c))]> s1)
       | _ => None
       end;
  Some match Roles.get normPatch "especialidad" with
       | VUndef | VNull => s2
       | VArr l => <["especialidad" := VArr l]> s2
       | v => <["especialidad" := VArr [v]]> s2
       end.

Definition byUserId (v : value) (u : Usuario) : bool :=
  matches (Roles.get u "userId") v.

Definition byId (oid : ObjectId) (u : Usuario) : bool :=
  matches (Roles.get u "_id") (VOid oid).

(** [{ $set }] on a stored user: the fields of [$set] replace or extend
    those of the document. *)
Definition applySet (s : gmap string value) (u : Usuario) : Usuario :=
  s ∪ u.

Definition typeError : string := "TypeError".

(** The duplicate-key error of the unique index [uq_usuarios_correo]:
    the update gives the selected user an address it did not have and
    that a user of the collection already holds. *)
Definition correoTaken (filter : Usuario -> bool) (s : gmap string value)
    (col : list Usuario) : bool :=
  match findOne filter col with
  | Some u =>
      let c := Roles.get (applySet s u) "correo" in
      negb (bool_decide (c = Roles.get u "correo"))
      && existsb (fun x => bool_decide (Roles.get x "correo" = c)) col
  | None => false
  end.

(** [actualizarUsuario] on a patch that passed the patch schema: a
    truthy [userId] of the body selects the user, otherwise the
    identifier of the path does. *)
Definition actualizarUsuario (e : env) (id : string)
    (patch : gmap string value) (db : Db) : response * Db :=
  match (if truthy (Roles.get patch "userId")
         then Some (byUserId (Roles.get patch "userId"))
         else match oidMaybe e (VStr id) with
              | Some oid => Some (byId oid)
              | None => None
              end) with
  | None => (fail 400 "id inválido", db)
  | Some filter =>
      let normPatch := Roles.normalizeRole e db patch in
      match buildSet e normPatch with
      | None => (fail 400 typeError, db)
      | Some s =>
          if bool_decide (delete "updatedAt" s = ∅)
          then (fail 400 "Nada para actualizar", db)
          else if correoTaken filter s (usuarios db)
          then (fail 400 "Correo ya registrado", db)
          else
            let '(r, us) := updateOne filter (applySet s) (usuarios db) in
            if (matchedCount r =? 0)%nat
            then (fail 404 "Usuario no encontrado", db)
            else (json 200 [("ok", VBool true);
                            ("modified", num (modifiedCount r))],
                  set_usuarios us db)
      end
  end.

End UsuariosPatch.

(** ** Sample data *)

Module Examples.

Definition oidA : ObjectId := mkOid "507f1f77bcf86cd799439011".
Definition oidB : ObjectId := mkOid "507f1f77bcf86cd799439012".
Definition hexA : string := "507f1f77bcf86cd799439011".
Definition hexB : string := "507f1f77bcf86cd799439012".

(** A clock at 1000, a generator that numbers its identifiers and a date
    parser that rejects every string. *)
Definition env0 : env :=
  {| now := 1000;
     generate := fun k _ =>
       mkOid ("65000000000000000000000" +:+ pretty k);
     mkDate := fun _ => None |}.

Definition emptyDb : Db :=
  {| roles := []; usuarios := []; citas := []; historias_clinicas := [];
     ordenes_laboratorio := []; procedimientos_col := [] |}.

Definition producto (tipo : string) (n : Z) : value :=
  VObj [("tipo_producto", VStr tipo); ("especificaciones", VNull);
        ("cantidad", VNum n)].

Definition tresProductos : list value :=
  [producto "Corona" 1; producto "Puente" 2; producto "Férula" 1].

Definition ordenA : OrdenLab :=
  {| orden_id := oidA; orden_cita_id := oidB; orden_usuario_id := oidB;
     fecha_creacion := 10; orden_estado := "Pendiente";
     observaciones := VNull; productos := Some tresProductos;
     orden_updatedAt := 10 |}.

Definition labDb : Db := set_ordenes [ordenA] emptyDb.

Definition emptyPatch : Ordenes.OrdenLabPatch :=
  {| Ordenes.estado := None; Ordenes.obs := VUndef;
     Ordenes.set_productos := None; Ordenes.push_productos := None;
     Ordenes.producto_patch := None;
     Ordenes.producto_delete_index := None |}.

Definition patchAt (i : Z) : Ordenes.OrdenLabPatch :=
  {| Ordenes.estado := None; Ordenes.obs := VUndef;
     Ordenes.set_productos := None; Ordenes.push_productos := None;
     Ordenes.producto_patch :=
       Some (i, {| Ordenes.par_tipo_producto := None;
                   Ordenes.par_especificaciones := None;
                   Ordenes.par_cantidad := Some 4 |});
     Ordenes.producto_delete_index := None |}.

Definition deleteAt (i : Z) : Ordenes.OrdenLabPatch :=
  {| Ordenes.estado := None; Ordenes.obs := VUndef;
     Ordenes.set_productos := None; Ordenes.push_productos := None;
     Ordenes.producto_patch := None;
     Ordenes.producto_delete_index := Some i |}.

Definition realizado (tratamiento : string) (t : Z) : value :=
  VObj [("tratamiento", VStr tratamiento); ("fecha", VDate t)].

Definition tresRealizados : list value :=
  [realizado "Limpieza" 1; realizado "Resina" 2; realizado "Extraccion" 3].

Definition historiaA : Historia :=
  {| hist_id := oidA; hist_paciente_id := "123";
     procedimientos_realizados := Some tresRealizados;
     hist_otros := []; hist_updatedAt := 10 |}.

Definition histDb : Db := set_historias [historiaA] emptyDb.

(** A history whose first procedure entry is the empty string, as
    [POST /api/historias-clinicas] stores it when the body carries one
    (its array normaliser keeps items that are not objects as they are). *)
Definition historiaFalsy : Historia :=
  {| hist_id := oidA; hist_paciente_id := "123";
     procedimientos_realizados := Some [VStr ""; realizado "Resina" 2];
     hist_otros := []; hist_updatedAt := 10 |}.

Definition falsyDb : Db := set_historias [historiaFalsy] emptyDb.

Definition resultadoPatch : Historias.ProcPatchBody :=
  {| Historias.pp_tratamiento := None; Historias.pp_fecha := VUndef;
     Historias.pp_odontologo := None;
     Historias.pp_resultado := Some "Sin novedad" |}.

(** The catalog after the seed: "Administrador", "Odontologo",
    "Asistente" and "Laboratorista" under the generator's identifiers
    0 to 3. *)
Definition seededDb : Db := Roles.ensureRolesSeed env0 emptyDb.

Definition hexOdontologo : string := "650000000000000000000001".

(** The identifier of "Odontologo" next to a stale name. *)
Definition payloadStale : gmap string value :=
  {[ "nombres" := VStr "Ana"; "rol" := VStr "Asistente";
     "rol_id" := VStr hexOdontologo ]}.

(** An identifier unknown to the catalog next to a name that resolves. *)
Definition payloadUnknownId : gmap string value :=
  {[ "nombres" := VStr "Ana"; "rol" := VStr "Asistente";
     "rol_id" := VStr hexA ]}.

(** An identifier unknown to the catalog next to a name outside the
    enumeration. *)
Definition payloadUnknownBoth : gmap string value :=
  {[ "nombres" := VStr "Ana"; "rol" := VStr "Gerente";
     "rol_id" := VStr hexA ]}.

Definition rolOdontologo : Role :=
  {| role_id := mkOid hexOdontologo; role_nombre := "Odontologo";
     role_descripcion := Some "Atención clínica"; role_permisos := [];
     role_createdAt := None; role_updatedAt := None |}.

Definition rolAsistente : Role :=
  {| role_id := mkOid "650000000000000000000002";
     role_nombre := "Asistente";
     role_descripcion := Some "Apoyo a operación"; role_permisos := [];
     role_createdAt := None; role_updatedAt := None |}.

(** A procedure type and a legacy appointment whose line item still
    carries its identifier. *)
Definition limpieza : Procedimiento :=
  {| proc_id := oidA; tipo_procedimiento := "Limpieza"; costo := 40;
     activo := true |}.

Definition citaLegacy : Cita :=
  {| cita_id := oidB; fecha := 5; paciente_id := "123"; usuario_id := oidB;
     cita_estado := "Pendiente"; motivo := None;
     procedimientos :=
       [{| procedimiento_id := Some oidA; li_nombre := "Limpieza";
           costo_unitario := 40; cantidad := Some 1 |}];
     total := 40; cita_createdAt := 5; cita_updatedAt := 5 |}.

Definition procDb : Db :=
  set_procedimientos [limpieza] (set_citas [citaLegacy] emptyDb).

(** One user, created with the role name alone on the seeded catalog:
    the resolver fills [rol_id], so the stored user carries both. *)
Definition anaPayload : gmap string value :=
  {[ "nombres" := VStr "Ana"; "apellidos" := VStr "Lopez";
     "correo" := VStr "ana@example.com"; "estado" := VStr "activo";
     "rol" := VStr "Asistente" ]}.

Definition oneUserDb : Db :=
  (Usuarios.crearUsuario
     {| now := 2000;
        generate := fun _ _ => mkOid "6600000000000000000000aa";
        mkDate := fun _ => None |}
     anaPayload seededDb).2.

Definition hexAsistente : string := "650000000000000000000002".

(** Two line items, 50 x 2 and 30 x 1. *)
Definition dosItems : list Citas.ProcIn :=
  [{| Citas.in_nombre := "Resina"; Citas.in_costo_unitario := 50;
      Citas.in_cantidad := Some 2 |};
   {| Citas.in_nombre := "Limpieza"; Citas.in_costo_unitario := 30;
      Citas.in_cantidad := Some 1 |}].

(** An appointment request with the two line items and no total. *)
Definition bodySinTotal : Citas.CitaBody :=
  {| Citas.b_fecha := VDate 5; Citas.b_paciente_id := "123";
     Citas.b_usuario_id := hexA; Citas.b_estado := None;
     Citas.b_motivo := None; Citas.b_procedimientos := Some dosItems;
     Citas.b_total := None |}.

(** The same request with a manual total of 999. *)
Definition bodyManual : Citas.CitaBody :=
  {| Citas.b_fecha := VDate 5; Citas.b_paciente_id := "123";
     Citas.b_usuario_id := hexA; Citas.b_estado := None;
     Citas.b_motivo := None; Citas.b_procedimientos := Some dosItems;
     Citas.b_total := Some 999 |}.

(** The identifier the generator of [env0] gives the created document. *)
Definition hexCita : string := "650000000000000000000000".
Definition oidCita : ObjectId := mkOid hexCita.

Definition manualDb : Db := (Citas.post env0 bodyManual emptyDb).2.

Definition emptyCitaPatch : Citas.PatchBody :=
  {| Citas.pb_fecha := VUndef; Citas.pb_paciente_id := None;
     Citas.pb_usuario_id := None; Citas.pb_estado := None;
     Citas.pb_motivo := None; Citas.pb_procedimientos := None;
     Citas.pb_total := None |}.

(** A patch of the status alone. *)
Definition patchEstado : Citas.PatchBody :=
  {| Citas.pb_fecha := VUndef; Citas.pb_paciente_id := None;
     Citas.pb_usuario_id := None; Citas.pb_estado := Some "Confirmada";
     Citas.pb_motivo := None; Citas.pb_procedimientos := None;
     Citas.pb_total := None |}.

(** A patch of the line items alone: one item, 70 x 3. *)
Definition patchItems : Citas.PatchBody :=
  {| Citas.pb_fecha := VUndef; Citas.pb_paciente_id := None;
     Citas.pb_usuario_id := None; Citas.pb_estado := None;
     Citas.pb_motivo := None;
     Citas.pb_procedimientos :=
       Some [{| Citas.in_nombre := " Corona "; Citas.in_costo_unitario := 70;
                Citas.in_cantidad := Some 3 |}];
     Citas.pb_total := None |}.

End Examples.

(** ** More sample data *)

Module MoreExamples.
Import Examples.

(** A catalog that holds a role whose name is outside the enumeration. *)
Definition gerenteDb : Db :=
  set_roles [{| role_id := oidA; role_nombre := "Gerente";
                role_descripcion := None; role_permisos := [];
                role_createdAt := None; role_updatedAt := None |}]
            emptyDb.

(** A second environment, later and with other identifiers. *)
Definition env1 : env :=
  {| now := 2000;
     generate := fun k _ =>
       mkOid ("66000000000000000000000" +:+ pretty k);
     mkDate := fun _ => None |}.

(** Two appointments: the one with the manual total, then one created
    without a total. *)
Definition dosCitasDb : Db := (Citas.post env1 bodySinTotal manualDb).2.

(** An environment whose date parser knows one date. *)
Definition env2 : env :=
  {| now := 3000;
     generate := fun k _ =>
       mkOid ("67000000000000000000000" +:+ pretty k);
     mkDate := fun v => match v with
                        | VStr "2024-01-05" => Some 1704412800000
                        | _ => None
                        end |}.

Definition controlItem : value :=
  VObj [("tratamiento", VStr "Control"); ("fecha", VStr "2024-01-05")].

Definition controlStored : value :=
  VObj [("tratamiento", VStr "Control"); ("fecha", VDate 1704412800000)].

(** One procedure for patient "123". *)
Definition appendUno : HistoriasAppend.AppendBody :=
  {| HistoriasAppend.ab_paciente_id := "123";
     HistoriasAppend.ab_procedimiento := controlItem;
     HistoriasAppend.ab_procedimientos_realizados := VUndef;
     HistoriasAppend.ab_tratamientos_realizados := VUndef |}.

Definition appendUnoParsed : HistoriasAppend.Appended :=
  {| HistoriasAppend.paciente_id := "123";
     HistoriasAppend.procedimiento := Some controlStored;
     HistoriasAppend.procedimientos_realizados := None;
     HistoriasAppend.tratamientos_realizados := None |}.

(** One procedure next to an empty array. *)
Definition appendVacio : HistoriasAppend.AppendBody :=
  {| HistoriasAppend.ab_paciente_id := "123";
     HistoriasAppend.ab_procedimiento := controlItem;
     HistoriasAppend.ab_procedimientos_realizados := VArr [];
     HistoriasAppend.ab_tratamientos_realizados := VUndef |}.


Definition coronaNueva : Ordenes.Producto :=
  {| Ordenes.tipo_producto := "Corona";
     Ordenes.especificaciones := Some "zirconio";
     Ordenes.prod_cantidad := None |}.

Definition setUno : Ordenes.OrdenLabPatch :=
  {| Ordenes.estado := None; Ordenes.obs := VUndef;
     Ordenes.set_productos := Some [coronaNueva];
     Ordenes.push_productos := Some [coronaNueva];
     Ordenes.producto_patch := None;
     Ordenes.producto_delete_index := Some 0 |}.

Definition pushUno : Ordenes.OrdenLabPatch :=
  {| Ordenes.estado := Some "Entregada"; Ordenes.obs := VUndef;
     Ordenes.set_productos := None;
     Ordenes.push_productos := Some [coronaNueva];
     Ordenes.producto_patch := None;
     Ordenes.producto_delete_index := None |}.

Definition productoEsp : value :=
  VObj [("tipo_producto", VStr "Corona");
        ("especificaciones", VStr "zirconio"); ("cantidad", VNum 1)].

Definition ordenEsp : OrdenLab :=
  {| orden_id := oidA; orden_cita_id := oidB; orden_usuario_id := oidB;
     fecha_creacion := 10; orden_estado := "Pendiente";
     observaciones := VNull;
     productos := Some [productoEsp; producto "Puente" 2];
     orden_updatedAt := 10 |}.

Definition espDb : Db := set_ordenes [ordenEsp] emptyDb.

Definition puente : Ordenes.Producto :=
  {| Ordenes.tipo_producto := "Puente"; Ordenes.especificaciones := None;
     Ordenes.prod_cantidad := Some 2 |}.

Definition cuatro : Ordenes.ProductoParcial :=
  {| Ordenes.par_tipo_producto := None;
     Ordenes.par_especificaciones := None;
     Ordenes.par_cantidad := Some 4 |}.


Definition asistenteBody : RolesAdmin.RoleBody :=
  {| RolesAdmin.rb_nombre := "Asistente";
     RolesAdmin.rb_descripcion := Some "  Apoyo  ";
     RolesAdmin.rb_permisos := None |}.

Definition odontologoBody : RolesAdmin.RoleBody :=
  {| RolesAdmin.rb_nombre := "Odontologo";
     RolesAdmin.rb_descripcion := None;
     RolesAdmin.rb_permisos := Some ["citas:leer"] |}.

(** A body whose name is outside the enumeration. *)
Definition gerenteBody : RolesAdmin.RoleBody :=
  {| RolesAdmin.rb_nombre := "Gerente";
     RolesAdmin.rb_descripcion := None;
     RolesAdmin.rb_permisos := None |}.

Definition permisosPatch : RolesAdmin.RolePatchBody :=
  {| RolesAdmin.rp_descripcion := None;
     RolesAdmin.rp_permisos := Some ["citas:leer"] |}.

Definition soloAsistente : gmap string value :=
  {[ "rol" := VStr "Asistente" ]}.


(** A patch that names its user in the body. *)
Definition patchPorUserId : gmap string value :=
  {[ "userId" := VStr "u-1"; "telefono" := VStr "555" ]}.

Definition usuarioU1 : Usuario :=
  {[ "_id" := VOid oidA; "userId" := VStr "u-1";
     "correo" := VStr "ana@example.com" ]}.

Definition unUsuarioDb : Db := set_usuarios [usuarioU1] seededDb.

End MoreExamples.

(** * Properties *)

Import Examples.

(** ** Collections *)

Section CollectionFacts.
Context {D : Type} `{EqDecision D}.
Implicit Types (sel : D -> bool) (upd : D -> D) (col : list D).

Lemma findOne_split sel col d :
  findOne sel col = Some d ->
  exists pre post,
    col = pre ++ d :: post /\ sel d = true /\
    forallb (fun x => negb (sel x)) pre = true.
Proof.
  unfold findOne. induction col as [|x col IH]; simpl; [discriminate|].
  destruct (sel x) eqn:Hx.
  - intros [= ->]. exists [], col. auto.
  - intros Hf. destruct (IH Hf) as (pre & post & -> & Hd & Hpre).
    exists (x :: pre), post. simpl. rewrite Hx. auto.
Qed.

Lemma findOne_prefix sel pre d post :
  forallb (fun x => negb (sel x)) pre = true -> sel d = true ->
  findOne sel (pre ++ d :: post) = Some d.
Proof.
  unfold findOne. induction pre as [|x pre IH]; simpl; intros Hpre Hd.
  - by rewrite Hd.
  - apply andb_prop in Hpre as [Hx Hpre].
    apply negb_true_iff in Hx. rewrite Hx. auto.
Qed.

Lemma updateOne_prefix sel upd pre d post :
  forallb (fun x => negb (sel x)) pre = true -> sel d = true ->
  updateOne sel upd (pre ++ d :: post)
  = ({| matchedCount := 1;
        modifiedCount := if decide (upd d = d) then 0 else 1 |},
     pre ++ upd d :: post).
Proof.
  induction pre as [|x pre IH]; simpl; intros Hpre Hd.
  - by rewrite Hd.
  - apply andb_prop in Hpre as [Hx Hpre].
    apply negb_true_iff in Hx. rewrite Hx, IH; auto.
Qed.

Lemma updateOne_none sel upd col :
  findOne sel col = None ->
  updateOne sel upd col = ({| matchedCount := 0; modifiedCount := 0 |}, col).
Proof.
  unfold findOne. induction col as [|x col IH]; simpl; [done|].
  destruct (sel x); [discriminate|]. intros Hf. by rewrite IH.
Qed.

Lemma deleteOne_prefix sel pre d post :
  forallb (fun x => negb (sel x)) pre = true -> sel d = true ->
  deleteOne sel (pre ++ d :: post) = (1%nat, pre ++ post).
Proof.
  induction pre as [|x pre IH]; simpl; intros Hpre Hd.
  - by rewrite Hd.
  - apply andb_prop in Hpre as [Hx Hpre].
    apply negb_true_iff in Hx. rewrite Hx, IH; auto.
Qed.

End CollectionFacts.

(** ** Array operators *)

Lemma pull_no_null (l : list value) :
  no_null l -> List.filter (fun v => negb (nullish v)) l = l.
Proof.
  induction 1 as [|v l Hv _ IH]; simpl; [done|].
  by rewrite Hv, IH.
Qed.

Lemma pull_unset (l : list value) (i : nat) :
  no_null l -> (i < length l)%nat ->
  List.filter (fun v => negb (nullish v)) (<[i := VNull]> l)
  = take i l ++ drop (S i) l.
Proof.
  intros Hl. revert i.
  induction Hl as [|v l Hv Hl IH]; intros i Hi; simpl in Hi; [lia|].
  destruct i as [|i]; simpl.
  - rewrite drop_0. by apply pull_no_null.
  - rewrite Hv. simpl. f_equal. apply IH. lia.
Qed.

Lemma no_null_delete (l : list value) (i : nat) :
  no_null l -> no_null (take i l ++ drop (S i) l).
Proof.
  intros Hl. apply Forall_app. split.
  - by apply Forall_take.
  - by apply Forall_drop.
Qed.

(** ** Merge-patch at an index beyond the array *)

Lemma lookup_beyond (l : list value) (i : nat) :
  (length l <= i)%nat -> truthy (default VUndef (l !! i)) = false.
Proof. intros Hi. by rewrite lookup_ge_None_2. Qed.

(** C4. A merge-patch whose index is at or beyond the length of the
    array answers 404 "Índice fuera de rango" and leaves the store as it
    was, for a lab order's products and for a clinical history's
    procedures alike. *)
Theorem patch_out_of_range_rejected :
  (forall e id oid b idx db o,
      oidMaybe e (VStr id) = Some oid ->
      Ordenes.isProductoPatch b idx ->
      findOne (Ordenes.byOrdenId oid) (ordenes_laboratorio db) = Some o ->
      (length (default [] (productos o)) <= Z.to_nat idx)%nat ->
      Ordenes.patch e id b db = (outOfRange, db))
  /\
  (forall e paciente_id index idx b patch db h,
      parseInt10 index = Some idx -> 0 <= idx ->
      Historias.ProcPatch e b = Some patch ->
      findOne (Historias.byPaciente paciente_id) (historias_clinicas db)
      = Some h ->
      (length (default [] (procedimientos_realizados h)) <= Z.to_nat idx)%nat ->
      Historias.patch_procedimiento e paciente_id index b db
      = (outOfRange, db)).
Proof.
  split.
  - intros e id oid b idx db o Hoid (patch & item & Hs & Hset & Hpush & Hpp)
           Hfind Hlen.
    unfold Ordenes.patch. rewrite Hoid, Hs, Hset, Hpush, Hpp, Hfind.
    by rewrite (lookup_beyond _ _ Hlen).
  - intros e pid index idx b patch db h Hidx Hpos Hp Hfind Hlen.
    unfold Historias.patch_procedimiento. rewrite Hidx.
    destruct (idx <? 0) eqn:Hneg; [apply Z.ltb_lt in Hneg; lia|].
    rewrite Hp, Hfind. unfold Historias.elementAt.
    by rewrite (lookup_beyond _ _ Hlen).
Qed.

(** Position 5 of an order with three products, and position 5 of a
    history with three procedures. *)
Lemma patch_out_of_range_rejected_witness :
  Ordenes.patch env0 hexA (patchAt 5) labDb = (outOfRange, labDb) /\
  Historias.patch_procedimiento env0 "123" "5" resultadoPatch histDb
  = (outOfRange, histDb).
Proof.
  split.
  - apply (proj1 patch_out_of_range_rejected env0 hexA oidA (patchAt 5) 5
                 labDb ordenA).
    + reflexivity.
    + eexists _, _. repeat split; reflexivity.
    + reflexivity.
    + simpl. lia.
  - eapply (proj2 patch_out_of_range_rejected env0 "123" "5" 5
                  resultadoPatch _ histDb historiaA).
    + reflexivity.
    + lia.
    + reflexivity.
    + reflexivity.
    + simpl. lia.
Defined.

(** ** Delete at an index *)

(** Under unique identifiers the history found by patient is also the
    first one with its own identifier. *)
Lemma history_position (pid : string) (db : Db) (h : Historia) :
  Historias.ids_unique db ->
  findOne (Historias.byPaciente pid) (historias_clinicas db) = Some h ->
  exists pre post,
    historias_clinicas db = pre ++ h :: post /\
    forallb (fun x => negb (Historias.byPaciente pid x)) pre = true /\
    forallb (fun x => negb (Historias.byHistId (hist_id h) x)) pre = true /\
    Historias.byPaciente pid h = true.
Proof.
  intros Huniq Hfind.
  destruct (findOne_split _ _ _ Hfind) as (pre & post & Hcol & Hsel & Hpre).
  exists pre, post. repeat split; auto.
  unfold Historias.ids_unique in Huniq. rewrite Hcol in Huniq.
  rewrite List.map_app in Huniq. simpl in Huniq.
  apply NoDup_app in Huniq as (_ & Hdisj & _).
  apply forallb_forall. intros x Hx.
  apply negb_true_iff, bool_decide_eq_false. intros Heq.
  apply (Hdisj (hist_id x)).
  - apply list_elem_of_In, List.in_map, Hx.
  - rewrite Heq. left.
Qed.

(** The two steps of the lab-order delete on an order that exists. *)
Lemma orden_delete_steps e patch (oid : ObjectId) (i : nat) (db : Db) o :
  findOne (Ordenes.byOrdenId oid) (ordenes_laboratorio db) = Some o ->
  exists pre post r2,
    ordenes_laboratorio db = pre ++ o :: post /\
    updateOne (Ordenes.byOrdenId oid) (Ordenes.applyPatch e patch pull_null)
      (snd (updateOne (Ordenes.byOrdenId oid) (Ordenes.applyUnset i)
                      (ordenes_laboratorio db)))
    = (r2, pre ++ Ordenes.applyPatch e patch pull_null
                    (Ordenes.applyUnset i o) :: post) /\
    forallb (fun x => negb (Ordenes.byOrdenId oid x)) pre = true.
Proof.
  intros Hfind.
  destruct (findOne_split _ _ _ Hfind) as (pre & post & Hcol & Hsel & Hpre).
  exists pre, post. eexists. split; [done|]. split; [|done].
  rewrite Hcol, (updateOne_prefix _ _ _ _ _ Hpre Hsel). simpl.
  rewrite updateOne_prefix; [done | done |].
  unfold Ordenes.byOrdenId in *. simpl. done.
Qed.

Lemma orden_delete_response e id oid b idx db :
  oidMaybe e (VStr id) = Some oid ->
  Ordenes.isProductoDelete b idx ->
  exists m os,
    Ordenes.patch e id b db
    = (json 200 [("ok", VBool true); ("modified", VNum m)],
       set_ordenes os db) /\
    exists patch,
      os = (updateOne (Ordenes.byOrdenId oid)
              (Ordenes.applyPatch e patch pull_null)
              (snd (updateOne (Ordenes.byOrdenId oid)
                      (Ordenes.applyUnset (Z.to_nat idx))
                      (ordenes_laboratorio db)))).2.
Proof.
  intros Hoid (patch & Hs & Hset & Hpush & Hpp & Hdel).
  unfold Ordenes.patch. rewrite Hoid, Hs, Hset, Hpush, Hpp, Hdel.
  destruct (updateOne _ (Ordenes.applyUnset _) _) as [r1 os1] eqn:H1.
  destruct (updateOne _ (Ordenes.applyPatch _ _ _) os1) as [r2 os2] eqn:H2.
  eexists _, os2. split; [done|]. exists patch. simpl. by rewrite H2.
Qed.

Lemma orden_delete_array e id oid b idx db l :
  oidMaybe e (VStr id) = Some oid ->
  Ordenes.isProductoDelete b idx ->
  Ordenes.productosOf oid db = Some l ->
  Ordenes.productosOf oid (Ordenes.patch e id b db).2
  = Some (List.filter (fun v => negb (nullish v))
                      (<[Z.to_nat idx := VNull]> l)).
Proof.
  intros Hoid Hdel Hl.
  destruct (orden_delete_response e id oid b idx db Hoid Hdel)
    as (m & os & -> & patch & ->).
  unfold Ordenes.productosOf in *. simpl.
  destruct (findOne _ (ordenes_laboratorio db)) as [o|] eqn:Hfind;
    [|discriminate].
  destruct (orden_delete_steps e patch oid (Z.to_nat idx) db o Hfind)
    as (pre & post & r2 & Hcol & -> & Hpre).
  simpl. rewrite findOne_prefix; [| done |].
  - simpl. by rewrite Hl.
  - unfold Ordenes.byOrdenId. simpl.
    apply findOne_split in Hfind as (? & ? & _ & Hsel & _). exact Hsel.
Qed.

(** *** Orders never hold a null between requests *)

Lemma updateOne_Forall {D} `{EqDecision D} (P : D -> Prop)
    (sel : D -> bool) (upd : D -> D) (col : list D) :
  (forall d, findOne sel col = Some d -> P d -> P (upd d)) ->
  Forall P col -> Forall P (updateOne sel upd col).2.
Proof.
  intros Hupd Hcol.
  destruct (findOne sel col) as [d|] eqn:Hfind.
  - destruct (findOne_split _ _ _ Hfind) as (pre & post & -> & Hsel & Hpre).
    rewrite (updateOne_prefix _ _ _ _ _ Hpre Hsel). simpl.
    apply Forall_app in Hcol as [Hp Hq]. apply Forall_cons in Hq as [Hd Hq].
    apply Forall_app. split; [done|]. apply Forall_cons. split; [|done].
    by apply Hupd.
  - by rewrite updateOne_none.
Qed.

Lemma storeProducto_no_null (ps : list Ordenes.Producto) :
  no_null (List.map Ordenes.storeProducto ps).
Proof. induction ps; constructor; done. Qed.

Lemma pull_null_no_null (arr : option (list value)) :
  no_null (default [] (pull_null arr)).
Proof.
  destruct arr as [l|]; simpl; [|constructor].
  induction l as [|v l IH]; simpl; [constructor|].
  destruct (nullish v) eqn:Hv; simpl; [done|]. by constructor.
Qed.

Lemma set_index_no_null (l : list value) (i : nat) (v : value) :
  truthy (default VUndef (l !! i)) = true -> nullish v = false ->
  no_null l -> no_null (default [] (set_index i v (Some l))).
Proof.
  intros Hcurr Hv Hl. simpl.
  destruct (l !! i) as [x|] eqn:Hx; [|discriminate].
  apply lookup_lt_Some in Hx.
  destruct (Nat.ltb_spec i (length l)); [|lia]. simpl.
  by apply Forall_insert.
Qed.

Lemma delete_steps_no_null e patch oid (i : nat) (col : list OrdenLab) :
  Forall (fun o => no_null (default [] (productos o))) col ->
  Forall (fun o => no_null (default [] (productos o)))
    (updateOne (Ordenes.byOrdenId oid) (Ordenes.applyPatch e patch pull_null)
       (updateOne (Ordenes.byOrdenId oid) (Ordenes.applyUnset i) col).2).2.
Proof.
  induction 1 as [|o col Ho Hcol IH]; [constructor|]. simpl.
  destruct (Ordenes.byOrdenId oid o) eqn:Hsel; simpl.
  - assert (Hsel' : Ordenes.byOrdenId oid (Ordenes.applyUnset i o) = true)
      by exact Hsel.
    rewrite Hsel'. simpl. constructor; [|done].
    simpl. apply pull_null_no_null.
  - destruct (updateOne _ (Ordenes.applyUnset _) col) as [r1 os1] eqn:H1.
    simpl. rewrite Hsel.
    destruct (updateOne _ _ os1) as [r2 os2] eqn:H2. simpl.
    constructor; [done|]. simpl in IH. by rewrite H2 in IH.
Qed.

(** Every branch of the order patch keeps the products free of nulls:
    replaced and appended items are objects, a patched position exists,
    and the delete pulls the null it leaves. *)
Lemma patch_keeps_orders_wf e id b db :
  Ordenes.orders_wf db -> Ordenes.orders_wf (Ordenes.patch e id b db).2.
Proof.
  intros Hwf. unfold Ordenes.patch.
  destruct (oidMaybe e (VStr id)) as [oid|]; [|done].
  destruct (Ordenes.OrdenLabPatchSchema b) as [patch|]; [|done].
  destruct (Ordenes.set_productos patch) as [ps|].
  { destruct (updateOne _ _ _) as [r os] eqn:Hu.
    destruct (matchedCount r =? 0)%nat; [done|]. simpl.
    change os with (r, os).2. rewrite <- Hu.
    apply updateOne_Forall; [|done]. intros d _ _. simpl.
    apply storeProducto_no_null. }
  destruct (Ordenes.push_productos patch) as [ps|].
  { destruct (updateOne _ _ _) as [r os] eqn:Hu.
    destruct (matchedCount r =? 0)%nat; [done|]. simpl.
    change os with (r, os).2. rewrite <- Hu.
    apply updateOne_Forall; [|done]. intros d _ Hd. simpl.
    apply Forall_app. split; [done | apply storeProducto_no_null]. }
  destruct (Ordenes.producto_patch patch) as [[idx item]|].
  { destruct (findOne _ _) as [doc|] eqn:Hfind; [|done].
    destruct (truthy _) eqn:Hcurr; [|done]. simpl.
    destruct (Ordenes.validProducto _); [|done]. simpl.
    destruct (updateOne _ _ _) as [r os] eqn:Hu. simpl.
    change os with (r, os).2. rewrite <- Hu.
    apply updateOne_Forall; [|done]. intros d Hd Hnn.
    rewrite Hfind in Hd. injection Hd as <-. simpl.
    destruct (productos doc) as [l|] eqn:Hl; [|done].
    by apply set_index_no_null. }
  destruct (Ordenes.producto_delete_index patch) as [idx|].
  { destruct (updateOne _ (Ordenes.applyUnset _) _) as [r1 os1] eqn:H1.
    destruct (updateOne _ _ os1) as [r2 os2] eqn:H2. simpl.
    change os2 with (r2, os2).2. rewrite <- H2.
    change os1 with (r1, os1).2. rewrite <- H1.
    by apply delete_steps_no_null. }
  destruct (updateOne _ _ _) as [r os] eqn:Hu.
  destruct (matchedCount r =? 0)%nat; [done|]. simpl.
  change os with (r, os).2. rewrite <- Hu.
  apply updateOne_Forall; [|done]. by intros d _ Hd.
Qed.

(** C7. A delete whose index is at or beyond the length of the array: the
    lab-order route performs no lookup, leaves an array without nulls as
    it is and answers 200 with ok = true; the clinical-history route
    looks the element up first, answers 404 "Índice fuera de rango" and
    writes nothing. *)
Theorem delete_out_of_range :
  (forall e id oid b idx db l,
      oidMaybe e (VStr id) = Some oid ->
      Ordenes.isProductoDelete b idx ->
      Ordenes.productosOf oid db = Some l ->
      no_null l ->
      (length l <= Z.to_nat idx)%nat ->
      let '(resp, db') := Ordenes.patch e id b db in
      Ordenes.productosOf oid db' = Some l /\
      status resp = 200%nat /\
      assoc "ok" (body resp) = Some (VBool true))
  /\
  (forall e paciente_id index idx db h,
      parseInt10 index = Some idx -> 0 <= idx ->
      findOne (Historias.byPaciente paciente_id) (historias_clinicas db)
      = Some h ->
      (length (default [] (procedimientos_realizados h)) <= Z.to_nat idx)%nat ->
      Historias.delete_procedimiento e paciente_id index db
      = (outOfRange, db)).
Proof.
  split.
  - intros e id oid b idx db l Hoid Hdel Hl Hnn Hlen.
    pose proof (orden_delete_array e id oid b idx db l Hoid Hdel Hl) as Harr.
    destruct (orden_delete_response e id oid b idx db Hoid Hdel)
      as (m & os & Hresp & _).
    rewrite Hresp in *. simpl in *. split; [|done].
    rewrite Harr, list_insert_ge by done. by rewrite pull_no_null.
  - intros e pid index idx db h Hidx Hpos Hfind Hlen.
    unfold Historias.delete_procedimiento. rewrite Hidx.
    destruct (idx <? 0) eqn:Hneg; [apply Z.ltb_lt in Hneg; lia|].
    rewrite Hfind. unfold Historias.elementAt.
    by rewrite (lookup_beyond _ _ Hlen).
Qed.

(** Deleting position 5 of the three products, and position 7 of the
    three procedures. *)
Lemma delete_out_of_range_witness :
  (let '(resp, db') := Ordenes.patch env0 hexA (deleteAt 5) labDb in
   Ordenes.productosOf oidA db' = Some tresProductos /\
   status resp = 200%nat /\
   assoc "ok" (body resp) = Some (VBool true))
  /\
  Historias.delete_procedimiento env0 "123" "7" histDb
  = (outOfRange, histDb).
Proof.
  split.
  - apply (proj1 delete_out_of_range env0 hexA oidA (deleteAt 5) 5 labDb
                 tresProductos).
    + reflexivity.
    + eexists. repeat split; reflexivity.
    + reflexivity.
    + repeat constructor.
    + simpl. lia.
  - apply (proj2 delete_out_of_range env0 "123" "7" 7 histDb historiaA).
    + reflexivity.
    + lia.
    + reflexivity.
    + simpl. lia.
Defined.

Lemma historia_delete_array e pid index idx db l :
  parseInt10 index = Some idx -> 0 <= idx ->
  Historias.ids_unique db ->
  Historias.procedimientosOf pid db = Some l ->
  truthy (Historias.elementAt (Some l) idx) = true ->
  Historias.procedimientosOf pid
    (Historias.delete_procedimiento e pid index db).2
  = Some (List.filter (fun v => negb (nullish v))
                      (<[Z.to_nat idx := VNull]> l)).
Proof.
  intros Hidx Hpos Huniq Hl Htruthy.
  unfold Historias.procedimientosOf in Hl.
  destruct (findOne _ (historias_clinicas db)) as [h|] eqn:Hfind;
    [|discriminate].
  destruct (history_position pid db h Huniq Hfind)
    as (pre & post & Hcol & Hpre & Hpre' & Hsel).
  unfold Historias.delete_procedimiento. rewrite Hidx.
  destruct (idx <? 0) eqn:Hneg; [apply Z.ltb_lt in Hneg; lia|].
  rewrite Hfind, Hl, Htruthy. simpl negb. cbv iota.
  rewrite Hcol.
  rewrite (updateOne_prefix _ _ _ _ _ Hpre');
    [|by apply bool_decide_eq_true].
  rewrite (updateOne_prefix _ _ _ _ _ Hpre');
    [|by apply bool_decide_eq_true].
  unfold Historias.procedimientosOf. simpl.
  rewrite (findOne_prefix _ _ _ _ Hpre); [|exact Hsel].
  simpl. by rewrite Hl.
Qed.

(** Where the two delete routes do compact. Deleting position [i < n] of
    an array of length [n] without null elements leaves the other elements
    in their order, one element fewer and no null: for a lab order's
    products always, for a clinical history's procedures when the element
    at [i] is truthy. *)
Lemma delete_in_range_compacts :
  (forall e id oid b idx db l,
      oidMaybe e (VStr id) = Some oid ->
      Ordenes.isProductoDelete b idx ->
      Ordenes.productosOf oid db = Some l ->
      no_null l ->
      (Z.to_nat idx < length l)%nat ->
      exists l',
        Ordenes.productosOf oid (Ordenes.patch e id b db).2 = Some l' /\
        l' = take (Z.to_nat idx) l ++ drop (S (Z.to_nat idx)) l /\
        length l' = (length l - 1)%nat /\
        no_null l')
  /\
  (forall e paciente_id index idx db l,
      parseInt10 index = Some idx -> 0 <= idx ->
      Historias.ids_unique db ->
      Historias.procedimientosOf paciente_id db = Some l ->
      no_null l ->
      (Z.to_nat idx < length l)%nat ->
      truthy (Historias.elementAt (Some l) idx) = true ->
      exists l',
        Historias.procedimientosOf paciente_id
          (Historias.delete_procedimiento e paciente_id index db).2
        = Some l' /\
        l' = take (Z.to_nat idx) l ++ drop (S (Z.to_nat idx)) l /\
        length l' = (length l - 1)%nat /\
        no_null l').
Proof.
  assert (Hshape : forall (l : list value) i, no_null l -> (i < length l)%nat ->
            length (take i l ++ drop (S i) l) = (length l - 1)%nat /\
            no_null (take i l ++ drop (S i) l)).
  { intros l i Hnn Hi. split; [|by apply no_null_delete].
    rewrite length_app, length_take, length_drop. lia. }
  split.
  - intros e id oid b idx db l Hoid Hdel Hl Hnn Hi.
    eexists. split; [|split; [reflexivity | by apply Hshape]].
    rewrite (orden_delete_array e id oid b idx db l Hoid Hdel Hl).
    by rewrite pull_unset.
  - intros e pid index idx db l Hidx Hpos Huniq Hl Hnn Hi Htruthy.
    eexists. split; [|split; [reflexivity | by apply Hshape]].
    rewrite (historia_delete_array e pid index idx db l Hidx Hpos Huniq Hl
               Htruthy).
    by rewrite pull_unset.
Qed.

(** Deleting the middle one of three products and of three procedures. *)
Lemma delete_in_range_compacts_witness :
  (exists l',
      Ordenes.productosOf oidA (Ordenes.patch env0 hexA (deleteAt 1) labDb).2
      = Some l' /\
      l' = [producto "Corona" 1; producto "Férula" 1] /\
      length l' = 2%nat /\ no_null l')
  /\
  (exists l',
      Historias.procedimientosOf "123"
        (Historias.delete_procedimiento env0 "123" "1" histDb).2 = Some l' /\
      l' = [realizado "Limpieza" 1; realizado "Extraccion" 3] /\
      length l' = 2%nat /\ no_null l').
Proof.
  split.
  - apply (proj1 delete_in_range_compacts env0 hexA oidA (deleteAt 1) 1
                 labDb tresProductos).
    + reflexivity.
    + eexists. repeat split; reflexivity.
    + reflexivity.
    + repeat constructor.
    + simpl. lia.
  - apply (proj2 delete_in_range_compacts env0 "123" "1" 1 histDb
                 tresRealizados).
    + reflexivity.
    + lia.
    + repeat constructor; simpl; set_solver.
    + reflexivity.
    + repeat constructor.
    + simpl. lia.
    + reflexivity.
Defined.

(** An array of objects (what the item schema of the history routes
    admits) meets the truthiness condition at every position. *)
Lemma elementAt_object (l : list value) (idx : Z) :
  Forall (fun v => exists fs, v = VObj fs) l ->
  (Z.to_nat idx < length l)%nat ->
  truthy (Historias.elementAt (Some l) idx) = true.
Proof.
  intros Hobj Hi. unfold Historias.elementAt. simpl.
  destruct (lookup_lt_is_Some_2 l (Z.to_nat idx) Hi) as [v Hv].
  rewrite Hv. simpl.
  rewrite Forall_forall in Hobj.
  destruct (Hobj v) as [fs ->]; [|done].
  by apply list_elem_of_lookup_2 in Hv.
Qed.

(** C2 (divergence). The clinical-history delete tests the element it
    looked up for truthiness, not the index against the length: at a
    position inside the array that holds a falsy element (the empty
    string, 0, false) of an array without nulls, the route answers 404
    "Índice fuera de rango" although the index is in range, and the array
    keeps all its elements. On the same array the lab-order delete, which
    makes no lookup, removes the element. *)
Theorem delete_in_range_falsy_refused
    e paciente_id index idx db (l : list value) curr :
  parseInt10 index = Some idx -> 0 <= idx ->
  Historias.procedimientosOf paciente_id db = Some l ->
  no_null l ->
  l !! Z.to_nat idx = Some curr ->
  truthy curr = false ->
  (Z.to_nat idx < length l)%nat
  /\ Historias.delete_procedimiento e paciente_id index db
     = (fail 404 "Índice fuera de rango", db)
  /\ Historias.procedimientosOf paciente_id
       (Historias.delete_procedimiento e paciente_id index db).2
     = Some l
  /\ (forall e' id oid b db',
         oidMaybe e' (VStr id) = Some oid ->
         Ordenes.isProductoDelete b idx ->
         Ordenes.productosOf oid db' = Some l ->
         Ordenes.productosOf oid (Ordenes.patch e' id b db').2
         = Some (take (Z.to_nat idx) l ++ drop (S (Z.to_nat idx)) l)).
Proof.
  intros Hidx Hpos Hl Hnn Hcurr Hfalsy.
  assert (Hdel : Historias.delete_procedimiento e paciente_id index db
                 = (fail 404 "Índice fuera de rango", db)).
  { unfold Historias.procedimientosOf in Hl.
    destruct (findOne _ (historias_clinicas db)) as [h|] eqn:Hfind;
      [|discriminate].
    unfold Historias.delete_procedimiento. rewrite Hidx.
    destruct (idx <? 0) eqn:Hneg; [apply Z.ltb_lt in Hneg; lia|].
    rewrite Hfind, Hl. unfold Historias.elementAt. simpl default.
    rewrite Hcurr. simpl default. by rewrite Hfalsy. }
  split; [by eapply lookup_lt_Some|]. split; [done|].
  split; [by rewrite Hdel|].
  intros e' id oid b db' Hoid Hb Hl'.
  rewrite (orden_delete_array e' id oid b idx db' l Hoid Hb Hl').
  rewrite pull_unset; [done | done | by eapply lookup_lt_Some].
Qed.

(** An array of two elements, none of them null, whose first element is
    the empty string: deleting position 0 of the history answers 404 and
    keeps both elements. *)
Lemma delete_in_range_falsy_refused_witness :
  Historias.procedimientosOf "123" falsyDb
  = Some [VStr ""; realizado "Resina" 2]
  /\ Historias.delete_procedimiento env0 "123" "0" falsyDb
     = (fail 404 "Índice fuera de rango", falsyDb)
  /\ Historias.procedimientosOf "123"
       (Historias.delete_procedimiento env0 "123" "0" falsyDb).2
     = Some [VStr ""; realizado "Resina" 2].
Proof.
  destruct (delete_in_range_falsy_refused env0 "123" "0" 0 falsyDb
              [VStr ""; realizado "Resina" 2] (VStr ""))
    as (_ & Hdel & Harr & _).
  - reflexivity.
  - lia.
  - reflexivity.
  - repeat constructor.
  - reflexivity.
  - reflexivity.
  - split; [reflexivity|]. split; [exact Hdel | exact Harr].
Defined.

(** ** The role resolver *)

(** The resolver returns the payload itself or the payload with one of the
    two role fields written. *)
Lemma normalizeRole_cases e db (payload : gmap string value) :
  Roles.normalizeRole e db payload = payload \/
  (exists v, Roles.normalizeRole e db payload = <["rol" := v]> payload) \/
  (exists v, Roles.normalizeRole e db payload = <["rol_id" := v]> payload).
Proof.
  unfold Roles.normalizeRole.
  repeat match goal with
         | |- context [if ?c then _ else _] => destruct c
         | |- context [match ?x with Some _ => _ | None => _ end] =>
             destruct x
         end; eauto.
Qed.

(** C10. The resolver touches the two role fields only: every other key
    has in the result the binding it has in the payload (present or
    absent alike), and every key of the payload is still a key of the
    result. *)
Theorem normalizeRole_frame e db (payload : gmap string value) :
  (forall k, k <> "rol" -> k <> "rol_id" ->
             Roles.normalizeRole e db payload !! k = payload !! k)
  /\ dom payload ⊆ dom (Roles.normalizeRole e db payload).
Proof.
  destruct (normalizeRole_cases e db payload) as [-> | [[v ->] | [v ->]]].
  - split; [done | set_solver].
  - split; [intros k Hk _; by rewrite lookup_insert_ne | set_solver].
  - split; [intros k _ Hk; by rewrite lookup_insert_ne | set_solver].
Qed.

Lemma findOne_elem {D} (sel : D -> bool) (col : list D) d :
  findOne sel col = Some d -> d ∈ col.
Proof.
  intros Hf. destruct (findOne_split _ _ _ Hf) as (pre & post & -> & _).
  set_solver.
Qed.

(** A role of a well-formed catalog has a name. *)
Lemma role_name_truthy db r :
  Roles.catalog_wf db -> r ∈ roles db -> role_nombre r <> "".
Proof.
  unfold Roles.catalog_wf. rewrite Forall_forall. intros Hwf Hr Hempty.
  specialize (Hwf r Hr). by rewrite Hempty in Hwf.
Qed.

(** In a well-formed catalog the entry an identifier resolves to has a
    name. *)
Lemma resolved_entry_named e db v r :
  Roles.catalog_wf db -> Roles.resolveById e db v = Some r ->
  role_nombre r <> "".
Proof.
  intros Hwf Hres. apply (role_name_truthy db r Hwf).
  unfold Roles.resolveById in Hres.
  destruct (Roles.parseOid e v); [|discriminate].
  by apply findOne_elem in Hres.
Qed.

Lemma ensureRolesSeed_catalog_wf e db :
  Roles.catalog_wf db -> Roles.catalog_wf (Roles.ensureRolesSeed e db).
Proof.
  intros Hwf. unfold Roles.ensureRolesSeed.
  destruct (0 <? _)%nat; [done|].
  unfold Roles.catalog_wf, insertMany. simpl.
  apply Forall_app. split; [done | repeat constructor].
Qed.

(** C3. A payload that carries both a role name and a role identifier
    (both truthy) is resolved by the identifier first. When the
    identifier resolves in the catalog (to an entry that has a name, as
    every entry of a well-formed catalog has) the resulting name is the
    name of that entry and the identifier is kept. When it does not
    resolve and the name is in the closed enumeration and resolves, the
    identifier is filled from the entry found by name. When the name
    fails as well the payload is returned as it is, its identifier
    untouched. *)
Theorem normalizeRole_both e db (payload : gmap string value) :
  truthy (Roles.get payload "rol") = true ->
  truthy (Roles.get payload "rol_id") = true ->
  (forall r,
      Roles.resolveById e db (Roles.get payload "rol_id") = Some r ->
      role_nombre r <> "" ->
      Roles.get (Roles.normalizeRole e db payload) "rol"
      = VStr (role_nombre r) /\
      Roles.normalizeRole e db payload !! "rol_id" = payload !! "rol_id")
  /\
  (forall r,
      Roles.resolveById e db (Roles.get payload "rol_id") = None ->
      Roles.isRoleName (Roles.get payload "rol") = true ->
      findOne (Roles.byNombre (Roles.get payload "rol")) (roles db) = Some r ->
      Roles.get (Roles.normalizeRole e db payload) "rol_id"
      = VOid (role_id r) /\
      Roles.normalizeRole e db payload !! "rol" = payload !! "rol")
  /\
  (Roles.resolveById e db (Roles.get payload "rol_id") = None ->
   Roles.isRoleName (Roles.get payload "rol") = false \/
   findOne (Roles.byNombre (Roles.get payload "rol")) (roles db) = None ->
   Roles.normalizeRole e db payload = payload).
Proof.
  intros Hrol Hid.
  unfold Roles.normalizeRole. rewrite Hrol, Hid. cbn [negb andb].
  split; [|split].
  - intros r Hres Hname. rewrite Hres.
    assert (Htruthy : truthy (VStr (role_nombre r)) = true).
    { simpl. by destruct (role_nombre r). }
    rewrite Htruthy. cbn [negb andb].
    case_bool_decide as Heq; cbn [negb].
    + by rewrite <- Heq.
    + unfold Roles.get. rewrite lookup_insert_eq.
      split; [done | by rewrite lookup_insert_ne].
  - intros r Hres Hname Hfind. rewrite Hres, Hname, Hfind.
    unfold Roles.get. rewrite lookup_insert_eq.
    split; [done | by rewrite lookup_insert_ne].
  - intros Hres [Hname | Hfind]; rewrite Hres.
    + by rewrite Hname.
    + rewrite Hfind. by destruct (Roles.isRoleName _).
Qed.

Lemma seeded_catalog_wf : Roles.catalog_wf seededDb.
Proof. apply ensureRolesSeed_catalog_wf. constructor. Qed.

(** On the seeded catalog: a stale name next to the identifier of
    "Odontologo"; an unknown identifier next to "Asistente"; an unknown
    identifier next to a name outside the enumeration. *)
Lemma normalizeRole_both_witness :
  Roles.get (Roles.normalizeRole env0 seededDb payloadStale) "rol"
  = VStr "Odontologo" /\
  Roles.get (Roles.normalizeRole env0 seededDb payloadUnknownId) "rol_id"
  = VOid (mkOid "650000000000000000000002") /\
  Roles.normalizeRole env0 seededDb payloadUnknownBoth = payloadUnknownBoth.
Proof.
  split; [|split].
  - refine (proj1 (proj1 (normalizeRole_both env0 seededDb payloadStale
                            _ _) rolOdontologo _ _)).
    + reflexivity.
    + reflexivity.
    + reflexivity.
    + discriminate.
  - refine (proj1 (proj1 (proj2 (normalizeRole_both env0 seededDb
                                   payloadUnknownId _ _))
                         rolAsistente _ _ _)).
    + reflexivity.
    + reflexivity.
    + reflexivity.
    + reflexivity.
    + reflexivity.
  - refine (proj2 (proj2 (normalizeRole_both env0 seededDb
                            payloadUnknownBoth _ _)) _ _).
    + reflexivity.
    + reflexivity.
    + reflexivity.
    + left. reflexivity.
Defined.

(** The field [nombres] of a payload whose role name is rewritten. *)
Lemma normalizeRole_frame_witness :
  Roles.normalizeRole env0 seededDb payloadStale !! "nombres"
  = Some (VStr "Ana") /\
  dom payloadStale ⊆ dom (Roles.normalizeRole env0 seededDb payloadStale).
Proof.
  split.
  - rewrite (proj1 (normalizeRole_frame env0 seededDb payloadStale)
               "nombres"); [reflexivity | discriminate | discriminate].
  - apply (proj2 (normalizeRole_frame env0 seededDb payloadStale)).
Defined.

(** ** Catalog seeding *)

(** C8. On an empty role collection the seed inserts exactly the four
    roles of the fixed enumeration, each with its fixed description and
    an empty permission list, and touches no other collection; on a
    non-empty collection it changes nothing; hence a second run (under
    any environment) leaves the store of the first run as it is. *)
Theorem ensureRolesSeed_idempotent e db :
  (roles db = [] ->
   List.map Roles.contents (roles (Roles.ensureRolesSeed e db)) = Roles.seedContents /\
   Roles.ensureRolesSeed e db = set_roles (Roles.seedDocs e) db)
  /\ (roles db <> [] -> Roles.ensureRolesSeed e db = db)
  /\ (forall e',
         Roles.ensureRolesSeed e' (Roles.ensureRolesSeed e db)
         = Roles.ensureRolesSeed e db).
Proof.
  split; [|split].
  - intros Hempty. unfold Roles.ensureRolesSeed. rewrite Hempty. done.
  - intros Hne. unfold Roles.ensureRolesSeed.
    destruct (roles db); [done | done].
  - intros e'. unfold Roles.ensureRolesSeed.
    destruct (roles db) eqn:Hroles; simpl.
    + done.
    + by rewrite Hroles.
Qed.

(** The seed on the empty store, and a second run on its result. *)
Lemma ensureRolesSeed_idempotent_witness :
  List.map Roles.contents (roles (Roles.ensureRolesSeed env0 emptyDb))
  = Roles.seedContents /\
  Roles.ensureRolesSeed env0 seededDb = seededDb.
Proof.
  split.
  - apply (proj1 (ensureRolesSeed_idempotent env0 emptyDb)). reflexivity.
  - apply (proj1 (proj2 (ensureRolesSeed_idempotent env0 seededDb))).
    discriminate.
Defined.

(** ** The delete gates *)

(** C6. A procedure type referenced by at least one appointment line
    item: without a force flag that reads as true the delete answers 409,
    its message names the number of appointments that hold a line item
    with this identifier, and the whole store (procedure types and
    appointments) is left as it was; with [force=1] the first procedure
    type that carries the addressed identifier is removed, the
    appointments stay as they are and the answer is 200. *)
Theorem delete_procedimiento_gate :
  (forall e id oid force db,
      oidMaybe e (VStr id) = Some oid ->
      let refs :=
        length (List.filter
                  (fun c => existsb
                              (fun li => bool_decide
                                           (procedimiento_id li = Some oid))
                              (procedimientos c))
                  (citas db)) in
      (1 <= refs)%nat ->
      Procedimientos.parseBool force <> Some true ->
      Procedimientos.delete e id force db
      = (json 409
           [("ok", VBool false);
            ("error",
             VStr ("No se puede borrar: procedimiento referenciado en "
                   +:+ pretty refs
                   +:+ " cita(s). Usa ?force=1 si estás seguro."))],
         db))
  /\
  (forall e id oid db p,
      oidMaybe e (VStr id) = Some oid ->
      (1 <= countDocuments (Procedimientos.references oid) (citas db))%nat ->
      findOne (Procedimientos.byProcId oid) (procedimientos_col db) = Some p ->
      proc_id p = oid /\
      exists pre post,
        procedimientos_col db = pre ++ p :: post /\
        Forall (fun x => proc_id x <> oid) pre /\
        Procedimientos.delete e id (Some "1") db
        = (json 200 [("ok", VBool true); ("deleted", VNum 1)],
           set_procedimientos (pre ++ post) db) /\
        citas (Procedimientos.delete e id (Some "1") db).2 = citas db).
Proof.
  split.
  - intros e id oid force db Hoid refs Hrefs Hforce.
    unfold Procedimientos.delete. rewrite Hoid. cbv zeta.
    change (countDocuments (Procedimientos.references oid) (citas db))
      with refs.
    destruct (Nat.ltb_spec 0 refs); [|lia].
    by rewrite bool_decide_eq_false_2.
  - intros e id oid db p Hoid _ Hfind.
    destruct (findOne_split _ _ _ Hfind) as (pre & post & Hcol & Hsel & Hpre).
    split; [by apply bool_decide_eq_true in Hsel|].
    exists pre, post. split; [done|]. split.
    { apply Forall_forall. intros x Hx.
      rewrite forallb_forall in Hpre.
      specialize (Hpre x (proj1 (list_elem_of_In _ _) Hx)).
      apply negb_true_iff in Hpre. by apply bool_decide_eq_false in Hpre. }
    unfold Procedimientos.delete. rewrite Hoid.
    change (Procedimientos.parseBool (Some "1")) with (Some true).
    rewrite bool_decide_eq_true_2 by done. rewrite andb_false_r.
    rewrite Hcol, (deleteOne_prefix _ _ _ _ Hpre Hsel). simpl. done.
Qed.

(** A procedure type referenced by one legacy appointment, without the
    flag and with [force=1]. *)
Lemma delete_procedimiento_gate_witness :
  Procedimientos.delete env0 hexA None procDb
  = (json 409
       [("ok", VBool false);
        ("error",
         VStr "No se puede borrar: procedimiento referenciado en 1 cita(s). Usa ?force=1 si estás seguro.")],
     procDb)
  /\
  (proc_id limpieza = oidA /\
   exists pre post,
     procedimientos_col procDb = pre ++ limpieza :: post /\
     Forall (fun x => proc_id x <> oidA) pre /\
     Procedimientos.delete env0 hexA (Some "1") procDb
     = (json 200 [("ok", VBool true); ("deleted", VNum 1)],
        set_procedimientos (pre ++ post) procDb) /\
     citas (Procedimientos.delete env0 hexA (Some "1") procDb).2
     = citas procDb).
Proof.
  split.
  - apply (proj1 delete_procedimiento_gate env0 hexA oidA None procDb).
    + reflexivity.
    + vm_compute. lia.
    + discriminate.
  - apply (proj2 delete_procedimiento_gate env0 hexA oidA procDb limpieza).
    + reflexivity.
    + vm_compute. lia.
    + reflexivity.
Defined.

Lemma count_or_bounds {D} (a b : D -> bool) (col : list D) :
  (countDocuments a col <= countDocuments (fun x => a x || b x) col)%nat /\
  (countDocuments b col <= countDocuments (fun x => a x || b x) col)%nat /\
  (countDocuments (fun x => a x || b x) col
   + countDocuments (fun x => a x && b x) col
   = countDocuments a col + countDocuments b col)%nat.
Proof.
  unfold countDocuments.
  induction col as [|x col (IH1 & IH2 & IH3)]; simpl; [lia|].
  destruct (a x), (b x); simpl; lia.
Qed.

(** The part of the role gate that holds: a role referenced by at least
    one user is never deleted, whatever the query string carries; the
    answer is 409 and the two counts add up to the users that reference
    the role plus those that do so in both ways. *)
Lemma delete_role_refuses e id oid query db role :
  oidMaybe e (VStr id) = Some oid ->
  findOne (Roles.byId oid) (roles db) = Some role ->
  (1 <= RolesRoute.usersReferencing role db)%nat ->
  exists byId byString,
    RolesRoute.delete e id query db
    = (json 409 [("ok", VBool false);
                 ("error", VStr (RolesRoute.inUseMessage (byId + byString)));
                 ("inUseBy", VObj [("byId", num byId);
                                   ("byString", num byString)])],
       db) /\
    (byId + byString
     = RolesRoute.usersReferencing role db
       + countDocuments (fun u => RolesRoute.refById (role_id role) u
                                  && RolesRoute.refByString (role_nombre role) u)
                        (usuarios db))%nat.
Proof.
  intros Hoid Hfind HN.
  assert (Hid : role_id role = oid).
  { apply findOne_split in Hfind as (? & ? & _ & Hsel & _).
    by apply bool_decide_eq_true in Hsel. }
  unfold RolesRoute.usersReferencing, RolesRoute.referencedBy in *.
  destruct (count_or_bounds (RolesRoute.refById (role_id role))
              (RolesRoute.refByString (role_nombre role)) (usuarios db))
    as (H1 & H2 & H3).
  exists (countDocuments (RolesRoute.refById oid) (usuarios db)),
         (countDocuments (RolesRoute.refByString (role_nombre role))
                         (usuarios db)).
  split.
  - unfold RolesRoute.delete. rewrite Hoid, Hfind. subst oid.
    match goal with |- context [(0 <? ?n)%nat] =>
      destruct (Nat.ltb_spec 0 n); [done | lia] end.
  - subst oid. lia.
Qed.

(** C5 (divergence). On the seeded catalog with the single user created
    from the role name "Asistente", exactly one user references the role,
    and deleting the role is refused with 409; but the user is counted
    once by identifier and once by name, so the reported counts add up to
    2 and the message speaks of 2 users. *)
Theorem delete_role_counts_twice :
  RolesRoute.usersReferencing rolAsistente oneUserDb = 1%nat /\
  RolesRoute.delete env0 hexAsistente [("force", "1")] oneUserDb
  = (json 409 [("ok", VBool false);
               ("error", VStr (RolesRoute.inUseMessage 2));
               ("inUseBy", VObj [("byId", VNum 1); ("byString", VNum 1)])],
     oneUserDb).
Proof. split; reflexivity. Qed.

(** ** Identifier resolution *)

(** On a string the two resolvers agree with the 24-character
    hexadecimal test, and they never fail otherwise than by null. *)
Lemma oidMaybe_string e s :
  oidMaybe e (VStr s)
  = if isHex24 s then Some (ObjectId_fromHex s) else None.
Proof. unfold oidMaybe, ObjectId_new. by destruct (isHex24 s). Qed.

Lemma parseOid_spec e v :
  Roles.parseOid e v
  = match v with
    | VStr s => if isHex24 s then Some (ObjectId_fromHex s) else None
    | VOid o => Some o
    | _ => None
    end.
Proof.
  destruct v; try done. unfold Roles.parseOid, ObjectId_new.
  by destruct (isHex24 s).
Qed.

(** C9 (divergence). [oidMaybe] does not answer null on a missing
    identifier or on a number: the driver's constructor generates a new
    identifier for them, and [oidMaybe] hands it back as if it had been
    parsed. The resolver's own [parseOid] answers null on the same
    inputs. *)
Theorem oidMaybe_missing_id_generates e :
  oidMaybe e VUndef = Some (generate e 0%nat None) /\
  oidMaybe e VNull = Some (generate e 0%nat None) /\
  oidMaybe e (VNum 5) = Some (generate e 0%nat (Some 5)) /\
  Roles.parseOid e VUndef = None /\
  Roles.parseOid e VNull = None /\
  Roles.parseOid e (VNum 5) = None.
Proof. repeat split. Qed.

(** ** The computed total *)

Lemma computeTotal_from (procs : list LineItem) (acc : Z) :
  fold_left (fun a p => a + costo_unitario p * default 1 (cantidad p))
            procs acc
  = acc + Citas.sumLineItems procs.
Proof.
  revert acc. induction procs as [|p ps IH]; intros acc; simpl; [lia|].
  rewrite IH. unfold Citas.quantity. lia.
Qed.

(** The route's fold is the sum of the specification. *)
Lemma computeTotal_sum (procs : list LineItem) :
  Citas.computeTotal procs = Citas.sumLineItems procs.
Proof. unfold Citas.computeTotal. by rewrite computeTotal_from. Qed.

(** A validated patch carries a well-formed [usuario_id] or none. *)
Lemma CitaPatch_usuario e b parsed :
  Citas.CitaPatch e b = Some parsed ->
  match Citas.p_usuario_id parsed with
  | Some s => isHex24 s = true
  | None => True
  end.
Proof.
  unfold Citas.CitaPatch. intros H.
  repeat match type of H with
         | context [mbind _ ?x] => destruct x eqn:?; simpl in H; [|discriminate]
         end.
  match type of H with
  | (if ?c then _ else _) = _ => destruct c; [discriminate|]
  end.
  injection H as <-. simpl.
  destruct (Citas.pb_usuario_id b) as [s|]; simplify_eq; [|done].
  destruct (isHex24 s) eqn:Hs; by simplify_eq.
Qed.

(** A [fecha] that is present but falsy (null, the empty string, 0,
    false) does not validate: the preprocessor turns it into undefined,
    which is no date. The patch is answered 400 before any lookup and
    writes nothing, whatever else the body carries. *)
Lemma patch_falsy_fecha_rejected e id oid b db :
  oidMaybe e (VStr id) = Some oid ->
  Citas.pb_fecha b <> VUndef ->
  truthy (Citas.pb_fecha b) = false ->
  Citas.CitaPatch e b = None
  /\ Citas.patch e id b db = (fail 400 Citas.zodError, db).
Proof.
  intros Hoid Hpresent Hfalsy.
  assert (Hnone : Citas.CitaPatch e b = None).
  { unfold Citas.CitaPatch.
    destruct (Citas.pb_fecha b); try done; cbv beta iota;
      by rewrite Hfalsy. }
  split; [done|]. unfold Citas.patch. by rewrite Hoid, Hnone.
Qed.

(** C1 (amended). For a patch of an existing appointment with a
    validated request: when the request supplies line items and no
    total, the stored total is the sum of unit cost times quantity over
    the stored (normalised) line items; when it supplies a total, that
    total is stored as it is; when it supplies neither, the total and the
    line items stay as they were. *)
Theorem patch_total_policy e id oid b parsed db c :
  oidMaybe e (VStr id) = Some oid ->
  Citas.CitaPatch e b = Some parsed ->
  findOne (Citas.byCitaId oid) (citas db) = Some c ->
  exists c',
    findOne (Citas.byCitaId oid) (citas (Citas.patch e id b db).2) = Some c' /\
    (forall items,
        Citas.p_total parsed = None ->
        Citas.p_procedimientos parsed = Some items ->
        procedimientos c' = Citas.normalizeProcs items /\
        total c' = Citas.sumLineItems (procedimientos c')) /\
    (forall t, Citas.p_total parsed = Some t -> total c' = t) /\
    (Citas.p_total parsed = None ->
     Citas.p_procedimientos parsed = None ->
     total c' = total c /\ procedimientos c' = procedimientos c).
Proof.
  intros Hoid Hparse Hfind.
  destruct (findOne_split _ _ _ Hfind) as (pre & post & Hcol & Hsel & Hpre).
  pose proof (CitaPatch_usuario e b parsed Hparse) as Huid.
  unfold Citas.patch. rewrite Hoid, Hparse.
  set (usuarioOid := match Citas.p_usuario_id parsed with
                     | Some s => oidMaybe e (VStr s)
                     | None => None
                     end).
  assert (Hgate : bool_decide (Citas.p_usuario_id parsed <> None)
                  && bool_decide (usuarioOid = None) = false).
  { subst usuarioOid. destruct (Citas.p_usuario_id parsed) as [s|].
    - rewrite oidMaybe_string, Huid. by rewrite andb_false_r.
    - done. }
  rewrite Hgate, Hcol, (updateOne_prefix _ _ _ _ _ Hpre Hsel). simpl.
  exists (Citas.applySet e parsed usuarioOid c). split.
  - apply findOne_prefix; [done|].
    unfold Citas.byCitaId in *. simpl. done.
  - simpl. split; [|split].
    + intros items -> ->. simpl. by rewrite computeTotal_sum.
    + by intros t ->.
    + by intros -> ->.
Qed.

(** New line items (70 x 3, the name trimmed) over an appointment that
    carried a manual total: the total becomes 210. *)
Lemma patch_total_policy_witness :
  exists c',
    findOne (Citas.byCitaId oidCita)
            (citas (Citas.patch env0 hexCita patchItems manualDb).2)
    = Some c' /\
    li_nombre <$> procedimientos c' = ["Corona"] /\
    total c' = 210.
Proof.
  edestruct patch_total_policy
    with (e := env0) (id := hexCita) (oid := oidCita) (b := patchItems)
         (db := manualDb)
    as (c' & Hc' & Hitems & _).
  - reflexivity.
  - vm_compute. reflexivity.
  - vm_compute. reflexivity.
  - exists c'. split; [exact Hc'|].
    destruct (Hitems _ eq_refl eq_refl) as [Hprocs Htotal].
    rewrite Htotal, Hprocs. split; reflexivity.
Defined.

(** C1 (as stated) fails for a patch by design: an appointment created
    with a manual total of 999 over line items worth 130, then patched
    with a new status and nothing else. The request supplies no total,
    the patch succeeds, and the stored total is still 999. *)
Lemma patch_keeps_manual_total_counterexample :
  Citas.pb_total patchEstado = None /\
  status (Citas.patch env0 hexCita patchEstado manualDb).1 = 200%nat /\
  exists c,
    findOne (Citas.byCitaId oidCita)
            (citas (Citas.patch env0 hexCita patchEstado manualDb).2)
    = Some c /\
    total c = 999 /\
    Citas.sumLineItems (procedimientos c) = 130 /\
    total c <> Citas.sumLineItems (procedimientos c).
Proof.
  split; [reflexivity|]. split; [reflexivity|].
  eexists. split; [vm_compute; reflexivity|].
  split; [reflexivity|]. split; [reflexivity|]. discriminate.
Qed.

(** The create schema gives a missing total the default 0, so the
    fallback to the computed total in [post] is never taken. *)
Lemma CitaCreate_total_default e b parsed :
  Citas.CitaCreate e b = Some parsed ->
  Citas.b_total b = None ->
  Citas.c_total parsed = Some 0.
Proof.
  unfold Citas.CitaCreate. intros H Htot. rewrite Htot in H.
  repeat match type of H with
         | context [mbind _ ?x] => destruct x eqn:?; simpl in H; [|discriminate]
         end.
  by injection H as <-.
Qed.

(** Creating the appointment of the scenario (line items 50 x 2 and
    30 x 1, no total) stores and reports the total 0, not 130. *)
Lemma post_without_total_stores_zero :
  Citas.b_total bodySinTotal = None /\
  exists c,
    citas (Citas.post env0 bodySinTotal emptyDb).2 = [c] /\
    Citas.sumLineItems (procedimientos c) = 130 /\
    total c = 0 /\
    assoc "total" (body (Citas.post env0 bodySinTotal emptyDb).1)
    = Some (VNum 0).
Proof.
  split; [reflexivity|]. eexists. split; [vm_compute; reflexivity|].
  repeat split.
Qed.

(** * Further properties *)

Import MoreExamples.

(** ** The role resolver on every payload *)

Lemma get_insert_eq (p : gmap string value) k v :
  Roles.get (<[k := v]> p) k = v.
Proof. unfold Roles.get. by rewrite lookup_insert_eq. Qed.

Lemma get_insert_ne (p : gmap string value) k k' v :
  k <> k' -> Roles.get (<[k := v]> p) k' = Roles.get p k'.
Proof. intros Hne. unfold Roles.get. by rewrite lookup_insert_ne. Qed.

Lemma findOne_sel {D} (sel : D -> bool) (col : list D) d :
  findOne sel col = Some d -> sel d = true.
Proof. intros Hf. by destruct (findOne_split _ _ _ Hf) as (? & ? & _ & ? & _). Qed.

Lemma NoDup_map_inj {A B} (f : A -> B) (l : list A) x y :
  NoDup (List.map f l) -> x ∈ l -> y ∈ l -> f x = f y -> x = y.
Proof.
  induction l as [|a l IH]; simpl; intros Hnd Hx Hy Hf; [by inversion Hx|].
  apply NoDup_cons in Hnd as [Ha Hnd].
  apply elem_of_cons in Hx as [-> | Hx]; apply elem_of_cons in Hy as [-> | Hy].
  - done.
  - exfalso. apply Ha. rewrite Hf. apply list_elem_of_In, List.in_map.
    by apply list_elem_of_In.
  - exfalso. apply Ha. rewrite <- Hf. apply list_elem_of_In, List.in_map.
    by apply list_elem_of_In.
  - by apply IH.
Qed.

Lemma findOne_some_elem {D} (sel : D -> bool) (col : list D) d :
  d ∈ col -> sel d = true -> findOne sel col <> None.
Proof.
  unfold findOne. induction col as [|x l IH]; intros Hin Hd; [by inversion Hin|].
  simpl. destruct (sel x) eqn:Hx; [done|].
  apply elem_of_cons in Hin as [-> | Hin]; [congruence | by apply IH].
Qed.

(** With unique identifiers, the role found by name is the one its own
    identifier resolves to. *)
Lemma resolve_found e db v r0 :
  roles_ids_unique db ->
  findOne (Roles.byNombre v) (roles db) = Some r0 ->
  Roles.resolveById e db (VOid (role_id r0)) = Some r0.
Proof.
  intros Huniq Hfind. unfold Roles.resolveById. simpl.
  destruct (findOne (Roles.byId (role_id r0)) (roles db)) as [r|] eqn:Hr.
  - f_equal. apply (NoDup_map_inj role_id (roles db)); auto.
    + by apply findOne_elem in Hr.
    + by apply findOne_elem in Hfind.
    + apply findOne_sel in Hr. by apply bool_decide_eq_true in Hr.
  - exfalso. apply (findOne_some_elem (Roles.byId (role_id r0)) (roles db) r0).
    + by apply findOne_elem in Hfind.
    + unfold Roles.byId. by apply bool_decide_eq_true.
    + done.
Qed.

(** X1. Whatever the payload, the result of the resolver is consistent:
    when it carries a role name and its identifier resolves to a named
    entry of the catalog, the name is that entry's name. Identifiers are
    unique in the catalog. *)
Theorem normalizeRole_consistent e db (payload : gmap string value) r :
  roles_ids_unique db ->
  truthy (Roles.get (Roles.normalizeRole e db payload) "rol") = true ->
  Roles.resolveById e db (Roles.get (Roles.normalizeRole e db payload) "rol_id")
  = Some r ->
  role_nombre r <> "" ->
  Roles.get (Roles.normalizeRole e db payload) "rol" = VStr (role_nombre r).
Proof.
  intros Huniq. unfold Roles.normalizeRole.
  assert (Hnamed : forall x : Role, role_nombre x <> "" ->
                     truthy (VStr (role_nombre x)) = true).
  { intros x Hx. simpl. by destruct (role_nombre x). }
  assert (Hunres : forall v, truthy v = false ->
                     Roles.resolveById e db v = None).
  { intros v Hv. unfold Roles.resolveById, Roles.parseOid.
    destruct v; try done. simpl in Hv.
    apply negb_false_iff, String.eqb_eq in Hv. subst. done. }
  destruct (truthy (Roles.get payload "rol_id")) eqn:Hid;
    destruct (truthy (Roles.get payload "rol")) eqn:Hrol; cbn [negb andb].
  - (* both *)
    destruct (Roles.resolveById e db (Roles.get payload "rol_id")) as [rb|] eqn:Hres.
    + destruct (truthy (VStr (role_nombre rb))) eqn:Hn; cbn [andb].
      * case_bool_decide as Heq; cbn [negb].
        -- intros _ Hres' Hname. rewrite Hres in Hres'. by simplify_eq.
        -- rewrite get_insert_eq, get_insert_ne by done.
           intros _ Hres' _. rewrite Hres in Hres'. by simplify_eq.
      * intros _ Hres' Hname. rewrite Hres in Hres'. simplify_eq.
        by rewrite (Hnamed r Hname) in Hn.
    + destruct (Roles.isRoleName (Roles.get payload "rol")) eqn:Hen.
      * destruct (findOne _ _) as [r0|] eqn:Hf.
        -- rewrite get_insert_eq, get_insert_ne by done.
           intros _ Hres' _.
           rewrite (resolve_found e db _ r0 Huniq Hf) in Hres'. simplify_eq.
           apply findOne_sel, bool_decide_eq_true in Hf. by rewrite Hf.
        -- intros _ Hres'. by rewrite Hres in Hres'.
      * intros _ Hres'. by rewrite Hres in Hres'.
  - (* only rol_id *)
    unfold Roles.resolveById at 1.
    destruct (Roles.parseOid e (Roles.get payload "rol_id")) as [rid|] eqn:Hp.
    + destruct (findOne (Roles.byId rid) (roles db)) as [r1|] eqn:Hf.
      * destruct (truthy (VStr (role_nombre r1))) eqn:Hn.
        -- rewrite get_insert_eq, get_insert_ne by done.
           intros _ Hres' _. unfold Roles.resolveById in Hres'.
           rewrite Hp, Hf in Hres'. by simplify_eq.
        -- intros Hrol'. by rewrite Hrol in Hrol'.
      * intros Hrol'. by rewrite Hrol in Hrol'.
    + intros Hrol'. by rewrite Hrol in Hrol'.
  - (* only rol *)
    destruct (Roles.isRoleName (Roles.get payload "rol")) eqn:Hen; cbn [negb].
    + destruct (findOne _ _) as [r0|] eqn:Hf.
      * rewrite get_insert_eq, get_insert_ne by done.
        intros _ Hres' _.
        rewrite (resolve_found e db _ r0 Huniq Hf) in Hres'. simplify_eq.
        apply findOne_sel, bool_decide_eq_true in Hf. by rewrite Hf.
      * intros _ Hres'. by rewrite (Hunres _ Hid) in Hres'.
    + intros _ Hres'. by rewrite (Hunres _ Hid) in Hres'.
  - intros Hrol'. by rewrite Hrol in Hrol'.
Qed.

(** X2. Resolving twice is resolving once: the resolver changes nothing
    in its own result (identifiers unique in the catalog). *)
Theorem normalizeRole_idempotent e db (payload : gmap string value) :
  roles_ids_unique db ->
  Roles.normalizeRole e db (Roles.normalizeRole e db payload)
  = Roles.normalizeRole e db payload.
Proof.
  intros Huniq.
  set (out := Roles.normalizeRole e db payload).
  assert (Hout : out = Roles.normalizeRole e db payload) by done.
  clearbody out. unfold Roles.normalizeRole in Hout.
  destruct (truthy (Roles.get payload "rol_id")) eqn:Hid;
    destruct (truthy (Roles.get payload "rol")) eqn:Hrol;
    cbn [negb andb] in Hout.
  - destruct (Roles.resolveById e db (Roles.get payload "rol_id")) as [rb|] eqn:Hres.
    + destruct (truthy (VStr (role_nombre rb))) eqn:Hn; cbn [andb] in Hout.
      * case_bool_decide as Heq; cbn [negb] in Hout.
        -- subst out. unfold Roles.normalizeRole. rewrite Hid, Hrol, Hres, Hn.
           cbn [negb andb]. by rewrite bool_decide_eq_true_2.
        -- subst out. unfold Roles.normalizeRole.
           rewrite get_insert_eq, get_insert_ne, Hid, Hn, Hres, Hn by done.
           cbn [negb andb]. by rewrite bool_decide_eq_true_2.
      * subst out. unfold Roles.normalizeRole. rewrite Hid, Hrol, Hres, Hn.
        done.
    + destruct (Roles.isRoleName (Roles.get payload "rol")) eqn:Hen.
      * destruct (findOne _ _) as [r0|] eqn:Hf.
        -- subst out. unfold Roles.normalizeRole.
           rewrite get_insert_eq, get_insert_ne, Hrol by done.
           change (truthy (VOid (role_id r0))) with true. cbn [negb andb].
           rewrite (resolve_found e db _ r0 Huniq Hf).
           pose proof Hf as Hsel.
           apply findOne_sel, bool_decide_eq_true in Hsel.
           rewrite (bool_decide_eq_true_2 _ Hsel). by rewrite andb_false_r.
        -- subst out. unfold Roles.normalizeRole.
           rewrite Hid, Hrol, Hres, Hen, Hf. done.
      * subst out. unfold Roles.normalizeRole. rewrite Hid, Hrol, Hres, Hen.
        done.
  - destruct (Roles.parseOid e (Roles.get payload "rol_id")) as [rid|] eqn:Hp.
    + destruct (findOne (Roles.byId rid) (roles db)) as [r1|] eqn:Hf.
      * destruct (truthy (VStr (role_nombre r1))) eqn:Hn.
        -- subst out. unfold Roles.normalizeRole.
           rewrite get_insert_eq, get_insert_ne, Hid, Hn by done.
           cbn [negb andb]. unfold Roles.resolveById. rewrite Hp, Hf, Hn.
           cbn [andb]. by rewrite bool_decide_eq_true_2.
        -- subst out. unfold Roles.normalizeRole. rewrite Hid, Hrol.
           cbn [negb andb]. by rewrite Hp, Hf, Hn.
      * subst out. unfold Roles.normalizeRole. rewrite Hid, Hrol.
        cbn [negb andb]. by rewrite Hp, Hf.
    + subst out. unfold Roles.normalizeRole. rewrite Hid, Hrol.
      cbn [negb andb]. by rewrite Hp.
  - destruct (Roles.isRoleName (Roles.get payload "rol")) eqn:Hen; cbn [negb] in Hout.
    + destruct (findOne _ _) as [r0|] eqn:Hf.
      * subst out. unfold Roles.normalizeRole.
        rewrite get_insert_eq, get_insert_ne, Hrol by done.
        change (truthy (VOid (role_id r0))) with true. cbn [negb andb].
        rewrite (resolve_found e db _ r0 Huniq Hf).
        pose proof Hf as Hsel.
        apply findOne_sel, bool_decide_eq_true in Hsel.
        rewrite (bool_decide_eq_true_2 _ Hsel). by rewrite andb_false_r.
      * subst out. unfold Roles.normalizeRole. rewrite Hid, Hrol.
        cbn [negb andb]. by rewrite Hen, Hf.
    + subst out. unfold Roles.normalizeRole. rewrite Hid, Hrol.
      cbn [negb andb]. by rewrite Hen.
  - subst out. unfold Roles.normalizeRole. by rewrite Hid, Hrol.
Qed.

(** The seeded catalog has unique identifiers. *)
Lemma seeded_ids_unique : roles_ids_unique seededDb.
Proof. apply (bool_decide_unpack _). by vm_compute. Qed.

Lemma normalizeRole_consistent_witness :
  Roles.get (Roles.normalizeRole env0 seededDb
               {[ "rol" := VStr "Asistente" ]}) "rol"
  = VStr "Asistente".
Proof.
  apply (normalizeRole_consistent env0 seededDb
           {[ "rol" := VStr "Asistente" ]} rolAsistente).
  - apply (bool_decide_unpack _). by vm_compute.
  - reflexivity.
  - reflexivity.
  - discriminate.
Defined.

Lemma normalizeRole_idempotent_witness :
  Roles.normalizeRole env0 seededDb
    (Roles.normalizeRole env0 seededDb payloadUnknownId)
  = Roles.normalizeRole env0 seededDb payloadUnknownId.
Proof.
  apply normalizeRole_idempotent.
  apply (bool_decide_unpack _). by vm_compute.
Defined.

(** X3. A payload with a role identifier and no role name: when the
    identifier resolves to a named entry the name is filled from it and
    nothing else changes; when it does not resolve (malformed, or unknown
    to the catalog) the payload comes back as it is, without a name. *)
Theorem normalizeRole_only_id e db (payload : gmap string value) :
  truthy (Roles.get payload "rol_id") = true ->
  truthy (Roles.get payload "rol") = false ->
  (forall r,
      Roles.resolveById e db (Roles.get payload "rol_id") = Some r ->
      role_nombre r <> "" ->
      Roles.normalizeRole e db payload
      = <["rol" := VStr (role_nombre r)]> payload)
  /\
  (Roles.resolveById e db (Roles.get payload "rol_id") = None ->
   Roles.normalizeRole e db payload = payload).
Proof.
  intros Hid Hrol. unfold Roles.normalizeRole, Roles.resolveById.
  rewrite Hid, Hrol. cbn [negb andb]. split.
  - intros r Hres Hname.
    destruct (Roles.parseOid e _) as [rid|]; [|discriminate].
    rewrite Hres.
    assert (Ht : truthy (VStr (role_nombre r)) = true)
      by (simpl; by destruct (role_nombre r)).
    by rewrite Ht.
  - intros Hres. destruct (Roles.parseOid e _) as [rid|]; [|done].
    by rewrite Hres.
Qed.

Lemma normalizeRole_only_id_witness :
  Roles.normalizeRole env0 seededDb {[ "rol_id" := VStr hexOdontologo ]}
  = <["rol" := VStr "Odontologo"]> {[ "rol_id" := VStr hexOdontologo ]}
  /\
  Roles.normalizeRole env0 seededDb {[ "rol_id" := VStr "no-es-hex" ]}
  = {[ "rol_id" := VStr "no-es-hex" ]}.
Proof.
  split.
  - refine (proj1 (normalizeRole_only_id env0 seededDb
                     {[ "rol_id" := VStr hexOdontologo ]} _ _)
                  rolOdontologo _ _);
      [reflexivity | reflexivity | reflexivity | discriminate].
  - refine (proj2 (normalizeRole_only_id env0 seededDb
                     {[ "rol_id" := VStr "no-es-hex" ]} _ _) _);
      reflexivity.
Defined.

(** X4. A payload with a role name and no identifier: a name outside the
    closed enumeration is never looked up, even when the catalog holds a
    role of that name; a name of the enumeration gets the identifier of
    the catalog entry of that name, and stays without one when the catalog
    has no such entry. *)
Theorem normalizeRole_only_name e db (payload : gmap string value) :
  truthy (Roles.get payload "rol") = true ->
  truthy (Roles.get payload "rol_id") = false ->
  (Roles.isRoleName (Roles.get payload "rol") = false ->
   Roles.normalizeRole e db payload = payload)
  /\
  (forall r,
      Roles.isRoleName (Roles.get payload "rol") = true ->
      findOne (Roles.byNombre (Roles.get payload "rol")) (roles db) = Some r ->
      Roles.normalizeRole e db payload
      = <["rol_id" := VOid (role_id r)]> payload)
  /\
  (Roles.isRoleName (Roles.get payload "rol") = true ->
   findOne (Roles.byNombre (Roles.get payload "rol")) (roles db) = None ->
   Roles.normalizeRole e db payload = payload).
Proof.
  intros Hrol Hid. unfold Roles.normalizeRole.
  rewrite Hid, Hrol. cbn [negb andb]. repeat split.
  - by intros ->.
  - by intros r -> ->.
  - by intros -> ->.
Qed.

(** A catalog that holds a role named "Gerente", a name outside the
    enumeration: the payload is still returned untouched. *)
Lemma normalizeRole_only_name_witness :
  Roles.normalizeRole env0 gerenteDb {[ "rol" := VStr "Gerente" ]}
  = {[ "rol" := VStr "Gerente" ]}
  /\
  Roles.normalizeRole env0 seededDb {[ "rol" := VStr "Asistente" ]}
  = <["rol_id" := VOid (mkOid hexAsistente)]> {[ "rol" := VStr "Asistente" ]}
  /\
  Roles.normalizeRole env0 emptyDb {[ "rol" := VStr "Asistente" ]}
  = {[ "rol" := VStr "Asistente" ]}.
Proof.
  split; [|split].
  - refine (proj1 (normalizeRole_only_name env0 gerenteDb
                     {[ "rol" := VStr "Gerente" ]} _ _) _); reflexivity.
  - refine (proj1 (proj2 (normalizeRole_only_name env0 seededDb
                            {[ "rol" := VStr "Asistente" ]} _ _))
                  rolAsistente _ _); reflexivity.
  - refine (proj2 (proj2 (normalizeRole_only_name env0 emptyDb
                            {[ "rol" := VStr "Asistente" ]} _ _)) _ _);
      reflexivity.
Defined.

(** X5. Nothing to resolve, nothing changed: a payload with neither role
    field comes back as it is on every catalog, and on an empty catalog
    every payload does. *)
Theorem normalizeRole_passthrough e db (payload : gmap string value) :
  (truthy (Roles.get payload "rol") = false ->
   truthy (Roles.get payload "rol_id") = false ->
   Roles.normalizeRole e db payload = payload)
  /\
  (roles db = [] -> Roles.normalizeRole e db payload = payload).
Proof.
  split.
  - intros Hrol Hid. unfold Roles.normalizeRole. by rewrite Hrol, Hid.
  - intros Hempty.
    destruct (normalizeRole_cases e db payload) as [-> | Hch]; [done|].
    revert Hch. unfold Roles.normalizeRole, Roles.resolveById.
    rewrite Hempty. unfold findOne. simpl.
    repeat match goal with
           | |- context [if ?c then _ else _] => destruct c
           | |- context [match ?x with Some _ => _ | None => _ end] =>
               destruct x
           end; done.
Qed.

Lemma normalizeRole_passthrough_witness :
  Roles.normalizeRole env0 seededDb {[ "nombres" := VStr "Ana" ]}
  = {[ "nombres" := VStr "Ana" ]}
  /\
  Roles.normalizeRole env0 emptyDb payloadStale = payloadStale.
Proof.
  split.
  - refine (proj1 (normalizeRole_passthrough env0 seededDb
                     {[ "nombres" := VStr "Ana" ]}) _ _); reflexivity.
  - refine (proj2 (normalizeRole_passthrough env0 emptyDb payloadStale) _).
    reflexivity.
Defined.

(** X6. Seeding and resolving compose: after the seed has filled an empty
    catalog, every name of the closed enumeration sent without an
    identifier gets the identifier of the seeded role of that name. *)
Theorem seeded_names_resolve e e' db (payload : gmap string value) s :
  roles db = [] ->
  s ∈ Roles.ROLE_NAMES ->
  Roles.get payload "rol" = VStr s ->
  truthy (Roles.get payload "rol_id") = false ->
  exists r,
    r ∈ roles (Roles.ensureRolesSeed e db) /\
    role_nombre r = s /\
    Roles.normalizeRole e' (Roles.ensureRolesSeed e db) payload
    = <["rol_id" := VOid (role_id r)]> payload.
Proof.
  intros Hempty Hs Hrol Hid.
  unfold Roles.ensureRolesSeed. rewrite Hempty. simpl.
  unfold Roles.normalizeRole. rewrite Hid, Hrol.
  unfold Roles.ROLE_NAMES in Hs.
  repeat (apply elem_of_cons in Hs as [-> | Hs]);
    [| | | | by apply elem_of_nil in Hs];
    (eexists; split; [|split; [|reflexivity]];
     [set_solver | reflexivity]).
Qed.

Lemma seeded_names_resolve_witness :
  exists r,
    r ∈ roles (Roles.ensureRolesSeed env0 emptyDb) /\
    role_nombre r = "Laboratorista" /\
    Roles.normalizeRole env0 (Roles.ensureRolesSeed env0 emptyDb)
      {[ "rol" := VStr "Laboratorista" ]}
    = <["rol_id" := VOid (role_id r)]> {[ "rol" := VStr "Laboratorista" ]}.
Proof.
  apply (seeded_names_resolve env0 env0 emptyDb).
  - reflexivity.
  - set_solver.
  - reflexivity.
  - reflexivity.
Defined.

(** ** Appointments *)

Lemma sumLineItems_nonneg (procs : list LineItem) :
  Forall (fun p => 0 <= costo_unitario p /\ 0 <= Citas.quantity p) procs ->
  0 <= Citas.sumLineItems procs.
Proof.
  induction 1 as [|p ps [Hc Hq] _ IH]; simpl; [lia|]. nia.
Qed.

(** X7. Whatever the request items, the stored line items are well
    formed: a non-empty name, a non-negative cost, a quantity of at least
    one, no legacy reference; there are no more of them than request
    items, and their total is never negative. *)
Theorem normalizeProcs_wellformed (arr : list Citas.ProcIn) :
  Forall (fun p => li_nombre p <> "" /\ 0 <= costo_unitario p /\
                   (exists c, cantidad p = Some c /\ 1 <= c) /\
                   procedimiento_id p = None)
         (Citas.normalizeProcs arr)
  /\ (length (Citas.normalizeProcs arr) <= length arr)%nat
  /\ 0 <= Citas.computeTotal (Citas.normalizeProcs arr).
Proof.
  assert (Hwf : Forall (fun p => li_nombre p <> "" /\ 0 <= costo_unitario p /\
                   (exists c, cantidad p = Some c /\ 1 <= c) /\
                   procedimiento_id p = None)
         (Citas.normalizeProcs arr)).
  { unfold Citas.normalizeProcs. induction arr as [|q arr IH]; simpl;
      [constructor|].
    destruct (String.eqb (trim (Citas.in_nombre q)) "") eqn:Hn; simpl;
      [exact IH|].
    destruct (0 <=? Citas.asNumber (Citas.in_costo_unitario q)) eqn:Hc;
      simpl; [|exact IH].
    match goal with |- context [1 <=? ?c] => destruct (1 <=? c) eqn:Hq end;
      simpl; [|exact IH].
    constructor; [|exact IH]. simpl. repeat split.
    - intros Heq. rewrite Heq in Hn. discriminate.
    - by apply Z.leb_le.
    - eexists. split; [reflexivity | by apply Z.leb_le]. }
  split; [exact Hwf|]. split.
  - unfold Citas.normalizeProcs.
    etrans; [apply List.filter_length_le|]. by rewrite List.length_map.
  - rewrite computeTotal_sum. apply sumLineItems_nonneg.
    eapply Forall_impl; [exact Hwf|]. simpl.
    intros p (_ & Hc & (c & Hq & Hc1) & _). unfold Citas.quantity.
    rewrite Hq. simpl. lia.
Qed.

Lemma normalizeProcs_app (l1 l2 : list Citas.ProcIn) :
  Citas.normalizeProcs (l1 ++ l2)
  = Citas.normalizeProcs l1 ++ Citas.normalizeProcs l2.
Proof.
  unfold Citas.normalizeProcs. by rewrite List.map_app, List.filter_app.
Qed.

(** X8. An item whose name is only white space passes the item schema,
    yet normalisation drops it: the stored line items and the computed
    total are those of the request without that item. *)
Theorem blank_name_dropped (l1 l2 : list Citas.ProcIn) (p p' : Citas.ProcIn) :
  Citas.Proc p = Some p' ->
  trim (Citas.in_nombre p) = "" ->
  Citas.normalizeProcs (l1 ++ p' :: l2) = Citas.normalizeProcs (l1 ++ l2) /\
  Citas.computeTotal (Citas.normalizeProcs (l1 ++ p' :: l2))
  = Citas.computeTotal (Citas.normalizeProcs (l1 ++ l2)).
Proof.
  intros Hp Hblank.
  assert (Heq : Citas.normalizeProcs (l1 ++ p' :: l2)
                = Citas.normalizeProcs (l1 ++ l2)).
  { rewrite !normalizeProcs_app. f_equal.
    change (p' :: l2) with ([p'] ++ l2). rewrite normalizeProcs_app.
    unfold Citas.Proc in Hp.
    destruct (_ && _); [|discriminate]. injection Hp as <-.
    unfold Citas.normalizeProcs at 1. simpl. by rewrite Hblank. }
  by rewrite Heq.
Qed.

Lemma blank_name_dropped_witness :
  Citas.normalizeProcs
    [{| Citas.in_nombre := "Resina"; Citas.in_costo_unitario := 50;
        Citas.in_cantidad := Some 2 |};
     {| Citas.in_nombre := "  "; Citas.in_costo_unitario := 30;
        Citas.in_cantidad := Some 1 |}]
  = Citas.normalizeProcs
      [{| Citas.in_nombre := "Resina"; Citas.in_costo_unitario := 50;
          Citas.in_cantidad := Some 2 |}].
Proof.
  refine (proj1 (blank_name_dropped
                   [{| Citas.in_nombre := "Resina";
                       Citas.in_costo_unitario := 50;
                       Citas.in_cantidad := Some 2 |}] []
                   {| Citas.in_nombre := "  "; Citas.in_costo_unitario := 30;
                      Citas.in_cantidad := None |} _ _ _));
    reflexivity.
Defined.

Lemma hex_not_space (c : ascii) : is_hex c = true -> is_space c = false.
Proof. by destruct c as [[] [] [] [] [] [] [] []]. Qed.

Lemma trimEnd_no_space (s : string) :
  forallb (fun c => negb (is_space c)) (String.list_ascii_of_string s) = true ->
  trimEnd s = s.
Proof.
  induction s as [|c s IH]; simpl; [done|].
  intros H. apply andb_prop in H as [Hc Hs]. rewrite (IH Hs).
  destruct s; [|done]. apply negb_true_iff in Hc. by rewrite Hc.
Qed.

(** An identifier string has no white space to trim. *)
Lemma trim_hex (s : string) : isHex24 s = true -> trim s = s.
Proof.
  unfold isHex24. intros H. apply andb_prop in H as [_ H].
  assert (Hns : forallb (fun c => negb (is_space c))
                        (String.list_ascii_of_string s) = true).
  { apply forallb_forall. intros c Hc.
    rewrite forallb_forall in H. by rewrite (hex_not_space c (H c Hc)). }
  unfold trim.
  assert (Hstart : trimStart s = s).
  { destruct s as [|c s]; [done|]. simpl in *.
    apply andb_prop in Hns as [Hc _]. apply negb_true_iff in Hc.
    by rewrite Hc. }
  rewrite Hstart. by apply trimEnd_no_space.
Qed.

Lemma CitaCreate_inv e b parsed :
  Citas.CitaCreate e b = Some parsed ->
  isHex24 (Citas.c_usuario_id parsed) = true /\
  Citas.c_paciente_id parsed = Citas.b_paciente_id b /\
  Citas.c_motivo parsed = Citas.b_motivo b /\
  (forall t, Citas.b_total b = Some t -> Citas.c_total parsed = Some t).
Proof.
  unfold Citas.CitaCreate. intros H.
  destruct (Citas.parseDateStrict e _); simpl in H; [|discriminate].
  destruct (guard (1 <= _)%nat) eqn:Hg1; simpl in H; [|discriminate].
  destruct (guard (isHex24 _ = true)) as [Hhex|] eqn:Hg2; simpl in H;
    [|discriminate].
  destruct (Citas.enumOptional _ _); simpl in H; [|discriminate].
  destruct (Citas.arrayOptional _); simpl in H; [|discriminate].
  destruct (Citas.withDefault _ _ _) as [tot|] eqn:Ht; simpl in H;
    [|discriminate].
  injection H as <-. simpl. repeat split; [done|].
  intros t Hb. rewrite Hb in Ht. unfold Citas.withDefault, Citas.totalOptional in Ht.
  destruct (0 <=? _); by simplify_eq.
Qed.

(** X9. Creating an appointment from a valid request that names a total
    stores exactly one new document, after the existing ones, with that
    total as it is (whatever the line items add up to), the normalised
    line items, the status "Pendiente" unless one is given, and answers
    201 with the total; no other collection changes. *)
Theorem post_explicit_total e b parsed t db :
  Citas.CitaCreate e b = Some parsed ->
  Citas.b_total b = Some t ->
  exists doc,
    Citas.post e b db
    = (json 201 [("ok", VBool true);
                 ("id", VStr (toHexString (cita_id doc)));
                 ("total", VNum t)],
       set_citas (citas db ++ [doc]) db) /\
    total doc = t /\
    procedimientos doc
    = Citas.normalizeProcs (default [] (Citas.c_procedimientos parsed)) /\
    cita_estado doc = default "Pendiente" (Citas.c_estado parsed) /\
    usuario_id doc = ObjectId_fromHex (Citas.c_usuario_id parsed).
Proof.
  intros Hparse Htot.
  destruct (CitaCreate_inv e b parsed Hparse) as (Hhex & _ & _ & Hct).
  specialize (Hct t Htot).
  unfold Citas.post. rewrite Hparse.
  rewrite (trim_hex _ Hhex). unfold ObjectId_new. rewrite Hhex, Hct.
  cbv zeta. cbn [total]. unfold insertOne.
  match goal with |- context [citas db ++ [?d]] => exists d end.
  split; [reflexivity|]. simpl. done.
Qed.

Lemma post_explicit_total_witness :
  exists doc,
    Citas.post env0 bodyManual emptyDb
    = (json 201 [("ok", VBool true);
                 ("id", VStr (toHexString (cita_id doc)));
                 ("total", VNum 999)],
       set_citas (citas emptyDb ++ [doc]) emptyDb) /\
    total doc = 999 /\
    Citas.sumLineItems (procedimientos doc) = 130.
Proof.
  edestruct post_explicit_total
    with (e := env0) (b := bodyManual) (t := 999) (db := emptyDb)
    as (doc & Hpost & Htotal & Hprocs & _).
  - vm_compute. reflexivity.
  - reflexivity.
  - exists doc. split; [exact Hpost|]. split; [exact Htotal|].
    rewrite Hprocs. reflexivity.
Defined.

(** An update leaves every document that the filter does not select where
    it was, and keeps the number of documents. *)
Lemma updateOne_other {D} `{EqDecision D} (sel : D -> bool) (upd : D -> D)
    (col : list D) (i : nat) (d : D) :
  col !! i = Some d -> sel d = false ->
  (updateOne sel upd col).2 !! i = Some d.
Proof.
  revert i. induction col as [|x col IH]; intros i Hi Hd; [done|]. simpl.
  destruct (sel x) eqn:Hx.
  - destruct i as [|i]; simpl in *; [congruence | done].
  - destruct (updateOne sel upd col) as [r col'] eqn:Hu. simpl.
    destruct i as [|i]; simpl in *; [done|].
    by apply IH.
Qed.

Lemma updateOne_map {D B} `{EqDecision D} (f : D -> B) (sel : D -> bool)
    (upd : D -> D) (col : list D) :
  (forall d, f (upd d) = f d) ->
  List.map f (updateOne sel upd col).2 = List.map f col.
Proof.
  intros Hf. induction col as [|x col IH]; [done|]. simpl.
  destruct (sel x).
  - simpl. by rewrite Hf.
  - destruct (updateOne sel upd col) as [r col'] eqn:Hu. simpl in *.
    by rewrite IH.
Qed.

Lemma patch_citas_shape e id b db :
  Citas.patch e id b db = ((Citas.patch e id b db).1, db) \/
  exists oid parsed uo,
    oidMaybe e (VStr id) = Some oid /\
    (Citas.patch e id b db).2
    = set_citas (updateOne (Citas.byCitaId oid)
                   (Citas.applySet e parsed uo) (citas db)).2 db.
Proof.
  unfold Citas.patch.
  destruct (oidMaybe e (VStr id)) as [oid|]; [|by left].
  destruct (Citas.CitaPatch e b) as [parsed|]; [|by left].
  destruct (_ && _); [by left|].
  destruct (updateOne _ _ _) as [r cs] eqn:Hu.
  destruct (matchedCount r =? 0)%nat; [by left|].
  right. exists oid, parsed. eexists. split; [done|]. simpl. by rewrite Hu.
Qed.

(** X10. A patch touches at most the appointment it addresses: every
    other appointment stays where and as it was, no appointment changes
    its identifier or its creation time, none is added or removed, and no
    other collection changes. An identifier that matches no appointment
    answers 404 and changes nothing. *)
Theorem patch_touches_one e id oid b db :
  oidMaybe e (VStr id) = Some oid ->
  (forall i c,
      citas db !! i = Some c -> cita_id c <> oid ->
      citas (Citas.patch e id b db).2 !! i = Some c)
  /\ List.map cita_id (citas (Citas.patch e id b db).2)
     = List.map cita_id (citas db)
  /\ List.map cita_createdAt (citas (Citas.patch e id b db).2)
     = List.map cita_createdAt (citas db)
  /\ Citas.patch e id b db
     = ((Citas.patch e id b db).1,
        set_citas (citas (Citas.patch e id b db).2) db)
  /\ (forall parsed,
         Citas.CitaPatch e b = Some parsed ->
         findOne (Citas.byCitaId oid) (citas db) = None ->
         Citas.patch e id b db = (fail 404 "Cita no encontrada", db)).
Proof.
  intros Hoid.
  destruct (patch_citas_shape e id b db) as [Hsame | (oid' & parsed & uo & Hoid' & Hdb)].
  - rewrite Hsame. simpl. repeat split; try done.
    + by destruct db.
    + intros parsed Hp Hnone. unfold Citas.patch in *.
      rewrite Hoid, Hp in *.
      destruct (_ && _) eqn:Hgate.
      * exfalso.
        pose proof (CitaPatch_usuario e b parsed Hp) as Hu.
        destruct (Citas.p_usuario_id parsed) as [s|]; [|done].
        rewrite oidMaybe_string, Hu in Hgate.
        by rewrite andb_false_r in Hgate.
      * by rewrite (updateOne_none _ _ _ Hnone).
  - rewrite Hoid in Hoid'. injection Hoid' as <-. rewrite Hdb. simpl.
    repeat split.
    + intros i c Hi Hne. apply updateOne_other; [done|].
      unfold Citas.byCitaId. by apply bool_decide_eq_false.
    + by apply updateOne_map.
    + by apply updateOne_map.
    + destruct (Citas.patch e id b db) as [resp db'] eqn:Hp. simpl in *.
      by rewrite Hdb.
    + intros parsed' Hp Hnone. unfold Citas.patch.
      rewrite Hoid, Hp.
      destruct (_ && _) eqn:Hgate.
      * exfalso.
        pose proof (CitaPatch_usuario e b parsed' Hp) as Hu.
        destruct (Citas.p_usuario_id parsed') as [s|]; [|done].
        rewrite oidMaybe_string, Hu in Hgate.
        by rewrite andb_false_r in Hgate.
      * by rewrite (updateOne_none _ _ _ Hnone).
Qed.

Lemma patch_touches_one_witness :
  exists c,
    citas dosCitasDb !! 1%nat = Some c /\
    citas (Citas.patch env0 hexCita patchItems dosCitasDb).2 !! 1%nat
    = Some c.
Proof.
  eexists. split; [vm_compute; reflexivity|].
  apply (proj1 (patch_touches_one env0 hexCita oidCita patchItems dosCitasDb
                  eq_refl)).
  - vm_compute. reflexivity.
  - discriminate.
Defined.

(** X11. Deleting an appointment that exists: the query text "true" (in
    any letter case) cancels it in place, setting its status to
    "Cancelada" and its update time to the time of the request and
    leaving every other field as it was; every other value of the
    parameter, a missing one and "1" included, removes the document. An
    identifier that matches no appointment answers 404 and changes
    nothing, in both modes. *)
Theorem delete_cita_modes e id oid soft db :
  oidMaybe e (VStr id) = Some oid ->
  (forall c,
      findOne (Citas.byCitaId oid) (citas db) = Some c ->
      exists pre post,
        citas db = pre ++ c :: post /\
        (toLowerCase (default "" soft) = "true" ->
         CitasDelete.delete e id soft db
         = (json 200 [("ok", VBool true); ("softDeleted", VBool true)],
            set_citas
              (pre ++ {| cita_id := cita_id c;
                         fecha := fecha c;
                         Store.paciente_id := Store.paciente_id c;
                         usuario_id := usuario_id c;
                         cita_estado := "Cancelada";
                         motivo := motivo c;
                         procedimientos := procedimientos c;
                         total := total c;
                         cita_createdAt := cita_createdAt c;
                         cita_updatedAt := now e |} :: post) db)) /\
        (toLowerCase (default "" soft) <> "true" ->
         CitasDelete.delete e id soft db
         = (json 200 [("ok", VBool true); ("deleted", VBool true)],
            set_citas (pre ++ post) db)))
  /\
  (findOne (Citas.byCitaId oid) (citas db) = None ->
   CitasDelete.delete e id soft db = (fail 404 "Cita no encontrada", db)).
Proof.
  intros Hoid. split.
  - intros c Hfind.
    destruct (findOne_split _ _ _ Hfind) as (pre & post & Hcol & Hsel & Hpre).
    exists pre, post. split; [done|]. unfold CitasDelete.delete.
    rewrite Hoid, Hcol. split.
    + intros ->. simpl String.eqb. cbv iota.
      by rewrite (updateOne_prefix _ _ _ _ _ Hpre Hsel).
    + intros Hne. apply String.eqb_neq in Hne. rewrite Hne.
      by rewrite (deleteOne_prefix _ _ _ _ Hpre Hsel).
  - intros Hnone. unfold CitasDelete.delete. rewrite Hoid.
    destruct (String.eqb _ _).
    + by rewrite (updateOne_none _ _ _ Hnone).
    + assert (Hdel : deleteOne (Citas.byCitaId oid) (citas db)
                     = (0%nat, citas db)).
      { clear Hoid. unfold findOne in Hnone.
        induction (citas db) as [|x l IH]; [done|]. simpl in *.
        destruct (Citas.byCitaId oid x); [discriminate|].
        by rewrite (IH Hnone). }
      by rewrite Hdel.
Qed.

(** The legacy appointment of [procDb], cancelled at time 2000 with
    [soft=TRUE] and removed with [soft=1]. *)
Lemma delete_cita_modes_witness :
  citas (CitasDelete.delete env1 hexB (Some "TRUE") procDb).2
  = [{| cita_id := oidB; fecha := 5; Store.paciente_id := "123";
        usuario_id := oidB; cita_estado := "Cancelada"; motivo := None;
        procedimientos :=
          [{| procedimiento_id := Some oidA; li_nombre := "Limpieza";
              costo_unitario := 40; cantidad := Some 1 |}];
        total := 40; cita_createdAt := 5; cita_updatedAt := 2000 |}]
  /\
  citas (CitasDelete.delete env1 hexB (Some "1") procDb).2 = [].
Proof.
  destruct (proj1 (delete_cita_modes env1 hexB oidB (Some "TRUE")
                     procDb eq_refl) citaLegacy eq_refl)
    as (pre & post & Hcol & Hsoft & _).
  destruct (proj1 (delete_cita_modes env1 hexB oidB (Some "1")
                     procDb eq_refl) citaLegacy eq_refl)
    as (pre' & post' & Hcol' & _ & Hhard).
  destruct pre as [|? [|? ?]]; try discriminate Hcol.
  destruct pre' as [|? [|? ?]]; try discriminate Hcol'.
  injection Hcol as <-. injection Hcol' as <-.
  split.
  - rewrite Hsoft; reflexivity.
  - rewrite Hhard; [reflexivity | discriminate].
Defined.

(** ** Clinical histories *)

Lemma findOne_app_miss {D} (sel : D -> bool) (col : list D) d :
  sel d = false -> findOne sel (col ++ [d]) = findOne sel col.
Proof.
  intros Hd. unfold findOne. induction col as [|x col IH]; simpl.
  - by rewrite Hd.
  - by destruct (sel x).
Qed.

Lemma findOne_app_none {D} (sel : D -> bool) (col : list D) d :
  findOne sel col = None -> sel d = true ->
  findOne sel (col ++ [d]) = Some d.
Proof.
  intros Hn Hd. unfold findOne in *. induction col as [|x col IH]; simpl in *.
  - by rewrite Hd.
  - destruct (sel x); [discriminate | auto].
Qed.

(** A lookup by another key does not see an update that neither selects
    nor produces a document of that key. *)
Lemma findOne_updateOne_other {D} `{EqDecision D} (sel sel' : D -> bool)
    (upd : D -> D) (col : list D) :
  (forall x, sel x = true -> sel' x = false /\ sel' (upd x) = false) ->
  findOne sel' (updateOne sel upd col).2 = findOne sel' col.
Proof.
  intros Hdisj. unfold findOne. induction col as [|x col IH]; [done|].
  simpl. destruct (sel x) eqn:Hx.
  - destruct (Hdisj x Hx) as [H1 H2]. simpl. by rewrite H1, H2.
  - destruct (updateOne sel upd col) as [r col'] eqn:Hu. simpl in *.
    by rewrite IH.
Qed.

Lemma byPaciente_neq pid pid' h :
  pid <> pid' -> Historias.byPaciente pid h = true ->
  Historias.byPaciente pid' h = false.
Proof.
  unfold Historias.byPaciente. intros Hne H1.
  apply String.eqb_eq in H1. apply String.eqb_neq. congruence.
Qed.

Lemma append_extends_aux e b parsed db :
  HistoriasAppend.HistoriaAppend e (HistoriasAppend.mapAlias b) = Some parsed ->
  let pid := trim (HistoriasAppend.paciente_id parsed) in
  let items := HistoriasAppend.itemsOf parsed in
  Historias.procedimientosOf pid (HistoriasAppend.post e b db).2
  = Some (default [] (Historias.procedimientosOf pid db) ++ items)
  /\ assoc "added" (body (HistoriasAppend.post e b db).1)
     = Some (num (length items))
  /\ status (HistoriasAppend.post e b db).1 = 200%nat
  /\ (forall pid', pid' <> pid ->
        Historias.procedimientosOf pid' (HistoriasAppend.post e b db).2
        = Historias.procedimientosOf pid' db).
Proof.
  intros Hparse pid items. unfold HistoriasAppend.post. rewrite Hparse.
  fold pid. fold items. cbv zeta.
  unfold Historias.procedimientosOf.
  destruct (findOne (Historias.byPaciente pid) (historias_clinicas db))
    as [h|] eqn:Hfind.
  - destruct (findOne_split _ _ _ Hfind) as (pre & post & Hcol & Hsel & Hpre).
    rewrite Hcol, (updateOne_prefix _ _ _ _ _ Hpre Hsel). simpl.
    rewrite (findOne_prefix _ _ _ _ Hpre); [|exact Hsel].
    split; [done|]. split; [done|]. split; [done|].
    intros pid' Hne.
    assert (Hu : (updateOne (Historias.byPaciente pid)
                    (HistoriasAppend.pushItems e items) (pre ++ h :: post)).2
                 = pre ++ HistoriasAppend.pushItems e items h :: post)
      by (by rewrite (updateOne_prefix _ _ _ _ _ Hpre Hsel)).
    rewrite <- Hu, findOne_updateOne_other; [done|].
    intros x Hx. split; by apply (byPaciente_neq pid pid').
  - simpl. unfold insertOne.
    rewrite findOne_app_none; [|done|].
    + simpl. split; [done|]. split; [done|]. split; [done|].
      intros pid' Hne. rewrite findOne_app_miss; [done|].
      unfold Historias.byPaciente. simpl. apply String.eqb_neq. congruence.
    + unfold Historias.byPaciente. simpl. apply String.eqb_refl.
Qed.

(** X12. Appending to a history: after a valid request the patient's
    procedure array is the former array (empty when the patient had no
    history, or no array yet) followed by the request's items in their
    order; the answer counts the items; the procedures of every other
    patient are what they were. *)
Theorem append_extends e b parsed db :
  HistoriasAppend.HistoriaAppend e (HistoriasAppend.mapAlias b) = Some parsed ->
  let pid := trim (HistoriasAppend.paciente_id parsed) in
  let items := HistoriasAppend.itemsOf parsed in
  Historias.procedimientosOf pid (HistoriasAppend.post e b db).2
  = Some (default [] (Historias.procedimientosOf pid db) ++ items)
  /\ assoc "added" (body (HistoriasAppend.post e b db).1)
     = Some (num (length items))
  /\ status (HistoriasAppend.post e b db).1 = 200%nat
  /\ (forall pid', pid' <> pid ->
        Historias.procedimientosOf pid' (HistoriasAppend.post e b db).2
        = Historias.procedimientosOf pid' db).
Proof. apply append_extends_aux. Qed.

Lemma append_extends_witness :
  Historias.procedimientosOf "123" (HistoriasAppend.post env2 appendUno histDb).2
  = Some (tresRealizados ++ [controlStored])
  /\
  Historias.procedimientosOf "456"
    (HistoriasAppend.post env2 appendUno histDb).2 = None
  /\
  Historias.procedimientosOf "123"
    (HistoriasAppend.post env2 appendUno emptyDb).2
  = Some [controlStored].
Proof.
  split; [|split].
  - refine (proj1 (append_extends env2 appendUno appendUnoParsed histDb _)).
    reflexivity.
  - refine (proj2 (proj2 (proj2 (append_extends env2 appendUno appendUnoParsed histDb _)))
                  "456" _).
    + reflexivity.
    + discriminate.
  - refine (proj1 (append_extends env2 appendUno appendUnoParsed emptyDb _)).
    reflexivity.
Defined.

(** X13. When the request carries the array [procedimientos_realizados],
    the appended items are exactly the parsed elements of that array: a
    single [procedimiento] sent beside it is ignored, and beside an empty
    array the request is accepted and appends nothing. *)
Theorem append_array_wins e b parsed l :
  HistoriasAppend.ab_procedimientos_realizados b = VArr l ->
  HistoriasAppend.HistoriaAppend e (HistoriasAppend.mapAlias b) = Some parsed ->
  mapM (HistoriasAppend.parseItem e) l = Some (HistoriasAppend.itemsOf parsed).
Proof.
  intros Harr.
  assert (Halias : HistoriasAppend.mapAlias b = b).
  { unfold HistoriasAppend.mapAlias. rewrite Harr. simpl.
    by destruct (HistoriasAppend.ab_tratamientos_realizados b). }
  rewrite Halias. unfold HistoriasAppend.HistoriaAppend. rewrite Harr.
  intros H.
  destruct (guard _); simpl in H; [|discriminate].
  destruct (HistoriasAppend.itemOptional e _); simpl in H; [|discriminate].
  destruct (mapM (HistoriasAppend.parseItem e) l) as [xs|]; simpl in H;
    [|discriminate].
  destruct (HistoriasAppend.itemsOptional e _); simpl in H; [|discriminate].
  destruct (_ || _); [|discriminate]. by injection H as <-.
Qed.

Lemma append_array_wins_witness :
  assoc "added" (body (HistoriasAppend.post env2 appendVacio histDb).1)
  = Some (VNum 0)
  /\
  exists parsed,
    HistoriasAppend.HistoriaAppend env2 (HistoriasAppend.mapAlias appendVacio)
    = Some parsed /\
    HistoriasAppend.procedimiento parsed = Some controlStored /\
    Some (HistoriasAppend.itemsOf parsed) = Some [].
Proof.
  split; [reflexivity|].
  eexists. split; [vm_compute; reflexivity|]. split; [reflexivity|].
  symmetry.
  refine (append_array_wins env2 appendVacio _ [] _ _);
    [reflexivity | vm_compute; reflexivity].
Defined.

(** X14. Patching a procedure at a position that holds an element: the
    element becomes the validated merge of the stored element and the
    patch, every other position and the length of the array stay as they
    were, and the answer is 200. Identifiers are unique in the
    collection. *)
Theorem patch_in_range e pid index idx b patch db l curr merged :
  parseInt10 index = Some idx -> 0 <= idx ->
  Historias.ProcPatch e b = Some patch ->
  Historias.ids_unique db ->
  Historias.procedimientosOf pid db = Some l ->
  l !! Z.to_nat idx = Some curr ->
  truthy curr = true ->
  Historias.ProcRealizado e curr patch = Some merged ->
  Historias.procedimientosOf pid
    (Historias.patch_procedimiento e pid index b db).2
  = Some (<[Z.to_nat idx := merged]> l)
  /\ status (Historias.patch_procedimiento e pid index b db).1 = 200%nat.
Proof.
  intros Hidx Hpos Hp Huniq Hl Hcurr Htruthy Hmerged.
  unfold Historias.procedimientosOf in Hl.
  destruct (findOne _ (historias_clinicas db)) as [h|] eqn:Hfind;
    [|discriminate].
  destruct (history_position pid db h Huniq Hfind)
    as (pre & post & Hcol & Hpre & Hpre' & Hsel).
  unfold Historias.patch_procedimiento. rewrite Hidx.
  destruct (idx <? 0) eqn:Hneg; [apply Z.ltb_lt in Hneg; lia|].
  rewrite Hp, Hfind. unfold Historias.elementAt. rewrite Hl. simpl default.
  rewrite Hcurr. simpl default. rewrite Htruthy. cbn [negb].
  rewrite Hmerged, Hcol.
  rewrite (updateOne_prefix _ _ _ _ _ Hpre');
    [|by apply bool_decide_eq_true].
  unfold Historias.procedimientosOf. simpl.
  rewrite (findOne_prefix _ _ _ _ Hpre); [|exact Hsel].
  simpl. rewrite Hl. unfold set_index.
  apply lookup_lt_Some in Hcurr.
  destruct (Nat.ltb_spec (Z.to_nat idx) (length l)); [done | lia].
Qed.

Lemma patch_in_range_witness :
  Historias.procedimientosOf "123"
    (Historias.patch_procedimiento env0 "123" "1" resultadoPatch histDb).2
  = Some [realizado "Limpieza" 1;
          VObj [("tratamiento", VStr "Resina"); ("fecha", VDate 2);
                ("resultado", VStr "Sin novedad")];
          realizado "Extraccion" 3].
Proof.
  refine (proj1 (patch_in_range env0 "123" "1" 1 resultadoPatch _ histDb
                   tresRealizados (realizado "Resina" 2) _ _ _ _ _ _ _ _ _)).
  - reflexivity.
  - lia.
  - reflexivity.
  - apply (bool_decide_unpack _). by vm_compute.
  - reflexivity.
  - reflexivity.
  - reflexivity.
  - reflexivity.
Defined.

Lemma parseItem_object e v x :
  HistoriasAppend.parseItem e v = Some x -> exists fs, x = VObj fs.
Proof.
  unfold HistoriasAppend.parseItem, Historias.ProcRealizado. intros H.
  repeat match type of H with
         | context [mbind _ ?y] => destruct y; simpl in H; [|discriminate]
         end.
  simplify_eq. eauto.
Qed.

Lemma mapM_parseItem_objects e l xs :
  mapM (HistoriasAppend.parseItem e) l = Some xs ->
  Forall (fun x => exists fs, x = VObj fs) xs.
Proof.
  intros H. apply mapM_Some in H.
  induction H as [|v x l xs Hx _ IH]; constructor; [|done].
  by apply parseItem_object in Hx.
Qed.

(** Every appended item is an object. *)
Lemma appended_items_objects e b parsed :
  HistoriasAppend.HistoriaAppend e b = Some parsed ->
  Forall (fun x => exists fs, x = VObj fs) (HistoriasAppend.itemsOf parsed).
Proof.
  unfold HistoriasAppend.HistoriaAppend. intros H.
  destruct (guard _); simpl in H; [|discriminate].
  destruct (HistoriasAppend.itemOptional e _) as [one|] eqn:Hone;
    simpl in H; [|discriminate].
  destruct (HistoriasAppend.itemsOptional e (HistoriasAppend.ab_procedimientos_realizados b))
    as [many|] eqn:Hmany; simpl in H; [|discriminate].
  destruct (HistoriasAppend.itemsOptional e
              (HistoriasAppend.ab_tratamientos_realizados b)) as [legacy|];
    simpl in H; [|discriminate].
  match type of H with
  | (if ?c then _ else _) = _ => destruct c; [|discriminate]
  end.
  injection H as <-.
  unfold HistoriasAppend.itemsOf. simpl.
  destruct many as [arr|].
  - unfold HistoriasAppend.itemsOptional in Hmany.
    destruct (HistoriasAppend.ab_procedimientos_realizados b); try discriminate.
    destruct (mapM _ _) eqn:Hm; [|discriminate]. simplify_eq.
    by eapply mapM_parseItem_objects.
  - destruct one as [x|]; [|constructor].
    constructor; [|constructor].
    unfold HistoriasAppend.itemOptional in Hone.
    destruct (HistoriasAppend.ab_procedimiento b) eqn:Hb; try discriminate;
      (destruct (HistoriasAppend.parseItem e _) eqn:Hp; [|discriminate];
       simplify_eq; by eapply parseItem_object).
Qed.

(** Appending to a history that exists keeps the identifiers unique. *)
Lemma post_keeps_ids e b parsed db h :
  HistoriasAppend.HistoriaAppend e (HistoriasAppend.mapAlias b) = Some parsed ->
  findOne (Historias.byPaciente (trim (HistoriasAppend.paciente_id parsed)))
          (historias_clinicas db) = Some h ->
  Historias.ids_unique db ->
  Historias.ids_unique (HistoriasAppend.post e b db).2.
Proof.
  intros Hparse Hh Huniq. unfold HistoriasAppend.post.
  rewrite Hparse. cbv zeta. rewrite Hh.
  destruct (updateOne _ _ _) as [r hs] eqn:Hu. simpl.
  unfold Historias.ids_unique in *. simpl.
  change hs with (r, hs).2. rewrite <- Hu.
  by rewrite updateOne_map.
Qed.

(** X15. Append and delete are a round trip: after one item is appended
    to a history whose array has no nulls, deleting the position of that
    item (the former length) gives back the former array. Identifiers are
    unique in the collection. *)
Theorem append_then_delete e e' b parsed x index db l :
  HistoriasAppend.HistoriaAppend e (HistoriasAppend.mapAlias b) = Some parsed ->
  HistoriasAppend.itemsOf parsed = [x] ->
  Historias.ids_unique db ->
  Historias.procedimientosOf (trim (HistoriasAppend.paciente_id parsed)) db
  = Some l ->
  no_null l ->
  parseInt10 index = Some (Z.of_nat (length l)) ->
  Historias.procedimientosOf (trim (HistoriasAppend.paciente_id parsed))
    (Historias.delete_procedimiento e'
       (trim (HistoriasAppend.paciente_id parsed)) index
       (HistoriasAppend.post e b db).2).2
  = Some l.
Proof.
  intros Hparse Hitems Huniq Hl Hnn Hidx.
  set (pid := trim (HistoriasAppend.paciente_id parsed)) in *.
  destruct (append_extends_aux e b parsed db Hparse) as (Harr & _).
  fold pid in Harr. rewrite Hl, Hitems in Harr. simpl in Harr.
  assert (Hobj : exists fs, x = VObj fs).
  { pose proof (appended_items_objects e _ parsed Hparse) as Hall.
    rewrite Hitems in Hall. by apply Forall_cons in Hall as [? _]. }
  destruct Hobj as [fs ->].
  assert (Huniq' : Historias.ids_unique (HistoriasAppend.post e b db).2).
  { unfold Historias.procedimientosOf in Hl.
    destruct (findOne _ _) as [h|] eqn:Hh; [|discriminate].
    by apply (post_keeps_ids e b parsed db h). }
  rewrite (historia_delete_array e' pid index (Z.of_nat (length l)) _
             (l ++ [VObj fs]) Hidx ltac:(lia) Huniq' Harr).
  - rewrite Nat2Z.id.
    rewrite insert_app_r_alt, Nat.sub_diag by lia. simpl.
    rewrite List.filter_app. simpl. rewrite app_nil_r.
    by rewrite pull_no_null.
  - unfold Historias.elementAt. simpl. rewrite Nat2Z.id.
    by rewrite lookup_app_r, Nat.sub_diag by lia.
Qed.

Lemma append_then_delete_witness :
  Historias.procedimientosOf "123"
    (Historias.delete_procedimiento env1 "123" "3"
       (HistoriasAppend.post env2 appendUno histDb).2).2
  = Some tresRealizados.
Proof.
  refine (append_then_delete env2 env1 appendUno appendUnoParsed
            controlStored "3" histDb tresRealizados _ _ _ _ _ _).
  - reflexivity.
  - reflexivity.
  - apply (bool_decide_unpack _). by vm_compute.
  - reflexivity.
  - repeat constructor.
  - reflexivity.
Defined.

(** ** Laboratory orders *)

Lemma orden_update oid (upd : OrdenLab -> OrdenLab) db o :
  findOne (Ordenes.byOrdenId oid) (ordenes_laboratorio db) = Some o ->
  orden_id (upd o) = orden_id o ->
  exists r,
    updateOne (Ordenes.byOrdenId oid) upd (ordenes_laboratorio db)
    = (r, (updateOne (Ordenes.byOrdenId oid) upd (ordenes_laboratorio db)).2)
    /\ matchedCount r = 1%nat
    /\ Ordenes.productosOf oid
         (set_ordenes (updateOne (Ordenes.byOrdenId oid) upd
                         (ordenes_laboratorio db)).2 db)
       = productos (upd o).
Proof.
  intros Hfind Hid.
  destruct (findOne_split _ _ _ Hfind) as (pre & post & Hcol & Hsel & Hpre).
  rewrite Hcol, (updateOne_prefix _ _ _ _ _ Hpre Hsel).
  eexists. split; [reflexivity|]. split; [done|].
  unfold Ordenes.productosOf. simpl.
  rewrite (findOne_prefix _ _ _ _ Hpre); [done|].
  unfold Ordenes.byOrdenId in *. by rewrite Hid.
Qed.

(** X16. Replace-all wins: a valid request that carries [set_productos]
    on an order that exists leaves the order with exactly the stored
    forms of the given products, in their order, whatever other array
    operation (append, patch at index, delete at index) the same request
    carries; the answer is 200. *)
Theorem set_productos_replaces e id oid b patch ps db o :
  oidMaybe e (VStr id) = Some oid ->
  Ordenes.OrdenLabPatchSchema b = Some patch ->
  Ordenes.set_productos patch = Some ps ->
  findOne (Ordenes.byOrdenId oid) (ordenes_laboratorio db) = Some o ->
  Ordenes.productosOf oid (Ordenes.patch e id b db).2
  = Some (List.map Ordenes.storeProducto ps)
  /\ status (Ordenes.patch e id b db).1 = 200%nat.
Proof.
  intros Hoid Hs Hset Hfind. unfold Ordenes.patch.
  rewrite Hoid, Hs, Hset.
  destruct (orden_update oid
              (Ordenes.applyPatch e patch
                 (fun _ => Some (List.map Ordenes.storeProducto ps)))
              db o Hfind eq_refl) as (r & Hu & Hm & Hp).
  rewrite Hu, Hm. simpl. by rewrite Hp.
Qed.

(** X17. Append keeps what is there: a valid request with [push_productos]
    and no [set_productos], on an order that exists, leaves the former
    products in place and in order, followed by the stored forms of the
    new ones. *)
Theorem push_productos_appends e id oid b patch ps db o :
  oidMaybe e (VStr id) = Some oid ->
  Ordenes.OrdenLabPatchSchema b = Some patch ->
  Ordenes.set_productos patch = None ->
  Ordenes.push_productos patch = Some ps ->
  findOne (Ordenes.byOrdenId oid) (ordenes_laboratorio db) = Some o ->
  Ordenes.productosOf oid (Ordenes.patch e id b db).2
  = Some (default [] (productos o) ++ List.map Ordenes.storeProducto ps)
  /\ status (Ordenes.patch e id b db).1 = 200%nat.
Proof.
  intros Hoid Hs Hset Hpush Hfind. unfold Ordenes.patch.
  rewrite Hoid, Hs, Hset, Hpush.
  destruct (orden_update oid
              (Ordenes.applyPatch e patch
                 (push_each (List.map Ordenes.storeProducto ps)))
              db o Hfind eq_refl) as (r & Hu & Hm & Hp).
  rewrite Hu, Hm. simpl. by rewrite Hp.
Qed.

Lemma assoc_set_eq k v fs : assoc k (assoc_set k v fs) = Some v.
Proof.
  induction fs as [|[k' v'] fs IH]; simpl.
  - by rewrite String.eqb_refl.
  - destruct (String.eqb k k') eqn:Hk; simpl.
    + by rewrite String.eqb_refl.
    + by rewrite Hk.
Qed.

Lemma assoc_set_ne k k' v fs :
  k <> k' -> assoc k' (assoc_set k v fs) = assoc k' fs.
Proof.
  intros Hne. induction fs as [|[k0 v0] fs IH]; simpl.
  - apply String.eqb_neq in Hne. rewrite String.eqb_sym in Hne.
    by rewrite Hne.
  - destruct (String.eqb k k0) eqn:Hk; simpl.
    + apply String.eqb_eq in Hk. subst k0.
      apply String.eqb_neq in Hne. rewrite String.eqb_sym in Hne.
      by rewrite Hne.
    + destruct (String.eqb k' k0); [done | exact IH].
Qed.

(** The merged product keeps every field the patch does not name. *)
Lemma mergeProducto_other curr item k :
  k <> "tipo_producto" -> k <> "especificaciones" -> k <> "cantidad" ->
  assoc k (Ordenes.mergeProducto curr item) = assoc k (spread curr).
Proof.
  intros H1 H2 H3. unfold Ordenes.mergeProducto.
  destruct (Ordenes.par_cantidad item);
    destruct (Ordenes.par_especificaciones item);
    destruct (Ordenes.par_tipo_producto item);
    rewrite ?assoc_set_ne by congruence; done.
Qed.

(** Without a patch value for them, the specifications of the merge are
    those of the stored element. *)
Lemma mergeProducto_especificaciones curr item :
  Ordenes.par_especificaciones item = None ->
  assoc "especificaciones" (Ordenes.mergeProducto curr item)
  = assoc "especificaciones" (spread curr).
Proof.
  intros Hn. unfold Ordenes.mergeProducto. rewrite Hn.
  destruct (Ordenes.par_cantidad item);
    destruct (Ordenes.par_tipo_producto item);
    rewrite ?assoc_set_ne by congruence; done.
Qed.

(** X18. Patching a product at a position that holds an element, with a
    merge that passes the item schema: the element becomes the merge,
    every other product and the length of the array stay as they were;
    the merge takes the quantity from the patch when the patch names one
    and keeps every field the patch does not name. *)
Theorem producto_patch_in_range e id oid b patch idx item db l curr :
  oidMaybe e (VStr id) = Some oid ->
  Ordenes.OrdenLabPatchSchema b = Some patch ->
  Ordenes.set_productos patch = None ->
  Ordenes.push_productos patch = None ->
  Ordenes.producto_patch patch = Some (idx, item) ->
  Ordenes.productosOf oid db = Some l ->
  l !! Z.to_nat idx = Some curr ->
  truthy curr = true ->
  Ordenes.validProducto (Ordenes.mergeProducto curr item) = true ->
  Ordenes.productosOf oid (Ordenes.patch e id b db).2
  = Some (<[Z.to_nat idx := VObj (Ordenes.mergeProducto curr item)]> l)
  /\ status (Ordenes.patch e id b db).1 = 200%nat
  /\ (forall c, Ordenes.par_cantidad item = Some c ->
        assoc "cantidad" (Ordenes.mergeProducto curr item) = Some (VNum c))
  /\ (forall k, k <> "tipo_producto" -> k <> "especificaciones" ->
        k <> "cantidad" ->
        assoc k (Ordenes.mergeProducto curr item) = assoc k (spread curr)).
Proof.
  intros Hoid Hs Hset Hpush Hpp Hl Hcurr Htruthy Hvalid.
  unfold Ordenes.productosOf in Hl.
  destruct (findOne _ (ordenes_laboratorio db)) as [o|] eqn:Hfind;
    [|discriminate].
  split; [|split; [|split]].
  - unfold Ordenes.patch. rewrite Hoid, Hs, Hset, Hpush, Hpp, Hfind, Hl.
    simpl default. rewrite Hcurr. simpl default. rewrite Htruthy, Hvalid.
    cbn [negb].
    destruct (orden_update oid
                (Ordenes.applyPatch e patch
                   (set_index (Z.to_nat idx)
                      (VObj (Ordenes.mergeProducto curr item))))
                db o Hfind eq_refl) as (r & Hu & Hm & Hp).
    rewrite Hu. simpl. rewrite Hp. simpl. rewrite Hl. unfold set_index.
    apply lookup_lt_Some in Hcurr.
    destruct (Nat.ltb_spec (Z.to_nat idx) (length l)); [done | lia].
  - unfold Ordenes.patch. rewrite Hoid, Hs, Hset, Hpush, Hpp, Hfind, Hl.
    simpl default. rewrite Hcurr. simpl default. rewrite Htruthy, Hvalid.
    cbn [negb]. by destruct (updateOne _ _ _).
  - intros c Hc. unfold Ordenes.mergeProducto. rewrite Hc.
    apply assoc_set_eq.
  - intros k. apply mergeProducto_other.
Qed.

(** X19. A product stored without specifications holds them as null, and
    the item schema accepts a missing string but not null: a patch at its
    position that does not supply specifications is answered 400 and the
    database is left as it was, whatever else the patch changes. *)
Theorem producto_patch_null_especificaciones
    e id oid b patch idx item db l p :
  oidMaybe e (VStr id) = Some oid ->
  Ordenes.OrdenLabPatchSchema b = Some patch ->
  Ordenes.set_productos patch = None ->
  Ordenes.push_productos patch = None ->
  Ordenes.producto_patch patch = Some (idx, item) ->
  Ordenes.productosOf oid db = Some l ->
  l !! Z.to_nat idx = Some (Ordenes.storeProducto p) ->
  Ordenes.especificaciones p = None ->
  Ordenes.par_especificaciones item = None ->
  Ordenes.patch e id b db = (fail 400 Citas.zodError, db).
Proof.
  intros Hoid Hs Hset Hpush Hpp Hl Hcurr Hesp Hnone.
  unfold Ordenes.productosOf in Hl.
  destruct (findOne _ (ordenes_laboratorio db)) as [o|] eqn:Hfind;
    [|discriminate].
  unfold Ordenes.patch. rewrite Hoid, Hs, Hset, Hpush, Hpp, Hfind, Hl.
  simpl default. rewrite Hcurr. simpl default.
  change (truthy (Ordenes.storeProducto p)) with true. cbn [negb].
  assert (Hv : Ordenes.validProducto
                 (Ordenes.mergeProducto (Ordenes.storeProducto p) item)
               = false).
  { unfold Ordenes.validProducto.
    rewrite (mergeProducto_especificaciones _ _ Hnone).
    unfold Ordenes.storeProducto. rewrite Hesp. simpl.
    by rewrite andb_false_r. }
  by rewrite Hv.
Qed.

(** X20. No sequence of patch requests, valid or not, on existing or
    missing orders, ever leaves a null among the products of an order
    when none was there before. *)
Theorem orders_wf_invariant e reqs db :
  Ordenes.orders_wf db -> Ordenes.orders_wf (OrdenesRun.run e reqs db).
Proof.
  revert db. induction reqs as [|[id b] reqs IH]; intros db Hwf; [done|].
  simpl. apply IH. by apply patch_keeps_orders_wf.
Qed.

Lemma set_productos_replaces_witness :
  Ordenes.productosOf oidA (Ordenes.patch env0 hexA setUno labDb).2
  = Some [productoEsp].
Proof.
  refine (proj1 (set_productos_replaces env0 hexA oidA setUno _
                   [{| Ordenes.tipo_producto := "Corona";
                       Ordenes.especificaciones := Some "zirconio";
                       Ordenes.prod_cantidad := Some 1 |}]
                   labDb ordenA _ _ _ _));
    reflexivity.
Defined.

Lemma push_productos_appends_witness :
  Ordenes.productosOf oidA (Ordenes.patch env0 hexA pushUno labDb).2
  = Some (tresProductos ++ [productoEsp]).
Proof.
  refine (proj1 (push_productos_appends env0 hexA oidA pushUno _
                   [{| Ordenes.tipo_producto := "Corona";
                       Ordenes.especificaciones := Some "zirconio";
                       Ordenes.prod_cantidad := Some 1 |}]
                   labDb ordenA _ _ _ _ _));
    reflexivity.
Defined.

Lemma producto_patch_in_range_witness :
  Ordenes.productosOf oidA (Ordenes.patch env0 hexA (patchAt 0) espDb).2
  = Some [VObj [("tipo_producto", VStr "Corona");
                ("especificaciones", VStr "zirconio");
                ("cantidad", VNum 4)];
          producto "Puente" 2].
Proof.
  refine (proj1 (producto_patch_in_range env0 hexA oidA (patchAt 0) _ 0
                   cuatro espDb [productoEsp; producto "Puente" 2]
                   productoEsp _ _ _ _ _ _ _ _ _));
    reflexivity.
Defined.

Lemma producto_patch_null_especificaciones_witness :
  Ordenes.patch env0 hexA (patchAt 1) labDb
  = (fail 400 Citas.zodError, labDb).
Proof.
  refine (producto_patch_null_especificaciones env0 hexA oidA (patchAt 1) _
            1 cuatro labDb tresProductos puente _ _ _ _ _ _ _ _ _);
    reflexivity.
Defined.

Lemma orders_wf_invariant_witness :
  Ordenes.orders_wf
    (OrdenesRun.run env0
       [(hexA, pushUno); (hexA, deleteAt 0); (hexA, patchAt 7)] labDb).
Proof.
  apply orders_wf_invariant.
  apply Forall_cons. split; [|done].
  apply (bool_decide_unpack _). by vm_compute.
Defined.

(** ** The role routes *)

Lemma findOne_key {D K} (key : D -> K) (selK : K -> bool) (sel : D -> bool)
    (col col' : list D) :
  (forall d, sel d = selK (key d)) ->
  List.map key col' = List.map key col ->
  key <$> findOne sel col' = key <$> findOne sel col.
Proof.
  intros Hsel. revert col'. unfold findOne.
  induction col as [|x col IH]; intros [|x' col'] Hm; try discriminate;
    [done|].
  simpl in Hm. injection Hm as Hk Hm. simpl. rewrite !Hsel, Hk.
  destruct (selK (key x)); simpl; [by rewrite Hk | by apply IH].
Qed.

Ltac same_role Hfind sel :=
  let H := fresh "H" in
  pose proof (Hfind sel) as H;
  destruct (findOne _ (roles _)) as [?r|],
           (findOne _ (roles _)) as [?r|];
  simpl in H; try discriminate; [|done];
  injection H as ?Hid ?Hnom.

(** The resolver reads the catalog only through the identifiers and the
    names of its roles. *)
Lemma normalizeRole_same_keys e db db' payload :
  List.map role_key (roles db') = List.map role_key (roles db) ->
  Roles.normalizeRole e db' payload = Roles.normalizeRole e db payload.
Proof.
  intros Hk.
  assert (Hid : forall rid,
             role_key <$> findOne (Roles.byId rid) (roles db')
             = role_key <$> findOne (Roles.byId rid) (roles db)).
  { intros rid.
    by apply (findOne_key role_key (fun k => bool_decide (k.1 = rid))). }
  assert (Hnm : forall v,
             role_key <$> findOne (Roles.byNombre v) (roles db')
             = role_key <$> findOne (Roles.byNombre v) (roles db)).
  { intros v.
    by apply (findOne_key role_key (fun k => bool_decide (VStr k.2 = v))). }
  unfold Roles.normalizeRole, Roles.resolveById.
  destruct (truthy (Roles.get payload "rol_id")
            && negb (truthy (Roles.get payload "rol"))).
  { destruct (Roles.parseOid e _) as [rid|]; [|done].
    same_role Hid rid. by rewrite Hnom. }
  destruct (truthy (Roles.get payload "rol")
            && negb (truthy (Roles.get payload "rol_id"))).
  { destruct (negb _); [done|].
    same_role Hnm (Roles.get payload "rol"). by rewrite Hid0. }
  destruct (truthy (Roles.get payload "rol")
            && truthy (Roles.get payload "rol_id")); [|done].
  destruct (Roles.parseOid e _) as [rid|].
  - pose proof (Hid rid) as H.
    destruct (findOne (Roles.byId rid) (roles db')) as [r'|],
             (findOne (Roles.byId rid) (roles db)) as [r|];
      simpl in H; try discriminate.
    + injection H as _ Hnom. by rewrite Hnom.
    + destruct (Roles.isRoleName _); [|done].
      same_role Hnm (Roles.get payload "rol"). by rewrite Hid0.
  - destruct (Roles.isRoleName _); [|done].
    same_role Hnm (Roles.get payload "rol"). by rewrite Hid0.
Qed.

Lemma patch_role_keys e id b db :
  List.map role_key (roles (RolesAdmin.patch e id b db).2)
  = List.map role_key (roles db)
  /\ usuarios (RolesAdmin.patch e id b db).2 = usuarios db.
Proof.
  unfold RolesAdmin.patch.
  destruct (oidMaybe e (VStr id)) as [oid|]; [|done].
  destruct (RolesAdmin.RolePatch b) as [p|]; [|done].
  destruct (updateOne _ _ _) as [r rs] eqn:Hu.
  destruct (matchedCount r =? 0)%nat; [done|]. simpl. split; [|done].
  change rs with (r, rs).2. rewrite <- Hu. by apply updateOne_map.
Qed.

(** X21. A role patch changes neither the identifier nor the name of any
    role, nor the users: whatever the request, the role resolver gives
    the same result on every payload before and after it. *)
Theorem patch_role_frame e id b db e' payload :
  List.map role_key (roles (RolesAdmin.patch e id b db).2)
  = List.map role_key (roles db)
  /\ usuarios (RolesAdmin.patch e id b db).2 = usuarios db
  /\ Roles.normalizeRole e' (RolesAdmin.patch e id b db).2 payload
     = Roles.normalizeRole e' db payload.
Proof.
  destruct (patch_role_keys e id b db) as [Hk Hu].
  split; [done|]. split; [done|]. by apply normalizeRole_same_keys.
Qed.

Lemma RoleCreate_inv b body :
  RolesAdmin.RoleCreate b = Some body ->
  includes Roles.ROLE_NAMES (RolesAdmin.rc_nombre body) = true
  /\ RolesAdmin.rc_nombre body = RolesAdmin.rb_nombre b.
Proof.
  unfold RolesAdmin.RoleCreate. intros H.
  destruct (includes _ _) eqn:Hin; [|discriminate].
  destruct (RolesAdmin.permisosOk _); [|discriminate].
  simpl in H. injection H as <-. by simpl.
Qed.

(** X22. Once the seed has filled an empty role collection, the create
    route cannot add a role: a body that fails the schema (a name outside
    the enumeration, or an empty permission) is answered 400, a body that
    passes it is answered 409 "El rol ya existe", because the seed already
    holds each name of the enumeration; the database is left as it was in
    both cases. *)
Theorem seeded_catalog_closed e e' b db :
  roles db = [] ->
  let valid :=
    includes ["Administrador"; "Odontologo"; "Asistente"; "Laboratorista"]
             (RolesAdmin.rb_nombre b)
    && forallb (fun s => (1 <=? String.length s)%nat)
               (default [] (RolesAdmin.rb_permisos b)) in
  (valid = true ->
   RolesAdmin.post e' b (Roles.ensureRolesSeed e db)
   = (json 409 [("ok", VBool false); ("error", VStr "El rol ya existe")],
      Roles.ensureRolesSeed e db))
  /\
  (valid = false ->
   status (RolesAdmin.post e' b (Roles.ensureRolesSeed e db)).1 = 400%nat
   /\ (RolesAdmin.post e' b (Roles.ensureRolesSeed e db)).2
      = Roles.ensureRolesSeed e db).
Proof.
  intros Hempty valid. unfold RolesAdmin.post, RolesAdmin.RoleCreate.
  change (includes Roles.ROLE_NAMES (RolesAdmin.rb_nombre b)
          && RolesAdmin.permisosOk (default [] (RolesAdmin.rb_permisos b)))
    with valid.
  split; intros Hvalid; rewrite Hvalid; [|done].
  assert (Hin : includes Roles.ROLE_NAMES (RolesAdmin.rb_nombre b) = true).
  { unfold valid in Hvalid. by apply andb_prop in Hvalid as [? _]. }
  cbv zeta.
  assert (Hdup : RolesAdmin.duplicateKey
                   (RolesAdmin.nuevoRol e'
                      {| RolesAdmin.rc_nombre := RolesAdmin.rb_nombre b;
                         RolesAdmin.rc_descripcion :=
                           Citas.trimOrNull (RolesAdmin.rb_descripcion b);
                         RolesAdmin.rc_permisos :=
                           default [] (RolesAdmin.rb_permisos b) |})
                   (roles (Roles.ensureRolesSeed e db)) = true).
  { unfold RolesAdmin.duplicateKey, Roles.ensureRolesSeed.
    rewrite Hempty. apply orb_true_iff. right.
    cbn [role_nombre RolesAdmin.nuevoRol RolesAdmin.rc_nombre].
    unfold includes in Hin. cbn [existsb Roles.ROLE_NAMES] in Hin.
    repeat (apply orb_true_iff in Hin as [Hin|Hin]); try discriminate;
      apply String.eqb_eq in Hin; rewrite Hin; by vm_compute. }
  by rewrite Hdup.
Qed.

Lemma post_role_shape e b db :
  status (RolesAdmin.post e b db).1 = 201%nat ->
  exists body,
    RolesAdmin.RoleCreate b = Some body
    /\ RolesAdmin.duplicateKey (RolesAdmin.nuevoRol e body) (roles db) = false
    /\ (RolesAdmin.post e b db).2
       = set_roles (roles db ++ [RolesAdmin.nuevoRol e body]) db.
Proof.
  unfold RolesAdmin.post.
  destruct (RolesAdmin.RoleCreate b) as [body|]; [|discriminate].
  destruct (RolesAdmin.duplicateKey _ _) eqn:Hdup; [discriminate|].
  intros _. by exists body.
Qed.

Lemma existsb_false_Forall {A} (f : A -> bool) (l : list A) :
  existsb f l = false -> Forall (fun x => f x = false) l.
Proof.
  induction l as [|x l IH]; simpl; [constructor|].
  intros H. apply orb_false_iff in H as [Hx Hl]. constructor; auto.
Qed.

Lemma findOne_none_Forall {D} (sel : D -> bool) (col : list D) :
  Forall (fun x => sel x = false) col -> findOne sel col = None.
Proof.
  unfold findOne. induction 1 as [|x l Hx _ IH]; simpl; [done|].
  by rewrite Hx.
Qed.

(** X23. A role the create route answers 201 for is appended with the
    generated identifier and the requested name, and is at once the one
    the resolver finds for that name: a payload that carries the name
    alone gets the new identifier, whatever the catalog held before. *)
Theorem post_role_resolves e e' b db (payload : gmap string value) :
  status (RolesAdmin.post e b db).1 = 201%nat ->
  payload !! "rol" = Some (VStr (RolesAdmin.rb_nombre b)) ->
  payload !! "rol_id" = None ->
  (exists r, roles (RolesAdmin.post e b db).2 = roles db ++ [r]
             /\ role_id r = generate e 0%nat None
             /\ role_nombre r = RolesAdmin.rb_nombre b)
  /\ Roles.normalizeRole e' (RolesAdmin.post e b db).2 payload
     = <["rol_id" := VOid (generate e 0%nat None)]> payload.
Proof.
  intros H201 Hrol Hid.
  destruct (post_role_shape e b db H201) as (body & Hb & Hdup & ->).
  destruct (RoleCreate_inv _ _ Hb) as [Hin Hnom].
  split.
  { exists (RolesAdmin.nuevoRol e body). by simpl. }
  unfold Roles.normalizeRole, Roles.get. rewrite Hrol, Hid. simpl default.
  assert (Htruthy : truthy (VStr (RolesAdmin.rb_nombre b)) = true).
  { rewrite <- Hnom. simpl.
    destruct (RolesAdmin.rc_nombre body) eqn:Hs; [|done].
    by vm_compute in Hin. }
  rewrite Htruthy. cbn [truthy negb andb].
  unfold Roles.isRoleName. rewrite <- Hnom, Hin. cbn [negb].
  simpl roles.
  rewrite (findOne_app_none _ _ (RolesAdmin.nuevoRol e body)); first done.
  - unfold RolesAdmin.duplicateKey in Hdup.
    apply orb_false_iff in Hdup as [_ Hdup].
    apply existsb_false_Forall in Hdup.
    apply findOne_none_Forall. eapply Forall_impl; [exact Hdup|].
    intros r Hr. simpl in Hr. apply String.eqb_neq in Hr.
    unfold Roles.byNombre. apply bool_decide_eq_false. by intros [= Heq].
  - unfold Roles.byNombre. by apply bool_decide_eq_true.
Qed.

Lemma deleteOne_In {D} (sel : D -> bool) (col : list D) x :
  In x (deleteOne sel col).2 -> In x col.
Proof.
  induction col as [|d col IH]; simpl; [done|].
  destruct (sel d); simpl; [by right|].
  destruct (deleteOne sel col) as [n rest]. simpl in *.
  intros [->|Hx]; [by left | right; auto].
Qed.

Lemma deleteOne_NoDup_map {D B} (f : D -> B) (sel : D -> bool)
    (col : list D) :
  NoDup (List.map f col) -> NoDup (List.map f (deleteOne sel col).2).
Proof.
  induction col as [|d col IH]; simpl; [done|].
  intros Hnd. apply NoDup_cons in Hnd as [Hd Hnd].
  destruct (sel d); simpl; [done|].
  pose proof (deleteOne_In sel col) as Hsub.
  destruct (deleteOne sel col) as [n rest]. simpl in *.
  apply NoDup_cons. split; [|auto].
  intros Hin. apply Hd. apply list_elem_of_In in Hin.
  apply List.in_map_iff in Hin as (x & Hx & Hin).
  apply list_elem_of_In, List.in_map_iff. exists x. auto.
Qed.

Lemma deleteOne_Forall {D} (P : D -> Prop) (sel : D -> bool) (col : list D) :
  Forall P col -> Forall P (deleteOne sel col).2.
Proof.
  rewrite !List.Forall_forall. intros H x Hx.
  by apply H, (deleteOne_In sel).
Qed.

Lemma NoDup_map_snoc {D B} (f : D -> B) (col : list D) d :
  Forall (fun x => f x <> f d) col ->
  NoDup (List.map f col) -> NoDup (List.map f (col ++ [d])).
Proof.
  intros Hex Hnd. rewrite List.map_app. simpl.
  apply NoDup_app. split; [done|]. split; [|apply NoDup_singleton].
  intros y Hy Hyd. apply list_elem_of_singleton in Hyd. subst y.
  apply list_elem_of_In, List.in_map_iff in Hy as (x & Hx & Hin).
  rewrite List.Forall_forall in Hex. by apply (Hex x Hin).
Qed.

Lemma catalog_wf_names db :
  Roles.catalog_wf db
  <-> Forall (fun n => includes Roles.ROLE_NAMES n = true)
             (List.map role_nombre (roles db)).
Proof. unfold Roles.catalog_wf. by rewrite List.Forall_map. Qed.

Lemma keys_ids (l : list Role) :
  List.map role_id l = List.map fst (List.map role_key l).
Proof. by rewrite List.map_map. Qed.

Lemma keys_names (l : list Role) :
  List.map role_nombre l = List.map snd (List.map role_key l).
Proof. by rewrite List.map_map. Qed.

(** One request to a role route keeps the three catalog invariants. *)
Lemma serve_keeps_catalog e req db :
  Roles.catalog_wf db /\ roles_ids_unique db /\ roles_names_unique db ->
  Roles.catalog_wf (RolesRun.serve e req db).2
  /\ roles_ids_unique (RolesRun.serve e req db).2
  /\ roles_names_unique (RolesRun.serve e req db).2.
Proof.
  intros (Hwf & Hids & Hnames). destruct req as [b | id b | id query]; simpl.
  - unfold RolesAdmin.post.
    destruct (RolesAdmin.RoleCreate b) as [body|] eqn:Hb; [|done].
    destruct (RolesAdmin.duplicateKey _ _) eqn:Hdup; [done|].
    destruct (RoleCreate_inv _ _ Hb) as [Hin _].
    unfold RolesAdmin.duplicateKey in Hdup.
    apply orb_false_iff in Hdup as [Hd1 Hd2].
    unfold roles_ids_unique, roles_names_unique, Roles.catalog_wf, insertOne.
    simpl. split; [|split].
    + apply Forall_app. split; [done|]. by constructor.
    + apply NoDup_map_snoc; [|done].
      apply existsb_false_Forall in Hd1.
      eapply Forall_impl; [exact Hd1|]. intros r Hr. simpl in Hr.
      by apply bool_decide_eq_false in Hr.
    + apply NoDup_map_snoc; [|done].
      apply existsb_false_Forall in Hd2.
      eapply Forall_impl; [exact Hd2|]. intros r Hr. simpl in Hr.
      by apply String.eqb_neq in Hr.
  - destruct (patch_role_keys e id b db) as [Hk _].
    unfold roles_ids_unique, roles_names_unique in *.
    rewrite catalog_wf_names in *.
    by rewrite !keys_ids, !keys_names, Hk, <- !keys_ids, <- !keys_names.
  - unfold RolesRoute.delete.
    destruct (oidMaybe e (VStr id)) as [oid|]; [|done].
    destruct (findOne _ _) as [role|]; [|done].
    destruct (0 <? _)%nat; [done|].
    pose proof (deleteOne_NoDup_map role_id (Roles.byId oid) _ Hids) as H1.
    pose proof (deleteOne_NoDup_map role_nombre (Roles.byId oid) _ Hnames)
      as H2.
    pose proof (deleteOne_Forall _ (Roles.byId oid) _ Hwf) as H3.
    by destruct (deleteOne _ _) as [n rs].
Qed.

(** X24. No sequence of create, patch and delete requests to the role
    routes, each served at its own time and with its own generated
    identifiers, breaks the catalog: every role keeps a name of the closed
    enumeration, and no two roles share an identifier or a name. *)
Theorem role_routes_keep_catalog reqs db :
  Roles.catalog_wf db -> roles_ids_unique db -> roles_names_unique db ->
  Roles.catalog_wf (RolesRun.run reqs db)
  /\ roles_ids_unique (RolesRun.run reqs db)
  /\ roles_names_unique (RolesRun.run reqs db).
Proof.
  intros Hwf Hids Hnames.
  assert (H : Roles.catalog_wf db /\ roles_ids_unique db
              /\ roles_names_unique db) by done.
  clear Hwf Hids Hnames. revert db H.
  induction reqs as [|[e req] reqs IH]; intros db H; [done|].
  simpl. by apply IH, serve_keeps_catalog.
Qed.

(** X25. A role that no user references, by identifier or by name, is
    deleted with answer 200: with unique identifiers the catalog no
    longer holds the identifier, every other identifier resolves as
    before, and the users are untouched. *)
Theorem delete_role_unreferenced e id oid query db role :
  oidMaybe e (VStr id) = Some oid ->
  findOne (Roles.byId oid) (roles db) = Some role ->
  RolesRoute.usersReferencing role db = 0%nat ->
  roles_ids_unique db ->
  (RolesRoute.delete e id query db).1
  = json 200 [("ok", VBool true); ("deleted", VNum 1)]
  /\ findOne (Roles.byId oid) (roles (RolesRoute.delete e id query db).2)
     = None
  /\ (forall oid', oid' <> oid ->
        findOne (Roles.byId oid') (roles (RolesRoute.delete e id query db).2)
        = findOne (Roles.byId oid') (roles db))
  /\ usuarios (RolesRoute.delete e id query db).2 = usuarios db.
Proof.
  intros Hoid Hfind Hzero Huniq.
  destruct (findOne_split _ _ _ Hfind) as (pre & post & Hcol & Hsel & Hpre).
  assert (Hid : role_id role = oid) by by apply bool_decide_eq_true in Hsel.
  assert (Hcount :
            (countDocuments (RolesRoute.refById oid) (usuarios db)
             + countDocuments (RolesRoute.refByString (role_nombre role))
                              (usuarios db) = 0)%nat).
  { unfold RolesRoute.usersReferencing, RolesRoute.referencedBy in Hzero.
    destruct (count_or_bounds (RolesRoute.refById (role_id role))
                (RolesRoute.refByString (role_nombre role)) (usuarios db))
      as (H1 & H2 & _).
    rewrite Hid in *. lia. }
  unfold RolesRoute.delete. rewrite Hoid, Hfind. cbv zeta.
  rewrite Hcount. cbn [Nat.ltb Nat.leb].
  rewrite Hcol, (deleteOne_prefix _ _ _ _ Hpre Hsel). simpl.
  split; [done|]. split; [|split; [|done]].
  - apply findOne_none_Forall.
    unfold roles_ids_unique in Huniq. rewrite Hcol in Huniq.
    rewrite List.map_app in Huniq. simpl in Huniq.
    apply NoDup_app in Huniq as (_ & Hdis & Hpost).
    apply NoDup_cons in Hpost as [Hpost _].
    apply Forall_app. split.
    + apply List.Forall_forall. intros x Hx.
      unfold Roles.byId. apply bool_decide_eq_false. intros Hx'.
      apply (Hdis (role_id x)).
      * apply list_elem_of_In, List.in_map. done.
      * rewrite Hx', <- Hid. left.
    + apply List.Forall_forall. intros x Hx.
      unfold Roles.byId. apply bool_decide_eq_false. intros Hx'.
      apply Hpost. rewrite Hid, <- Hx'.
      by apply list_elem_of_In, List.in_map.
  - intros oid' Hne. unfold findOne. clear -Hne Hid.
    induction pre as [|x pre IH]; simpl.
    + unfold Roles.byId at 2.
      rewrite bool_decide_eq_false_2; [done|]. by rewrite Hid.
    + by destruct (Roles.byId oid' x).
Qed.

Lemma seeded_catalog_closed_witness :
  RolesAdmin.post env1 asistenteBody seededDb
  = (json 409 [("ok", VBool false); ("error", VStr "El rol ya existe")],
     seededDb)
  /\
  (status (RolesAdmin.post env1 gerenteBody seededDb).1 = 400%nat
   /\ (RolesAdmin.post env1 gerenteBody seededDb).2 = seededDb).
Proof.
  split.
  - exact (proj1 (seeded_catalog_closed env0 env1 asistenteBody emptyDb
                    eq_refl) eq_refl).
  - exact (proj2 (seeded_catalog_closed env0 env1 gerenteBody emptyDb
                    eq_refl) eq_refl).
Defined.

Lemma post_role_resolves_witness :
  Roles.normalizeRole env0 (RolesAdmin.post env1 asistenteBody gerenteDb).2
    soloAsistente
  = <["rol_id" := VOid (mkOid "660000000000000000000000")]> soloAsistente.
Proof.
  refine (proj2 (post_role_resolves env1 env0 asistenteBody gerenteDb
                   soloAsistente _ _ _));
    reflexivity.
Defined.

(** Two roles created one after the other on an empty catalog, then a
    patch and a delete. *)
Lemma role_routes_keep_catalog_witness :
  List.map role_nombre
    (roles (RolesRun.run [(env0, RolesRun.Post asistenteBody);
                          (env1, RolesRun.Post odontologoBody)] emptyDb))
  = ["Asistente"; "Odontologo"]
  /\
  roles_names_unique
    (RolesRun.run
       [(env0, RolesRun.Post asistenteBody);
        (env1, RolesRun.Post odontologoBody);
        (env2, RolesRun.Patch hexCita permisosPatch);
        (env2, RolesRun.Delete hexCita [])]
       emptyDb).
Proof.
  split; [reflexivity|].
  refine (proj2 (proj2 (role_routes_keep_catalog _ emptyDb _ _ _))).
  - constructor.
  - constructor.
  - constructor.
Defined.

Lemma delete_role_unreferenced_witness :
  (RolesRoute.delete env0 hexAsistente [] seededDb).1
  = json 200 [("ok", VBool true); ("deleted", VNum 1)].
Proof.
  refine (proj1 (delete_role_unreferenced env0 hexAsistente
                   (mkOid hexAsistente) [] seededDb rolAsistente _ _ _ _)).
  - reflexivity.
  - reflexivity.
  - reflexivity.
  - apply (bool_decide_unpack _). by vm_compute.
Defined.

(** ** The delete gates across routes *)

Lemma deleteOne_none {D} (sel : D -> bool) (col : list D) :
  findOne sel col = None -> deleteOne sel col = (0%nat, col).
Proof.
  unfold findOne. induction col as [|x col IH]; simpl; [done|].
  destruct (sel x); [discriminate|]. intros Hf. by rewrite IH.
Qed.

(** X26. When no appointment references a procedure type, or the force
    flag reads as true, the delete goes through the gate: a procedure
    type that exists is removed with answer 200 and the appointments are
    untouched; an identifier that matches none answers 404 and leaves the
    store as it was. Without references the force flag has no effect. *)
Theorem delete_procedimiento_open e id oid force db :
  oidMaybe e (VStr id) = Some oid ->
  countDocuments (Procedimientos.references oid) (citas db) = 0%nat
  \/ Procedimientos.parseBool force = Some true ->
  (forall p,
      findOne (Procedimientos.byProcId oid) (procedimientos_col db) = Some p ->
      exists pre post,
        procedimientos_col db = pre ++ p :: post /\
        Procedimientos.delete e id force db
        = (json 200 [("ok", VBool true); ("deleted", VNum 1)],
           set_procedimientos (pre ++ post) db))
  /\
  (findOne (Procedimientos.byProcId oid) (procedimientos_col db) = None ->
   Procedimientos.delete e id force db = (fail 404 "No encontrado", db)).
Proof.
  intros Hoid Hopen.
  assert (Hgate :
            (0 <? countDocuments (Procedimientos.references oid) (citas db))%nat
            && negb (bool_decide (Procedimientos.parseBool force = Some true))
            = false).
  { destruct Hopen as [-> | ->]; [done|].
    rewrite bool_decide_eq_true_2 by done. apply andb_false_r. }
  split.
  - intros p Hfind.
    destruct (findOne_split _ _ _ Hfind) as (pre & post & Hcol & Hsel & Hpre).
    exists pre, post. split; [done|].
    unfold Procedimientos.delete. rewrite Hoid. cbv zeta. rewrite Hgate.
    by rewrite Hcol, (deleteOne_prefix _ _ _ _ Hpre Hsel).
  - intros Hnone. unfold Procedimientos.delete. rewrite Hoid. cbv zeta.
    by rewrite Hgate, (deleteOne_none _ _ Hnone).
Qed.

Lemma delete_procedimiento_open_witness :
  Procedimientos.delete env0 hexB (Some "yes") procDb
  = (fail 404 "No encontrado", procDb).
Proof.
  refine (proj2 (delete_procedimiento_open env0 hexB oidB (Some "yes")
                   procDb _ _) _).
  - reflexivity.
  - left. reflexivity.
  - reflexivity.
Defined.

Lemma count_map {D B} (f : D -> B) (g : B -> bool) (sel : D -> bool)
    (col col' : list D) :
  (forall d, sel d = g (f d)) ->
  List.map f col' = List.map f col ->
  countDocuments sel col' = countDocuments sel col.
Proof.
  intros Hsel. unfold countDocuments. revert col'.
  induction col as [|x col IH]; intros [|x' col'] Hm; try discriminate;
    [done|].
  simpl in Hm. injection Hm as Hk Hm. simpl. rewrite !Hsel, Hk.
  destruct (g (f x)); simpl; by rewrite (IH _ Hm).
Qed.

(** The soft delete changes neither the patient nor the line items of an
    appointment. *)
Lemma soft_delete_refs e id soft db :
  toLowerCase (default "" soft) = "true" ->
  List.map (fun c => (Store.paciente_id c, procedimientos c))
           (citas (CitasDelete.delete e id soft db).2)
  = List.map (fun c => (Store.paciente_id c, procedimientos c)) (citas db)
  /\ procedimientos_col (CitasDelete.delete e id soft db).2
     = procedimientos_col db
  /\ historias_clinicas (CitasDelete.delete e id soft db).2
     = historias_clinicas db.
Proof.
  intros Hsoft. unfold CitasDelete.delete.
  destruct (oidMaybe e (VStr id)) as [oid|]; [|done].
  rewrite Hsoft. simpl String.eqb. cbv iota.
  destruct (updateOne _ _ _) as [r cs] eqn:Hu.
  destruct (matchedCount r =? 0)%nat; [done|]. simpl.
  split; [|done]. change cs with (r, cs).2. rewrite <- Hu.
  by apply updateOne_map.
Qed.

(** X27. A cancelled appointment still counts as a reference: after a
    soft delete, whatever it matched, the procedure delete and the
    patient delete give the answers they gave before it. *)
Theorem cancelled_cita_still_counts e e' id soft pid force pac pacientes db :
  toLowerCase (default "" soft) = "true" ->
  (Procedimientos.delete e' pid force (CitasDelete.delete e id soft db).2).1
  = (Procedimientos.delete e' pid force db).1
  /\ Pacientes.delete pac pacientes (CitasDelete.delete e id soft db).2
     = Pacientes.delete pac pacientes db.
Proof.
  intros Hsoft.
  destruct (soft_delete_refs e id soft db Hsoft) as (Hc & Hp & Hh).
  split.
  - unfold Procedimientos.delete.
    destruct (oidMaybe e' (VStr pid)) as [oid|]; [|done]. cbv zeta.
    rewrite Hp.
    rewrite (count_map (fun c => (Store.paciente_id c, procedimientos c))
               (fun k => existsb
                            (fun li => bool_decide
                                         (procedimiento_id li = Some oid))
                            k.2)
               (Procedimientos.references oid) _ _ (fun _ => eq_refl) Hc).
    destruct (_ && _); [done|].
    destruct (deleteOne _ _) as [n ps]. by destruct (n =? 0)%nat.
  - unfold Pacientes.delete. rewrite Hh.
    by rewrite (count_map (fun c => (Store.paciente_id c, procedimientos c))
                  (fun k => String.eqb k.1 pac)
                  (Pacientes.citaDe pac) _ _ (fun _ => eq_refl) Hc).
Qed.

Lemma cancelled_cita_still_counts_witness :
  (Procedimientos.delete env0 hexA None
     (CitasDelete.delete env1 hexB (Some "True") procDb).2).1
  = (Procedimientos.delete env0 hexA None procDb).1.
Proof.
  refine (proj1 (cancelled_cita_still_counts env1 env0 hexB (Some "True")
                   hexA None "123" [] procDb _)).
  reflexivity.
Defined.

Lemma findOne_count {D} (sel : D -> bool) (col : list D) d :
  findOne sel col = Some d -> (1 <= countDocuments sel col)%nat.
Proof.
  intros Hf. destruct (findOne_split _ _ _ Hf) as (pre & post & -> & Hd & _).
  unfold countDocuments. rewrite List.filter_app, length_app. simpl.
  rewrite Hd. simpl. lia.
Qed.

Lemma delete_procedimiento_patients e pid index db :
  List.map hist_paciente_id
    (historias_clinicas (Historias.delete_procedimiento e pid index db).2)
  = List.map hist_paciente_id (historias_clinicas db)
  /\ citas (Historias.delete_procedimiento e pid index db).2 = citas db.
Proof.
  unfold Historias.delete_procedimiento.
  destruct (parseInt10 index) as [idx|]; [|done].
  destruct (idx <? 0); [done|].
  destruct (findOne _ _) as [h|]; [|done].
  destruct (negb _); [done|].
  destruct (updateOne _ _ (historias_clinicas db)) as [r1 hs1] eqn:H1.
  destruct (updateOne _ _ hs1) as [r2 hs2] eqn:H2. simpl.
  split; [|done].
  change hs2 with (r2, hs2).2. rewrite <- H2, updateOne_map by done.
  change hs1 with (r1, hs1).2. rewrite <- H1. by apply updateOne_map.
Qed.

(** X28. A history entry binds the patient for good: after a valid
    append the patient delete answers 409 and removes nothing, and it
    still does after any request to delete a procedure of a history, since
    that route removes array elements and never the history document. *)
Theorem history_blocks_patient_delete
    e e' b parsed pid' index pacientes db :
  HistoriasAppend.HistoriaAppend e (HistoriasAppend.mapAlias b) = Some parsed ->
  let pid := trim (HistoriasAppend.paciente_id parsed) in
  let db1 := (HistoriasAppend.post e b db).2 in
  let db2 := (Historias.delete_procedimiento e' pid' index db1).2 in
  status (Pacientes.delete pid pacientes db1).1 = 409%nat
  /\ (Pacientes.delete pid pacientes db1).2 = pacientes
  /\ Pacientes.delete pid pacientes db2 = Pacientes.delete pid pacientes db1.
Proof.
  intros Hparse pid db1 db2.
  destruct (append_extends_aux e b parsed db Hparse) as (Hp & _).
  fold pid in Hp. fold db1 in Hp.
  unfold Historias.procedimientosOf in Hp.
  destruct (findOne (Historias.byPaciente pid) (historias_clinicas db1))
    as [h|] eqn:Hfind; [|discriminate].
  apply findOne_count in Hfind.
  assert (Hgate :
            (0 <? countDocuments (Pacientes.citaDe pid) (citas db1)
                  + countDocuments (Historias.byPaciente pid)
                                   (historias_clinicas db1))%nat = true).
  { apply Nat.ltb_lt. lia. }
  assert (H1 : Pacientes.delete pid pacientes db1
               = (json 409
                    [("ok", VBool false);
                     ("error", VStr Pacientes.conReferencias);
                     ("refs",
                      VObj [("citas",
                             num (countDocuments (Pacientes.citaDe pid)
                                                 (citas db1)));
                            ("historia",
                             num (countDocuments (Historias.byPaciente pid)
                                    (historias_clinicas db1)))])],
                  pacientes)).
  { unfold Pacientes.delete. cbv zeta. by rewrite Hgate. }
  split; [by rewrite H1|]. split; [by rewrite H1|].
  destruct (delete_procedimiento_patients e' pid' index db1) as [Hh Hc].
  fold db2 in Hh, Hc. unfold Pacientes.delete. rewrite Hc.
  by rewrite (count_map hist_paciente_id (fun k => String.eqb k pid)
                (Historias.byPaciente pid) _ _ (fun _ => eq_refl) Hh).
Qed.

Lemma history_blocks_patient_delete_witness :
  status (Pacientes.delete "123" []
            (HistoriasAppend.post env2 appendUno emptyDb).2).1 = 409%nat.
Proof.
  refine (proj1 (history_blocks_patient_delete env2 env0 appendUno
                   appendUnoParsed "123" "0" [] emptyDb _)).
  reflexivity.
Defined.

Lemma count_snoc {D} (sel : D -> bool) (col : list D) d :
  sel d = true ->
  countDocuments sel (col ++ [d]) = S (countDocuments sel col).
Proof.
  intros Hd. unfold countDocuments.
  rewrite List.filter_app, length_app. simpl. rewrite Hd. simpl. lia.
Qed.

(** X29. A user created from a role name alone binds the role twice: the
    resolver fills in the identifier, so when the creation is answered 201
    the stored user references the role by identifier and by name. The
    role delete is then refused with 409 and changes nothing; one more
    user references the role, but the two counts of the answer grow by
    two together. When a stored user already holds the address of the
    request, the unique index refuses the insertion: the answer is 400
    "Correo ya registrado" and nothing is stored. *)
Theorem created_user_blocks_role_delete
    e e' (parsed : gmap string value) nombre r id query db :
  parsed !! "rol" = Some (VStr nombre) ->
  parsed !! "rol_id" = None ->
  Roles.isRoleName (VStr nombre) = true ->
  findOne (Roles.byNombre (VStr nombre)) (roles db) = Some r ->
  findOne (Roles.byId (role_id r)) (roles db) = Some r ->
  oidMaybe e' (VStr id) = Some (role_id r) ->
  let db' := (Usuarios.crearUsuario e parsed db).2 in
  (status (Usuarios.crearUsuario e parsed db).1 = 201%nat ->
   status (RolesRoute.delete e' id query db').1 = 409%nat
   /\ (RolesRoute.delete e' id query db').2 = db'
   /\ length (usuarios db') = S (length (usuarios db))
   /\ RolesRoute.usersReferencing r db'
      = S (RolesRoute.usersReferencing r db)
   /\ (countDocuments (RolesRoute.refById (role_id r)) (usuarios db')
       + countDocuments (RolesRoute.refByString (role_nombre r))
                        (usuarios db')
       = countDocuments (RolesRoute.refById (role_id r)) (usuarios db)
         + countDocuments (RolesRoute.refByString (role_nombre r))
                          (usuarios db) + 2)%nat)
  /\
  (forall (u : gmap string value) c,
      u ∈ usuarios db ->
      u !! "correo" = Some (VStr c) ->
      parsed !! "correo" = Some (VStr c) ->
      Usuarios.crearUsuario e parsed db
      = (json 400 [("ok", VBool false);
                   ("error", VStr "Correo ya registrado")], db)).
Proof.
  intros Hrol Hid Hname Hbyname Hbyid Hoid db'.
  assert (Hnom : role_nombre r = nombre).
  { apply findOne_sel in Hbyname. unfold Roles.byNombre in Hbyname.
    apply bool_decide_eq_true in Hbyname. congruence. }
  assert (Htruthy : truthy (VStr nombre) = true).
  { simpl. destruct nombre; [by vm_compute in Hname | done]. }
  assert (Hnorm : Roles.normalizeRole e db parsed
                  = <["rol_id" := VOid (role_id r)]> parsed).
  { unfold Roles.normalizeRole, Roles.get. rewrite Hrol, Hid. simpl default.
    rewrite Htruthy. cbn [truthy negb andb]. rewrite Hname. cbn [negb].
    by rewrite Hbyname. }
  split.
  - intros H201.
    assert (Hdb' : exists u,
               db' = set_usuarios (usuarios db ++ [u]) db
               /\ Roles.get u "rol_id" = VOid (role_id r)
               /\ Roles.get u "rol" = VStr nombre).
    { unfold db'. revert H201. unfold Usuarios.crearUsuario. cbv zeta.
      rewrite Hnorm. destruct (Usuarios.correoTaken _ _); [discriminate|].
      intros _. eexists. split; [reflexivity|]. split.
      - rewrite !get_insert_ne by done. apply get_insert_eq.
      - rewrite !get_insert_ne by done. unfold Roles.get. by rewrite Hrol. }
    destruct Hdb' as (u & Hdb' & Hu1 & Hu2). clearbody db'. subst db'.
    assert (Hr1 : RolesRoute.refById (role_id r) u = true).
    { unfold RolesRoute.refById. rewrite Hu1. simpl.
      by apply bool_decide_eq_true. }
    assert (Hr2 : RolesRoute.refByString (role_nombre r) u = true).
    { unfold RolesRoute.refByString. rewrite Hu2, Hnom. simpl.
      by apply bool_decide_eq_true. }
    assert (Hc1 := count_snoc (RolesRoute.refById (role_id r))
                     (usuarios db) u Hr1).
    assert (Hc2 := count_snoc (RolesRoute.refByString (role_nombre r))
                     (usuarios db) u Hr2).
    assert (Hc3 : RolesRoute.usersReferencing r
                    (set_usuarios (usuarios db ++ [u]) db)
                  = S (RolesRoute.usersReferencing r db)).
    { unfold RolesRoute.usersReferencing. simpl. apply count_snoc.
      unfold RolesRoute.referencedBy. by rewrite Hr1. }
    destruct (delete_role_refuses e' id (role_id r) query
                (set_usuarios (usuarios db ++ [u]) db) r Hoid Hbyid)
      as (n1 & n2 & Hdel & _).
    { rewrite Hc3. lia. }
    rewrite Hdel. simpl usuarios. rewrite Hc1, Hc2.
    split; [done|]. split; [done|].
    split; [rewrite length_app; simpl; lia|]. split; [done|]. lia.
  - intros u c Hu Hcu Hcp.
    unfold Usuarios.crearUsuario. cbv zeta. rewrite Hnorm.
    assert (Htaken : Usuarios.correoTaken
                       (<["updatedAt" := VDate (now e)]>
                          (<["createdAt" := VDate (now e)]>
                             (<["especialidad" :=
                                  Usuarios.especialidadOf
                                    (Roles.get
                                       (<["rol_id" := VOid (role_id r)]>
                                          parsed) "especialidad")]>
                                (<["rol_id" := VOid (role_id r)]> parsed))))
                       (usuarios db) = true).
    { unfold Usuarios.correoTaken. apply existsb_exists. exists u.
      split; [by apply list_elem_of_In|].
      apply bool_decide_eq_true. unfold Usuarios.correoKey.
      rewrite !get_insert_ne by done.
      unfold Roles.get. by rewrite Hcu, Hcp. }
    by rewrite Htaken.
Qed.

(** On the seeded catalog without users the creation is answered 201 and
    the role delete refused; on the store that already holds the user of
    that address the second creation is answered 400. *)
Lemma created_user_blocks_role_delete_witness :
  status (RolesRoute.delete env0 hexAsistente []
            (Usuarios.crearUsuario env1 anaPayload seededDb).2).1
  = 409%nat
  /\
  Usuarios.crearUsuario env1 anaPayload oneUserDb
  = (json 400 [("ok", VBool false);
               ("error", VStr "Correo ya registrado")], oneUserDb).
Proof.
  split.
  - refine (proj1 (proj1 (created_user_blocks_role_delete env1 env0
                            anaPayload "Asistente" rolAsistente
                            hexAsistente [] seededDb _ _ _ _ _ _) _));
      reflexivity.
  - refine (proj2 (created_user_blocks_role_delete env1 env0
                     anaPayload "Asistente" rolAsistente
                     hexAsistente [] oneUserDb _ _ _ _ _ _)
                  (default ∅ (head (usuarios oneUserDb)))
                  "ana@example.com" _ _ _).
    all: try reflexivity.
    vm_compute. left.
Defined.

(** ** Updating a user *)

Lemma foldl_copyKey_lookup np (ks : list string) (s : gmap string value) k :
  ~ In k ks -> foldl (UsuariosPatch.copyKey np) s ks !! k = s !! k.
Proof.
  revert s. induction ks as [|k0 ks IH]; intros s Hk; [done|]. simpl.
  rewrite IH by (intros H; apply Hk; by right).
  unfold UsuariosPatch.copyKey. destruct (nullish _); [done|].
  apply lookup_insert_ne. intros ->. apply Hk. by left.
Qed.

(** The [$set] of the update never names [_id] nor [userId]. *)
Lemma buildSet_identity e np s :
  UsuariosPatch.buildSet e np = Some s ->
  s !! "_id" = None /\ s !! "userId" = None.
Proof.
  unfold UsuariosPatch.buildSet. cbv zeta.
  set (s1 := foldl _ _ _).
  assert (H1 : s1 !! "_id" = None /\ s1 !! "userId" = None).
  { unfold s1. split; rewrite foldl_copyKey_lookup.
    - done.
    - vm_compute. intuition discriminate.
    - done.
    - vm_compute. intuition discriminate. }
  clearbody s1. destruct H1 as [Ha Hb].
  destruct (Roles.get np "correo"); simpl; try discriminate;
    destruct (Roles.get np "especialidad"); intros [= <-];
    rewrite ?lookup_insert_ne by done; done.
Qed.

(** X30. Updating a user never changes the [_id] or the [userId] of any
    user, nor the role catalog, whatever the request; and when the body
    carries a [userId] the identifier of the path is not read at all: the
    request has the same outcome under every path identifier, a malformed
    one included. *)
Theorem actualizar_keeps_identity e id id' (patch : gmap string value) db :
  truthy (Roles.get patch "userId") = true ->
  UsuariosPatch.actualizarUsuario e id' patch db
  = UsuariosPatch.actualizarUsuario e id patch db
  /\ List.map (fun u : Usuario => (u !! "_id", u !! "userId"))
       (usuarios (UsuariosPatch.actualizarUsuario e id patch db).2)
     = List.map (fun u : Usuario => (u !! "_id", u !! "userId"))
         (usuarios db)
  /\ roles (UsuariosPatch.actualizarUsuario e id patch db).2 = roles db.
Proof.
  intros Huser. unfold UsuariosPatch.actualizarUsuario. rewrite Huser.
  split; [done|]. cbv zeta.
  destruct (UsuariosPatch.buildSet e _) as [s|] eqn:Hs; [|done].
  destruct (bool_decide _); [done|].
  destruct (UsuariosPatch.correoTaken _ _ _); [done|].
  destruct (updateOne _ _ _) as [r us] eqn:Hu.
  destruct (matchedCount r =? 0)%nat; [done|]. simpl. split; [|done].
  change us with (r, us).2. rewrite <- Hu. apply updateOne_map.
  intros u. destruct (buildSet_identity _ _ _ Hs) as [Ha Hb].
  unfold UsuariosPatch.applySet. cbv beta.
  f_equal; by apply lookup_union_r.
Qed.

Lemma actualizar_keeps_identity_witness :
  UsuariosPatch.actualizarUsuario env1 "no-es-un-id" patchPorUserId unUsuarioDb
  = UsuariosPatch.actualizarUsuario env1 hexB patchPorUserId unUsuarioDb.
Proof.
  refine (proj1 (actualizar_keeps_identity env1 hexB "no-es-un-id"
                   patchPorUserId unUsuarioDb _)).
  reflexivity.
Defined.
